(** * RF measurement bench: instrument drivers and test-set runner

    A shallow embedding of the measurement core of the repository
    (src/measurements/nr5g_fr1.py, src/measurements/spur_search.py,
    src/measurements/SubThermalNoise.py, src/utils/utils.py and the
    run_* functions and the report rows of src/main.py), the properties
    its specification states about it, and further properties read off
    the code.

    Conventions of the embedding:
    - a Python [float] is a binary64 number, Rocq's primitive [float];
    - a Python [str] is a [string]; its characters are read as code
      points below 256;
    - a Python [int] is a [Z];
    - the two instruments and the wall clock are an oracle ([world]): every
      socket operation and every clock reading asks it, so a statement
      quantified over worlds holds for every instrument behaviour,
      failures included;
    - logging and printing are not part of the model. *)

From Stdlib Require Import ZArith String Ascii List Floats DecimalString DecimalZ Lia.
Set Warnings "-inexact-float".
From stdpp Require Import gmap strings list.

Open Scope string_scope.

(** ** Python built-ins used by the sources *)

Module Py.

(** Exceptions. Every kind below derives from Python's [Exception]. *)
Inductive exn_kind := ValueError | OSError | NameError | TypeError.

Inductive exn := Exn (kind : exn_kind) (msg : string).

Definition exn_msg (e : exn) : string := let 'Exn _ m := e in m.

Definition is_ValueError (e : exn) : bool :=
  match e with Exn ValueError _ => true | _ => false end.

(** The double quote and the line feed, as one-character strings. *)
Definition dquote : string := String (ascii_of_N 34) EmptyString.
Definition newline : string := String (ascii_of_N 10) EmptyString.

(** Truth value of an optional string: [None] and [''] are false. *)
Definition truthy (o : option string) : bool :=
  match o with
  | Some (String _ _) => true
  | _ => false
  end.

(** [c.isdigit()] and [c.isspace()] on code points below 256. *)
Definition isdigit (c : ascii) : bool :=
  let n := N_of_ascii c in ((48 <=? n) && (n <=? 57))%N.

Definition isspace (c : ascii) : bool :=
  let n := N_of_ascii c in
  (((9 <=? n) && (n <=? 13)) || ((28 <=? n) && (n <=? 32))
   || (n =? 133) || (n =? 160))%N.

Fixpoint lstrip (s : string) : string :=
  match s with
  | String c r => if isspace c then lstrip r else s
  | EmptyString => EmptyString
  end.

Fixpoint rstrip (s : string) : string :=
  match s with
  | String c r =>
      match rstrip r with
      | EmptyString => if isspace c then EmptyString else String c EmptyString
      | r' => String c r'
      end
  | EmptyString => EmptyString
  end.

(** [s.strip()] *)
Definition strip (s : string) : string := rstrip (lstrip s).

(** The white space [float()] skips around a literal: tab to carriage
    return, the space, and the spaces U+0085 and U+00A0. The separators
    U+001C to U+001F, white space for [isspace] and [strip], are not
    skipped: a literal next to one is invalid. *)
Definition float_space (c : ascii) : bool :=
  let n := N_of_ascii c in
  (((9 <=? n) && (n <=? 13)) || (n =? 32) || (n =? 133) || (n =? 160))%N.

Fixpoint lstrip_float (s : string) : string :=
  match s with
  | String c r => if float_space c then lstrip_float r else s
  | EmptyString => EmptyString
  end.

Fixpoint rstrip_float (s : string) : string :=
  match s with
  | String c r =>
      match rstrip_float r with
      | EmptyString => if float_space c then EmptyString else String c EmptyString
      | r' => String c r'
      end
  | EmptyString => EmptyString
  end.

Definition strip_float (s : string) : string := rstrip_float (lstrip_float s).

(** [s.startswith(p)], returning what follows the prefix. *)
Fixpoint strip_prefix (p s : string) : option string :=
  match p, s with
  | EmptyString, _ => Some s
  | String a p', String b s' => if Ascii.eqb a b then strip_prefix p' s' else None
  | String _ _, EmptyString => None
  end.

(** [s.split(sep)] for a one-character separator. *)
Fixpoint split (sep : ascii) (s : string) : list string :=
  match s with
  | EmptyString => [EmptyString]
  | String c r =>
      if Ascii.eqb c sep then EmptyString :: split sep r
      else match split sep r with
           | h :: t => String c h :: t
           | [] => [String c EmptyString]
           end
  end.

Fixpoint replace_from (old new : string) (skip : nat) (s : string) : string :=
  match s with
  | EmptyString => EmptyString
  | String c r =>
      match skip with
      | S k => replace_from old new k r
      | O =>
          match strip_prefix old s with
          | Some _ => new ++ replace_from old new (String.length old - 1) r
          | None => String c (replace_from old new 0 r)
          end
      end
  end.

Fixpoint intersperse (new s : string) : string :=
  match s with
  | EmptyString => new
  | String c r => new ++ String c (intersperse new r)
  end.

(** [s.replace(old, new)]: every occurrence, left to right, without overlap. *)
Definition replace (old new s : string) : string :=
  match old with
  | EmptyString => intersperse new s
  | _ => replace_from old new 0 s
  end.

(** [os.path.basename(p)] with POSIX separators: what follows the last
    slash. *)
Fixpoint basename (p : string) : string :=
  match p with
  | EmptyString => EmptyString
  | String c r =>
      if existsb (Ascii.eqb "/") (list_ascii_of_string r) then basename r
      else if Ascii.eqb c "/" then r else p
  end.

Definition digit_value (c : ascii) : Z := Z.of_N (N_of_ascii c) - 48.

(** The digits of [int(s)]: decimal digits, single underscores allowed
    between two digits only. *)
Fixpoint int_digits (after_digit : bool) (acc : Z) (s : string) : option Z :=
  match s with
  | EmptyString => if after_digit then Some acc else None
  | String c r =>
      if isdigit c then int_digits true (10 * acc + digit_value c) r
      else if Ascii.eqb c "_" then
             if after_digit then int_digits false acc r else None
      else None
  end.

Definition split_sign (s : string) : bool * string :=
  match s with
  | String "-" r => (true, r)
  | String "+" r => (false, r)
  | _ => (false, s)
  end.

(** [int(s)] for a string [s], base 10: surrounding white space, an
    optional sign, then the digits. Python integers are unbounded; the
    interpreter's configurable cap on the length of a digit string is not
    modelled. *)
Definition int_of_str (s : string) : exn + Z :=
  let '(neg, body) := split_sign (strip s) in
  match int_digits false 0 body with
  | Some n => inr (if neg then - n else n)%Z
  | None => inl (Exn ValueError "invalid literal for int() with base 10")
  end.

(** The decimal digits of a string read as a number (no validation). *)
Fixpoint digits_value (acc : Z) (s : string) : Z :=
  match s with
  | EmptyString => acc
  | String c r => digits_value (10 * acc + digit_value c) r
  end.

(** The longest run of digits at the head of a string, and what follows. *)
Fixpoint span_digits (s : string) : string * string :=
  match s with
  | String c r =>
      if isdigit c then let '(ds, rest) := span_digits r in (String c ds, rest)
      else (EmptyString, s)
  | EmptyString => (EmptyString, EmptyString)
  end.

(** Numeric literals accept single underscores between two digits; they
    are dropped before conversion, and an underscore anywhere else makes
    the literal invalid. *)
Fixpoint drop_underscores (after_digit : bool) (s : string) : option string :=
  match s with
  | EmptyString => Some EmptyString
  | String c r =>
      if Ascii.eqb c "_" then
        match r with
        | String d _ =>
            if after_digit && isdigit d then drop_underscores false r else None
        | EmptyString => None
        end
      else option_map (String c) (drop_underscores (isdigit c) r)
  end.

Definition lower (c : ascii) : ascii :=
  let n := N_of_ascii c in
  if ((65 <=? n) && (n <=? 90))%N then ascii_of_N (n + 32) else c.

Fixpoint lowercase (s : string) : string :=
  match s with
  | EmptyString => EmptyString
  | String c r => String (lower c) (lowercase r)
  end.

(** The binary64 number nearest to [(-1)^neg * m * 10^e10] (ties to even),
    as the interpreter's correctly rounded conversion gives it. *)
Definition float_of_decimal (neg : bool) (m e10 : Z) : float :=
  match m with
  | Zpos p =>
      let '(num, den) :=
        match e10 with
        | Zneg k => (p, Pos.pow 10 k)
        | Z0 => (p, 1%positive)
        | Zpos k => ((p * Pos.pow 10 k)%positive, 1%positive)
        end in
      SF2Prim (SFdiv prec emax (S754_finite neg num 0) (S754_finite false den 0))
  | _ => if neg then (-0)%float else 0%float
  end.

(** The exponent part of a float literal: nothing, or [e]/[E], an optional
    sign and at least one digit, up to the end of the string. *)
Definition float_exponent (s : string) : option Z :=
  match s with
  | EmptyString => Some 0%Z
  | String c r =>
      if Ascii.eqb (lower c) "e" then
        let '(neg, ds) := split_sign r in
        match span_digits ds with
        | (String d ds', EmptyString) =>
            let v := digits_value 0 (String d ds') in
            Some (if neg then - v else v)%Z
        | _ => None
        end
      else None
  end.

(** [float(s)] for a string [s]: surrounding white space as [float_space]
    has it, an optional sign, then [inf], [infinity] or [nan] in any case,
    or a decimal literal with an optional fraction and exponent. Anything
    else is a [ValueError]. *)
Definition float_of_str (s : string) : exn + float :=
  let bad := inl (Exn ValueError "could not convert string to float") in
  match drop_underscores false (strip_float s) with
  | None => bad
  | Some t =>
      let '(neg, body) := split_sign t in
      let word := lowercase body in
      if (String.eqb word "inf" || String.eqb word "infinity")%bool then
        inr (if neg then neg_infinity else infinity)
      else if String.eqb word "nan" then inr nan
      else
        let '(ip, rest) := span_digits body in
        let '(fp, rest) :=
          match rest with
          | String "." r => span_digits r
          | _ => (EmptyString, rest)
          end in
        match (ip ++ fp)%string, float_exponent rest with
        | String _ _ as ds, Some e =>
            inr (float_of_decimal neg (digits_value 0 ds)
                   (e - Z.of_nat (String.length fp)))
        | _, _ => bad
        end
  end.

(** [str(n)] for an integer. *)
Definition str_int (n : Z) : string := NilZero.string_of_int (Z.to_int n).

(** The last [k] decimal digits of [n], zero-padded. *)
Fixpoint last_digits (k : nat) (n : Z) : string :=
  match k with
  | O => EmptyString
  | S k' =>
      (last_digits k' (n / 10) ++
       String (ascii_of_N (Z.to_N (48 + n mod 10))) EmptyString)%string
  end.

(** [m * 2^e * 10^d] rounded to the nearest integer, ties to even. *)
Definition round_scaled (m : positive) (e : Z) (d : nat) : Z :=
  let n := (Zpos m * 10 ^ Z.of_nat d)%Z in
  match e with
  | Zneg k =>
      let den := Z.pow_pos 2 k in
      let q := (n / den)%Z in
      let r := (n mod den)%Z in
      match (2 * r ?= den)%Z with
      | Lt => q
      | Gt => (q + 1)%Z
      | Eq => if Z.even q then q else (q + 1)%Z
      end
  | _ => (n * 2 ^ e)%Z
  end.

(** [f"{x:.<d>f}"]: fixed-point notation with [d] fractional digits,
    correctly rounded. *)
Definition format_fixed (d : nat) (x : float) : string :=
  match Prim2SF x with
  | S754_nan => "nan"
  | S754_infinity s => if s then "-inf" else "inf"
  | S754_zero s =>
      ((if s then "-" else "") ++ "0" ++
       match d with O => "" | _ => "." ++ last_digits d 0 end)%string
  | S754_finite s m e =>
      let q := round_scaled m e d in
      let scale := (10 ^ Z.of_nat d)%Z in
      ((if s then "-" else "") ++ str_int (q / scale) ++
       match d with O => "" | _ => "." ++ last_digits d (q mod scale) end)%string
  end.

End Py.

(** ** Instruments, clock and exceptions *)

Module IO.
Import Py.

Inductive role := VSA | VSG.

(** A SCPI line as the f-string that builds it: literal text, and floats
    interpolated with their default [str()] form, kept as numbers. *)
Inductive piece := Txt (s : string) | Num (x : float).

Definition command := list piece.

Inductive outcome := Fails (e : exn) | Replies (s : string).

(** What the program cannot control: how the instrument behind a socket
    meets the [n]-th socket operation of the run, and what the [n]-th
    reading of [timeit.default_timer] shows. *)
Record world := World {
  socket : role -> nat -> command -> outcome;
  timer : nat -> float }.

(** Ghost record of a run: driver methods entered and SCPI lines sent. *)
Inductive event :=
| Call (method : string)
| Write (r : role) (c : command)
| Query (r : role) (c : command).

(** A driver object [self : D] with the sockets it holds. *)
Record device (D : Type) := Device {
  ops : nat;
  ticks : nat;
  trace : list event;
  self : D }.

Arguments Device {D} _ _ _ _.
Arguments ops {D} _.
Arguments ticks {D} _.
Arguments trace {D} _.
Arguments self {D} _.

(** Computations over a state [S] that may raise. *)
Definition M (S A : Type) : Type := world -> S -> (exn + A) * S.

Definition ret {S A} (a : A) : M S A := fun _ s => (inr a, s).

Definition bind {S A B} (m : M S A) (k : A -> M S B) : M S B :=
  fun w s =>
    match m w s with
    | (inr a, s') => k a w s'
    | (inl e, s') => (inl e, s')
    end.

Definition raise {S A} (e : exn) : M S A := fun _ s => (inl e, s).

(** [try: body except Exception as e: handler] *)
Definition try_except {S A} (body : M S A) (handler : exn -> M S A) : M S A :=
  fun w s =>
    match body w s with
    | (inl e, s') => handler e w s'
    | r => r
    end.

(** [try: body except ValueError: handler] *)
Definition try_except_ValueError {S A} (body : M S A) (handler : exn -> M S A)
  : M S A :=
  try_except body (fun e => if is_ValueError e then handler e else raise e).

Definition get {S} : M S S := fun _ s => (inr s, s).

Definition modify {S} (f : S -> S) : M S unit := fun _ s => (inr tt, f s).

(** A computation on a part [T] of the state, run inside the whole. *)
Definition zoom {S T A} (proj : S -> T) (inj : T -> S -> S) (m : M T A) : M S A :=
  fun w s => let '(r, t) := m w (proj s) in (r, inj t s).

(** The value of an expression that may raise. *)
Definition eval {S A} (r : exn + A) : M S A := fun _ s => (r, s).

#[global] Instance M_ret {S} : MRet (M S) := fun A => @ret S A.
#[global] Instance M_bind {S} : MBind (M S) := fun A B k m => @bind S A B m k.

Section Device.
Context {D : Type}.

Definition with_self (d : D) (s : device D) : device D :=
  Device (ops s) (ticks s) (trace s) d.

Definition log (e : event) : M (device D) unit :=
  modify (fun s => Device (ops s) (ticks s) (trace s ++ [e]) (self s)).

Definition get_self : M (device D) D := fun _ s => (inr (self s), s).

Definition set_self (f : D -> D) : M (device D) unit :=
  modify (fun s => with_self (f (self s)) s).

(** One operation on a socket: the line goes out, the world answers. *)
Definition socket_op (ev : event) (r : role) (c : command) : M (device D) string :=
  fun w s =>
    let s' := Device (S (ops s)) (ticks s) (trace s ++ [ev]) (self s) in
    match socket w r (ops s) c with
    | Fails e => (inl e, s')
    | Replies t => (inr t, s')
    end.

(** [iSocket.write] *)
Definition write (r : role) (c : command) : M (device D) unit :=
  socket_op (Write r c) r c;; mret tt.

(** [iSocket.query]: the reply, stripped. *)
Definition query (r : role) (c : command) : M (device D) string :=
  t ← socket_op (Query r c) r c; mret (strip t).

(** [iSocket.queryFloat] *)
Definition queryFloat (r : role) (c : command) : M (device D) float :=
  t ← query r c; eval (float_of_str t).

(** [iSocket.clear_error] *)
Definition clear_error (r : role) : M (device D) unit :=
  query r [Txt ":SYST:ERR?"];; mret tt.

(** [timeit.default_timer()] *)
Definition default_timer : M (device D) float :=
  fun w s => (inr (timer w (ticks s)), Device (ops s) (S (ticks s)) (trace s) (self s)).

(** [utils.method_timer]: the decorated method returns its result paired
    with the time it took; an exception of the method passes through. *)
Definition method_timer {A} (name : string) (method : M (device D) A)
  : M (device D) (A * float) :=
  log (Call name);;
  start_time ← default_timer;
  result ← method;
  stop_time ← default_timer;
  let delta_time := (stop_time - start_time)%float in
  mret (result, delta_time).

End Device.

End IO.

(** ** src/measurements/nr5g_fr1.py *)

Module NR5G.
Import Py IO.

(** *** File-name grammar

    The pattern of [_validate_file_names] and [_extract_waveform_params]:
    [^5GNR_(UL|DL)_(\d+MHz)_(QPSK|16QAM|64QAM|256QAM|1024QAM)_(\d+kHz)_(\d+RB)_(\d+RBO)\.wv$]
    (extension [dfl] for set-up files). Every alternative and every run of
    digits is followed by a literal that neither a digit nor another
    alternative can start, so the first match found is the only one and the
    matcher below never needs to back up. *)

Definition modulations : list string :=
  ["QPSK"; "16QAM"; "64QAM"; "256QAM"; "1024QAM"].

(** [(a|b|...)]: the first alternative that the text starts with. *)
Fixpoint alternation (alts : list string) (s : string) : option (string * string) :=
  match alts with
  | [] => None
  | a :: alts' =>
      match strip_prefix a s with
      | Some rest => Some (a, rest)
      | None => alternation alts' s
      end
  end.

(** [(\d+UNIT)]: the group holds the digits and the unit. *)
Definition digits_unit (unit s : string) : option (string * string) :=
  match span_digits s with
  | (String d ds, rest) =>
      rest' ← strip_prefix unit rest; Some (String d ds ++ unit, rest')
  | _ => None
  end.

(** [$]: the end of the text, or just before a final line feed. *)
Definition at_end (s : string) : bool :=
  (String.eqb s "" || String.eqb s newline)%bool.

(** [re.match(pattern, file_name)]: the six groups of a match. *)
Definition match_file_name (ext file_name : string)
  : option (string * string * string * string * string * string) :=
  s ← strip_prefix "5GNR_" file_name;
  '(g1, s) ← alternation ["UL"; "DL"] s;
  s ← strip_prefix "_" s;
  '(g2, s) ← digits_unit "MHz" s;
  s ← strip_prefix "_" s;
  '(g3, s) ← alternation modulations s;
  s ← strip_prefix "_" s;
  '(g4, s) ← digits_unit "kHz" s;
  s ← strip_prefix "_" s;
  '(g5, s) ← digits_unit "RB" s;
  s ← strip_prefix "_" s;
  '(g6, s) ← digits_unit "RBO" s;
  s ← strip_prefix ("." ++ ext) s;
  if at_end s then Some (g1, g2, g3, g4, g5, g6) else None.

(** The dictionary [_extract_waveform_params] returns when it is not empty. *)
Record waveform_descriptor := WaveformDescriptor {
  signal_type : string;
  link_direction : string;
  bandwidth_mhz : Z;
  modulation : string;
  subcarrier_spacing_khz : Z;
  resource_blocks : Z;
  resource_block_offset : Z;
  duplexing : string }.

(** [_validate_file_names] *)
Definition _validate_file_names (waveform_file setup_file : option string)
  : exn + unit :=
  let check (file_path : option string) (file_type ext : string) : exn + unit :=
    match file_path with
    | Some path =>
        if truthy file_path then
          let file_name := strip (basename path) in
          match match_file_name ext file_name with
          | Some _ => inr tt
          | None =>
              inl (Exn ValueError
                     ("Invalid " ++ file_type ++ " file name: " ++ file_name))
          end
        else inr tt
    | None => inr tt
    end in
  match check waveform_file "waveform" "wv" with
  | inr _ => check setup_file "setup" "dfl"
  | inl e => inl e
  end.

(** [_extract_waveform_params]; [None] is the empty dictionary. *)
Definition _extract_waveform_params (waveform_file : string)
  : option waveform_descriptor :=
  let file_name := strip (basename waveform_file) in
  match match_file_name "wv" file_name with
  | None => None
  | Some (g1, g2, g3, g4, g5, g6) =>
      let link_direction := g1 in
      match int_of_str (replace "MHz" "" g2), int_of_str (replace "kHz" "" g4),
            int_of_str (replace "RB" "" g5), int_of_str (replace "RBO" "" g6) with
      | inr bw, inr scs, inr rb, inr rbo =>
          Some {| signal_type := "5GNR";
                  link_direction := link_direction;
                  bandwidth_mhz := bw;
                  modulation := g3;
                  subcarrier_spacing_khz := scs;
                  resource_blocks := rb;
                  resource_block_offset := rbo;
                  duplexing :=
                    if String.eqb link_direction "UL" then "FDD" else "TDD" |}
      | _, _, _, _ => None
      end
  end.

(** *** The driver object *)

Record std_insr_driver := Driver {
  waveform_params : option waveform_descriptor;
  rb : Z;
  rbo : Z;
  bw : Z;
  mod_ : string;
  scs : Z;
  dupl : string;
  ldir : string;
  freq : float;
  pwr : float;
  waveform_file : option string;
  setup_file : option string;
  swp_time : float }.

Definition set_freq (f : float) (d : std_insr_driver) : std_insr_driver :=
  Driver (waveform_params d) (rb d) (rbo d) (bw d) (mod_ d) (scs d) (dupl d) (ldir d)
    f (pwr d) (waveform_file d) (setup_file d) (swp_time d).

Definition set_pwr (p : float) (d : std_insr_driver) : std_insr_driver :=
  Driver (waveform_params d) (rb d) (rbo d) (bw d) (mod_ d) (scs d) (dupl d) (ldir d)
    (freq d) p (waveform_file d) (setup_file d) (swp_time d).

(** [__init__], the attributes. The constructor also opens the two sockets
    (kept in class attributes and shared by every driver object); the model
    starts with them open. *)
Definition init (freq pwr : float) (waveform_file setup_file : option string)
  : exn + std_insr_driver :=
  match _validate_file_names waveform_file setup_file with
  | inl e => inl e
  | inr _ =>
      let params :=
        match waveform_file with
        | Some path => if truthy waveform_file then _extract_waveform_params path else None
        | None => None
        end in
      let get {A} (field : waveform_descriptor -> A) (default : A) : A :=
        match params with Some p => field p | None => default end in
      inr {| waveform_params := params;
             rb := get resource_blocks 51%Z;
             rbo := get resource_block_offset 0%Z;
             bw := get bandwidth_mhz 20%Z;
             mod_ := get modulation "QAM256";
             scs := get subcarrier_spacing_khz 30%Z;
             dupl := get duplexing "FDD";
             ldir := get link_direction "UP";
             freq := freq;
             pwr := pwr;
             waveform_file := waveform_file;
             setup_file := setup_file;
             swp_time := 0.015 |}
  end.

Abbreviation Dev := (M (device std_insr_driver)).

(** [VSG_pwr] *)
Definition VSG_pwr (pwr : float) : Dev unit :=
  write VSG [Txt ":SOUR1:POW:POW "; Num pwr];;
  set_self (set_pwr pwr).

(** [VSG_Config] *)
Definition VSG_Config : Dev (unit * float) :=
  method_timer "VSG_Config"
    (try_except
       (self ← get_self;
        match waveform_file self with
        | Some (String _ _ as path) =>
            let scpi_waveform_path := replace "\" "/" path in
            write VSG [Txt ":SOUR1:BB:ARB:STAT 0"];;
            query VSG [Txt (":SOUR1:BB:ARB:WAV:SEL " ++ dquote ++ scpi_waveform_path
                            ++ dquote ++ ";*OPC?")];;
            query VSG [Txt ":SOUR1:BB:ARB:STAT 1;*OPC?"];;
            write VSG [Txt ":SOUR1:FREQ:CW "; Num (freq self)];;
            write VSG [Txt ":OUTP1:STAT 1"];;
            query VSG [Txt ":SOUR1:CORR:OPT:EVM 1;*OPC?"];;
            write VSG [Txt ":SOUR1:BB:ARB:TRIG:OUTP1:MODE REST"];;
            VSG_pwr (pwr self);;
            query VSG [Txt "*OPC?"];;
            mret tt
        | _ => raise (Exn ValueError "No waveform file provided")
        end)
       (fun e => raise e)).

(** [VSA_Config]; [main.py] passes the frequency and no power. *)
Definition VSA_Config (freq_arg : option float) : Dev (unit * float) :=
  method_timer "VSA_Config"
    (try_except
       (self ← get_self;
        let freq := match freq_arg with Some f => f | None => freq self end in
        if (freq <=? 0)%float then raise (Exn ValueError "Invalid frequency")
        else
          match setup_file self with
          | Some (String _ _ as path) =>
              let scpi_setup_path := replace "\" "/" path in
              query VSA [Txt "*RST;*OPC?"];;
              query VSA [Txt (":MMEM:LOAD:STAT 1," ++ dquote ++ scpi_setup_path
                              ++ dquote ++ ";*OPC?")];;
              query VSA [Txt ":SENS:ADJ:LEV;*OPC?"];;
              query VSA [Txt ":SENS:ADJ:EVM;*OPC?"];;
              write VSA [Txt "INIT:CONT OFF"];;
              query VSA [Txt ":SENS:FREQ:CENT "; Num freq; Txt ";*OPC?"];;
              write VSA [Txt ":SENS:SWE:TIME 0.0008"];;
              write VSA [Txt ":SENS:NR5G:FRAM:SLOT 1"];;
              query VSA [Txt "INIT:IMM;*OPC?"];;
              query VSA [Txt ":SENS:ADJ:EVM;*OPC?"];;
              mret tt
          | _ => raise (Exn ValueError "No setup file provided")
          end)
       (fun e => raise e)).

(** [VSx_freq] *)
Definition VSx_freq (freq : float) : Dev (unit * float) :=
  method_timer "VSx_freq"
    (if (freq <=? 0)%float then raise (Exn ValueError "Invalid frequency")
     else
       query VSA [Txt ":SENS:FREQ:CENT "; Num freq; Txt ";*OPC?"];;
       query VSG [Txt ":SOUR:FREQ:CW "; Num freq; Txt ";*OPC?"];;
       set_self (set_freq freq)).

(** [VSA_sweep]: nothing is sent. *)
Definition VSA_sweep : Dev (unit * float) :=
  method_timer "VSA_sweep" (mret tt).

(** [VSA_level] *)
Definition VSA_level : Dev (unit * float) :=
  method_timer "VSA_level" (query VSA [Txt ":SENS:ADJ:LEV;*OPC?"];; mret tt).

(** [VSA_get_info] *)
Definition VSA_get_info : Dev (string * float) :=
  method_timer "VSA_get_info"
    (self ← get_self;
     let ghz := format_fixed 3 (freq self / 1e9) ++ "GHz_" in
     let config :=
       match waveform_params self with
       | Some p =>
           ghz ++ str_int (bandwidth_mhz p) ++ "MHz_" ++ duplexing p ++ "_"
           ++ link_direction p ++ "_" ++ str_int (subcarrier_spacing_khz p) ++ "_"
           ++ str_int (resource_blocks p) ++ "RB_"
           ++ str_int (resource_block_offset p) ++ "RBO_" ++ modulation p
       | None =>
           ghz ++ str_int (bw self) ++ "MHz_" ++ dupl self ++ "_" ++ ldir self
           ++ "_" ++ str_int (scs self) ++ "_" ++ str_int (rb self) ++ "RB_"
           ++ str_int (rbo self) ++ "RBO_" ++ mod_ self
       end in
     let config :=
       match waveform_file self with
       | Some (String _ _ as path) => config ++ "_waveform_" ++ basename path
       | _ => config
       end in
     let config :=
       match setup_file self with
       | Some (String _ _ as path) => config ++ "_setup_" ++ basename path
       | _ => config
       end in
     mret config).

(** [VSA_get_EVM] *)
Definition VSA_get_EVM : Dev (float * float) :=
  method_timer "VSA_get_EVM"
    (try_except
       (write VSA [Txt ":CONF:NR5G:MEAS EVM;*OPC"];;
        query VSA [Txt "INIT:IMM;*OPC?"];;
        pep_str ← query VSG [Txt ":SOUR1:POW:PEP?"];
        pep ← try_except_ValueError (eval (float_of_str pep_str)) (fun e => raise e);
        let reflev := (pep - 2)%float in
        write VSA [Txt ":DISP:WIND:TRAC:Y:SCAL:RLEV "; Num reflev];;
        query VSA [Txt ":SENS:ADJ:EVM;*OPC?"];;
        query VSA [Txt "INIT:IMM;*OPC?"];;
        evm_str ← query VSA [Txt ":FETC:CC1:SUMM:EVM:ALL:AVER?"];
        try_except_ValueError
          (evm ← eval (float_of_str evm_str); mret evm)
          (fun _ => mret nan))
       (fun _ => mret nan)).

(** [VSA_get_ACLR] *)
Definition VSA_get_ACLR : Dev (string * float) :=
  method_timer "VSA_get_ACLR"
    (try_except
       (self ← get_self;
        write VSA [Txt ":CONF:NR5G:MEAS ACLR;*OPC"];;
        write VSA [Txt ":SENS:FREQ:CENT "; Num (freq self);
                   Txt ";:SENS:POW:ACH:ACP 2;*OPC"];;
        write VSA [Txt ":SENS:SWE:TYPE SWE"];;
        write VSA [Txt "SENS:SWE:OPT SPE"];;
        query VSA [Txt "INIT:IMM;*OPC?"];;
        aclr ← query VSA [Txt ":CALC:MARK:FUNC:POW:RES? ACP"];
        mret (strip aclr))
       (fun _ => mret "")).

End NR5G.

(** ** src/measurements/spur_search.py *)

Module Spur.
Import Py IO.

Record SpurSearch := Driver {
  fundamental_ghz : float;
  rbw_mhz : float;
  spur_limit_dbm : float;
  pwr : float;
  frequency : float }.

(** [__init__], the attributes; the sockets are the world's. *)
Definition init (fundamental_ghz rbw_mhz spur_limit_dbm pwr : float) : SpurSearch :=
  {| fundamental_ghz := fundamental_ghz;
     rbw_mhz := rbw_mhz;
     spur_limit_dbm := spur_limit_dbm;
     pwr := pwr;
     frequency := fundamental_ghz * 1e9 |}.

Abbreviation Dev := (M (device SpurSearch)).

Definition or_default (arg : option float) (default : float) : float :=
  match arg with Some x => x | None => default end.

(** [VSA_config] *)
Definition VSA_config (fundamental_ghz rbw_mhz spur_limit_dbm : option float)
  : Dev (unit * float) :=
  method_timer "VSA_config"
    (try_except
       (self ← get_self;
        let fundamental_ghz := or_default fundamental_ghz (Spur.fundamental_ghz self) in
        let rbw_mhz := or_default rbw_mhz (Spur.rbw_mhz self) in
        let spur_limit_dbm := or_default spur_limit_dbm (Spur.spur_limit_dbm self) in
        query VSA [Txt "*RST;*OPC?"];;
        let start_freq1 := (fundamental_ghz / 2 * 1e9)%float in
        let stop_freq1 := (fundamental_ghz * 1e9 - 1e6)%float in
        let start_freq2 := (fundamental_ghz * 1e9 + 1e6)%float in
        let stop_freq2 := (2 * fundamental_ghz * 1e9)%float in
        write VSA [Txt "INIT:CONT OFF"];;
        write VSA [Txt ("SENS:FREQ:STAR " ++ format_fixed 0 start_freq1)];;
        write VSA [Txt ("SENS:FREQ:STOP " ++ format_fixed 0 stop_freq1)];;
        write VSA [Txt ":DISP:WIND1:SUBW:TRAC1:MODE AVER"];;
        write VSA [Txt ":SENS:AVER:COUN 5"];;
        write VSA [Txt ":SENS:WIND1:DET1:FUNC RMS"];;
        write VSA [Txt ":SENS:LIST:RANG1:FILT:TYPE NORM"];;
        write VSA [Txt ":SENS:BAND:RES "; Num (rbw_mhz * 1e6)];;
        write VSA [Txt ":SENS:SWE:TIME:AUTO ON"];;
        write VSA [Txt "SENS:SWE:TYPE FFT"];;
        write VSA [Txt "SENS:SWE:OPT SPE"];;
        write VSA [Txt "SENS:SWE:WIND1:POIN 100001"];;
        write VSA [Txt "DISP:WIND1:TRAC:Y:SCAL:RLEV -30"];;
        write VSA [Txt "SENS:INP:ATT:AUTO OFF"];;
        write VSA [Txt ":INP:ATT 0   "];;
        write VSA [Txt "INP:GAIN:STAT ON"];;
        write VSA [Txt "INP:GAIN:VAL 30"];;
        write VSA [Txt "SENS:POW:NCOR ON"];;
        write VSA [Txt "CALC1:MARK1:FUNC:FPE:STAT ON"];;
        write VSA [Txt "CALC1:MARK1:X:SLIM:LEFT "; Num start_freq1];;
        write VSA [Txt "CALC1:MARK1:X:SLIM:RIGH "; Num stop_freq2];;
        write VSA [Txt "CALC1:THR "; Num spur_limit_dbm];;
        write VSA [Txt "CALC1:MARK1:X:SLIM:STAT ON"];;
        write VSA [Txt "CALC1:THR:STAT ON"];;
        mret tt)
       (fun e => raise e)).

(** [VSG_config] *)
Definition VSG_config (frequency_ghz pwr : option float) : Dev (unit * float) :=
  method_timer "VSG_config"
    (try_except
       (self ← get_self;
        let frequency :=
          match frequency_ghz with
          | Some f => (f * 1e9)%float
          | None => Spur.frequency self
          end in
        let pwr := or_default pwr (Spur.pwr self) in
        query VSG [Txt "*RST;*OPC?"];;
        write VSG [Txt ("SOUR:FREQ:CW " ++ format_fixed 0 frequency)];;
        write VSG [Txt ("SOUR:POW:LEV:IMM:AMPL " ++ format_fixed 2 pwr)];;
        write VSG [Txt "SOURce1:BB:ARBitrary:MCARrier:CARRier1:MODE ARB"];;
        write VSG [Txt "SOURce1:BB:ARBitrary:MCARrier:CARRier1:COUNt 4"];;
        write VSG [Txt "SOURce1:BB:ARBitrary:MCARrier:CARRier1:FREQuency -1000000000"];;
        write VSG [Txt "SOURce1:BB:ARBitrary:MCARrier:CARRier2:FREQuency -500000000"];;
        write VSG [Txt "SOURce1:BB:ARBitrary:MCARrier:CARRier3:FREQuency 600000000"];;
        write VSG [Txt "SOURce1:BB:ARBitrary:MCARrier:CARRier4:FREQuency 1000000000"];;
        write VSG [Txt "SOURce1:BB:ARBitrary:MCARrier:CARRier1:POWer -45"];;
        write VSG [Txt "SOURce1:BB:ARBitrary:MCARrier:CARRier2:POWer -20"];;
        write VSG [Txt "SOURce1:BB:ARBitrary:MCARrier:CARRier3:POWer -25"];;
        write VSG [Txt "SOURce1:BB:ARBitrary:MCARrier:CARRier4:POWer -50"];;
        write VSG [Txt "SOURce1:BB:ARBitrary:MCARrier:CARRier1:STATe 1"];;
        write VSG [Txt "SOURce1:BB:ARBitrary:MCARrier:CARRier2:STATe 1"];;
        write VSG [Txt "SOURce1:BB:ARBitrary:MCARrier:CARRier3:STATe 1"];;
        write VSG [Txt "SOURce1:BB:ARBitrary:MCARrier:CARRier4:STATe 1"];;
        query VSG [Txt "SOURce1:BB:ARBitrary:MCARrier:CLOad;*OPC?"];;
        write VSG [Txt "SOURce1:BB:ARBitrary:TRIGger:OUTPut1:MODE REST"];;
        write VSG [Txt "SOURce1:BB:ARBitrary:STATe 1"];;
        write VSG [Txt "OUTPut1:STATe 1"];;
        mret tt)
       (fun e => raise e)).

(** [VSx_freq] *)
Definition VSx_freq (freq : float) : Dev (unit * float) :=
  method_timer "VSx_freq"
    (write VSA [Txt ("SENS:FREQ:CENT " ++ format_fixed 0 freq)];;
     write VSG [Txt ("SOUR:FREQ:CW " ++ format_fixed 0 freq)];;
     set_self (fun d =>
       Driver (fundamental_ghz d) (rbw_mhz d) (spur_limit_dbm d) (pwr d) freq)).

(** [measure] *)
Definition measure : Dev (unit * float) :=
  method_timer "measure"
    (try_except
       (write VSA [Txt ":INIT:CONT OFF"];;
        query VSA [Txt "INIT:IMM;*OPC?"];;
        mret tt)
       (fun e => raise e)).

(** [[float(f) for f in response.split(",") if f.strip()]] *)
Fixpoint parse_floats (parts : list string) : exn + list float :=
  match parts with
  | [] => inr []
  | f :: parts' =>
      match strip f with
      | EmptyString => parse_floats parts'
      | _ =>
          match float_of_str f with
          | inl e => inl e
          | inr x =>
              match parse_floats parts' with
              | inl e => inl e
              | inr xs => inr (x :: xs)
              end
          end
      end
  end.

(** The loop of [get_results] over [zip(freqs, powers)]: a peak is kept when
    it lies farther than the exclusion window from the fundamental. *)
Definition outside_window (fundamental_hz exclusion_window_hz : float)
    (peak : float * float) : bool :=
  (exclusion_window_hz <? abs (fst peak - fundamental_hz))%float.

Definition filter_spurs (fundamental_hz exclusion_window_hz : float)
    (peaks : list (float * float)) : list (float * float) :=
  List.filter (outside_window fundamental_hz exclusion_window_hz) peaks.

(** [get_results] *)
Definition get_results : Dev (list (float * float) * float) :=
  method_timer "get_results"
    (try_except
       (self ← get_self;
        count_str ← query VSA [Txt ":CALC:MARK:FUNC:FPE:COUN?"];
        spur_count ← eval (int_of_str (strip count_str));
        let spurs : list (float * float) := [] in
        if (0 <? spur_count)%Z then
          write VSA [Txt "DISP:WIND1:SUBW:TRAC1:Y:SCAL:AUTO ONCE"];;
          freq_response ← query VSA [Txt ":CALC:MARK:FUNC:FPE:X?"];
          power_response ← query VSA [Txt ":CALC:MARK:FUNC:FPE:Y?"];
          freqs ← eval (parse_floats (split "," (strip freq_response)));
          powers ← eval (parse_floats (split "," (strip power_response)));
          if negb (Z.of_nat (length freqs) =? spur_count)%Z
             || negb (Z.of_nat (length powers) =? spur_count)%Z
          then mret spurs
          else
            let fundamental_hz := (fundamental_ghz self * 1e9)%float in
            let exclusion_window_hz := 10e6%float in
            mret (filter_spurs fundamental_hz exclusion_window_hz
                    (combine freqs powers))
        else mret spurs)
       (fun _ => mret [])).

End Spur.

(** ** numpy reductions used by the STN statistics

    numpy is not part of the repository. Its reductions over a
    one-dimensional array of binary64 numbers are modelled from their
    definitions: [mean] is the sum over the count, [std] the square root of
    the mean of the squared deviations from the mean, [min] and [max] keep a
    NaN once met. A sum is numpy's pairwise sum: the array is added to the
    identity 0.0 of the reduction, in blocks of at most 128 elements, each
    block in eight running sums. *)

Module Np.

Definition of_nat (n : nat) : float := PrimFloat.of_uint63 (Uint63.of_Z (Z.of_nat n)).

Definition is_nan (x : float) : bool := negb (x =? x)%float.

(** The eight running sums of a block. *)
Definition lanes : Type :=
  (float * float * float * float * float * float * float * float)%type.

(** [r[0] += a[i + 0]; ...; r[7] += a[i + 7]] for every further eight
    elements; what is left over, fewer than eight, is returned. *)
Fixpoint accumulate (r : lanes) (a : list float) : lanes * list float :=
  match a with
  | a0 :: a1 :: a2 :: a3 :: a4 :: a5 :: a6 :: a7 :: rest =>
      let '(r0, r1, r2, r3, r4, r5, r6, r7) := r in
      accumulate (r0 + a0, r1 + a1, r2 + a2, r3 + a3,
                  r4 + a4, r5 + a5, r6 + a6, r7 + a7)%float rest
  | _ => (r, a)
  end.

(** The sum of a block of at most 128 elements. Fewer than eight are added
    left to right onto a zero, whose sign cannot be observed since the sum
    of the block is added to the identity 0.0. Otherwise the eight running
    sums start from the first eight elements, are combined as a tree, and
    the left-over elements are added one by one. *)
Definition block_sum (a : list float) : float :=
  match a with
  | a0 :: a1 :: a2 :: a3 :: a4 :: a5 :: a6 :: a7 :: rest =>
      let '(r0, r1, r2, r3, r4, r5, r6, r7, tail) :=
        accumulate (a0, a1, a2, a3, a4, a5, a6, a7) rest in
      fold_left PrimFloat.add tail
        (((r0 + r1) + (r2 + r3)) + ((r4 + r5) + (r6 + r7)))%float
  | _ => fold_left PrimFloat.add a 0%float
  end.

(** An array of more than 128 elements is cut in two, the first part half
    the length rounded down to a multiple of eight, and the sums of the two
    parts are added; [fuel] bounds the depth of the cuts. *)
Fixpoint pairwise_sum (fuel : nat) (a : list float) : float :=
  match fuel with
  | S fuel' =>
      let n := length a in
      if (128 <? n)%nat then
        let n2 := (n / 2 - (n / 2) mod 8)%nat in
        (pairwise_sum fuel' (firstn n2 a) + pairwise_sum fuel' (skipn n2 a))%float
      else block_sum a
  | O => block_sum a
  end.

(** [np.add.reduce] over the array: the pairwise sum added to the
    identity. The length is fuel enough ([pairwise_sum_fuel] below). *)
Definition sum (a : list float) : float := (0 + pairwise_sum (length a) a)%float.

Definition mean (a : list float) : float := (sum a / of_nat (length a))%float.

Definition minimum (a b : float) : float :=
  if (a <? b)%float || is_nan a then a else b.

Definition maximum (a b : float) : float :=
  if (b <? a)%float || is_nan a then a else b.

(** [np.min] and [np.max], given the first element and the others. *)
Definition min (x : float) (xs : list float) : float := fold_left minimum xs x.
Definition max (x : float) (xs : list float) : float := fold_left maximum xs x.

Definition std (a : list float) : float :=
  let arrmean := mean a in
  let x := map (fun v => (v - arrmean)%float) a in
  let x := map (fun v => (v * v)%float) x in
  PrimFloat.sqrt (sum x / of_nat (length a)).

End Np.

(** ** src/measurements/SubThermalNoise.py *)

Module STN.
Import Py IO.

Record option_functions := Driver {
  frequency : float;
  swp_time : float }.

(** [__init__], the attributes; it also switches the generator output off. *)
Definition init (freq : float) : option_functions :=
  {| frequency := freq; swp_time := 1.0 |}.

Abbreviation Dev := (M (device option_functions)).

(** [STN_Noise_Marker] *)
Definition STN_Noise_Marker : Dev unit :=
  self ← get_self;
  write VSA [Txt ":CALC1:DELT1:FUNC:PNO:STAT OFF"];;
  write VSA [Txt ":CALC1:MARK1:FUNC:NOIS:STAT ON"];;
  write VSA [Txt ":CALC1:MARK1:X "; Num (frequency self)].

(** [VSA_Config] *)
Definition VSA_Config : Dev (unit * float) :=
  method_timer "VSA_Config"
    (self ← get_self;
     query VSA [Txt "*RST;*OPC?"];;
     query VSA [Txt (":INST:SEL " ++ dquote ++ "Spectrum" ++ dquote ++ ";*OPC?")];;
     write VSA [Txt ":SENS:FREQ:CENT "; Num (frequency self)];;
     write VSA [Txt ":SENS:FREQ:SPAN 1e9"];;
     write VSA [Txt ":INP:GAIN:STAT ON"];;
     write VSA [Txt ":INP:GAIN:VAL 30"];;
     write VSA [Txt ":INP:ATT:AUTO OFF"];;
     write VSA [Txt ":INP:ATT 0"];;
     write VSA [Txt ":SENS:SWE:WIND:POIN 2001"];;
     write VSA [Txt "DISP:WIND1:SUBW:TRAC1:MODE WRIT"];;
     write VSA [Txt ":SENS:WIND1:DET:FUNC RMS"];;
     write VSA [Txt "SENS:BAND:RES 10000.0"];;
     write VSA [Txt "SENS:BAND:VID 10000.0"];;
     write VSA [Txt "SENS:SWE:TIME:AUTO OFF"];;
     write VSA [Txt "SENS:SWE:TIME 0.005"];;
     write VSA [Txt "SENS:SWE:TYPE AUTO"];;
     write VSA [Txt ":SENS:SWE:OPT AUTO"];;
     query VSA [Txt "DISP:WIND1:SUBW:TRAC1:Y:SCAL:AUTO ONCE;*OPC?"];;
     write VSA [Txt "SENS:POW:NCOR ON"];;
     query VSA [Txt "INIT:IMM;*OPC?"];;
     query VSA [Txt "DISP:WIND1:SUBW:TRAC1:Y:SCAL:AUTO ONCE;*OPC?"];;
     STN_Noise_Marker;;
     clear_error VSA).

(** [get_VSA_sweep_noise_mkr] *)
Definition get_VSA_sweep_noise_mkr : Dev (float * float) :=
  method_timer "get_VSA_sweep_noise_mkr"
    (write VSA [Txt "INIT:CONT OFF"];;
     query VSA [Txt "INIT:IMM;*OPC?"];;
     marker ← queryFloat VSA [Txt ":CALC:MARK:FUNC:NOIS:RES?"];
     mret marker).

(** [STN_set_frequency] *)
Definition STN_set_frequency (freq : float) : Dev unit :=
  set_self (fun d => Driver freq (swp_time d));;
  write VSA [Txt ":SENS:FREQ:CENT "; Num freq];;
  write VSA [Txt ":CALC1:MARK1:X "; Num freq];;
  query VSA [Txt "*OPC?"];;
  mret tt.

(** [get_Array_stats]; numpy refuses the minimum of an empty array. *)
Definition get_Array_stats (in_arry : list float) : exn + string :=
  match in_arry with
  | [] => inl (Exn ValueError "zero-size array to reduction operation minimum which has no identity")
  | x :: xs =>
      let avg := Np.mean in_arry in
      let min_val := Np.min x xs in
      let max_val := Np.max x xs in
      let std_dev := Np.std in_arry in
      let out_str :=
        "Min:" ++ format_fixed 3 min_val ++ " Max:" ++ format_fixed 3 max_val
        ++ " Avg:" ++ format_fixed 3 avg ++ " StdDev:" ++ format_fixed 3 std_dev
        ++ " Delta:" ++ format_fixed 3 (max_val - min_val) in
      inr out_str
  end.

End STN.

(** ** src/main.py: the test-set runner *)

Module Main.
Import Py IO.

(** One test set of the NR5G or LTE family, as the main loop hands it over. *)
Record test_config := TestConfig {
  center_frequency_ghz : float;
  power_dbm : float;
  waveform_file : option string;
  setup_file : option string;
  measure_aclr : bool }.

(** The dictionary [current_config]. *)
Record config := Config {
  cfg_waveform_file : option string;
  cfg_setup_file : option string }.

#[global] Instance config_eq_dec : EqDecision config.
Proof. solve_decision. Defined.

(** The record an NR5G or LTE test set appends. *)
Record evm_result := EvmResult {
  test_set : Z;
  type_ : string;
  center_frequency_hz : float;
  result_power_dbm : float;
  resource_blocks : Z;
  resource_block_offset : Z;
  channel_bandwidth_mhz : Z;
  modulation_type : string;
  subcarrier_spacing_khz : Z;
  duplexing : string;
  link_direction : string;
  result_waveform_file : option string;
  result_setup_file : option string;
  config_summary : string;
  evm : option float;
  ch_pwr : option float;
  acp_lower : option float;
  acp_upper : option float;
  alt_lower : option float;
  alt_upper : option float;
  timings : gmap string float }.

(** The record a SpurSearch test set appends; [spur_error] is the optional
    key [error]. *)
Record spur_result := SpurResult {
  spur_test_set : Z;
  spur_type : string;
  fundamental_frequency_hz : option float;
  rbw_hz : float;
  spur_limit : float;
  spur_power_dbm : float;
  spurs : list (float * float);
  spur_config : string;
  spur_timings : gmap string float;
  spur_error : option string }.

(** The record an STN test set appends. *)
Record stn_result := StnResult {
  stn_test_set : Z;
  stn_type : string;
  stn_center_frequency_hz : float;
  sweep_time : float;
  iterations : nat;
  stn_config : string;
  markers : list (option float * float);
  stats : option string;
  stn_timings : gmap string float;
  total_test_time : float;
  stn_error : option string }.

Inductive result :=
| EvmRecord (r : evm_result)
| SpurRecord (r : spur_result)
| StnRecord (r : stn_result).

(** The key [error] of a record; the NR5G and LTE records never have one. *)
Definition error (r : result) : option string :=
  match r with
  | EvmRecord _ => None
  | SpurRecord r => spur_error r
  | StnRecord r => stn_error r
  end.

(** The module-level variables of [main.py] and the driver in use. *)
Record state (D : Type) := State {
  instr : device D;
  results : list result;
  previous_config : option config;
  previous_freq : option float }.

Arguments State {D} _ _ _ _.
Arguments instr {D} _.
Arguments results {D} _.
Arguments previous_config {D} _.
Arguments previous_freq {D} _.

Section Globals.
Context {D : Type}.

Definition set_instr (d : device D) (s : state D) : state D :=
  State d (results s) (previous_config s) (previous_freq s).

(** A call of a driver method. *)
Definition call {A} (m : M (device D) A) : M (state D) A := zoom instr set_instr m.

Definition results_append (r : result) : M (state D) unit :=
  modify (fun s => State (instr s) (results s ++ [r]) (previous_config s) (previous_freq s)).

Definition set_previous_config (c : config) : M (state D) unit :=
  modify (fun s => State (instr s) (results s) (Some c) (previous_freq s)).

Definition set_previous_freq (f : float) : M (state D) unit :=
  modify (fun s => State (instr s) (results s) (previous_config s) (Some f)).

End Globals.

(** [previous_config != current_config] *)
Definition config_changed (previous_config : option config) (current_config : config)
  : bool :=
  bool_decide (previous_config <> Some current_config).

(** [previous_freq is None or abs(previous_freq - freq) > 1e-3] *)
Definition freq_changed (previous_freq : option float) (freq : float) : bool :=
  match previous_freq with
  | None => true
  | Some p => (1e-3 <? abs (p - freq))%float
  end.

(** [ch_pwr, acp_l, acp_u, alt_l, alt_u = map(float, aclr_parts)] when there
    are five parts; [None] five times otherwise. *)
Definition aclr_fields (aclr_vals : string) : exn + list (option float) :=
  let none := inr [None; None; None; None; None] in
  match aclr_vals with
  | EmptyString => none
  | _ =>
      match split "," aclr_vals with
      | [a; b; c; d; e] =>
          match float_of_str a, float_of_str b, float_of_str c,
                float_of_str d, float_of_str e with
          | inr a, inr b, inr c, inr d, inr e =>
              inr [Some a; Some b; Some c; Some d; Some e]
          | inl x, _, _, _, _ => inl x
          | _, inl x, _, _, _ => inl x
          | _, _, inl x, _, _ => inl x
          | _, _, _, inl x, _ => inl x
          | _, _, _, _, inl x => inl x
          end
      | _ => none
      end
  end.

Definition file_label (file : option string) : string :=
  match file with
  | Some (String _ _ as path) => basename path
  | _ => "default"
  end.

(** [run_nr5g_measurement] *)
Definition run_nr5g_measurement (test_config : test_config) (test_set : Z)
  : M (state NR5G.std_insr_driver) unit :=
  try_except
    (let freq := (center_frequency_ghz test_config * 1e9)%float in
     let pwr := power_dbm test_config in
     let waveform_file := waveform_file test_config in
     let setup_file := setup_file test_config in
     let measure_aclr := measure_aclr test_config in
     let current_config := Config waveform_file setup_file in
     let timings : gmap string float := ∅ in
     g ← get;
     timings ←
       (if config_changed (previous_config g) current_config then
          '(_, t) ← call NR5G.VSG_Config;
          let timings := <["VSG_Config" := t]> timings in
          '(_, t) ← call (NR5G.VSA_Config (Some freq));
          let timings := <["VSA_Config" := t]> timings in
          set_previous_config current_config;;
          set_previous_freq freq;;
          mret timings
        else mret timings);
     g ← get;
     timings ←
       (if freq_changed (previous_freq g) freq then
          '(_, t) ← call (NR5G.VSx_freq freq);
          set_previous_freq freq;;
          mret (<["VSx_freq" := t]> timings)
        else mret (<["VSx_freq" := 0%float]> timings));
     call (NR5G.VSG_pwr pwr);;
     '(config_result, t) ← call NR5G.VSA_get_info;
     let timings := <["VSA_get_info" := t]> timings in
     g ← get;
     let drv := self (instr g) in
     let config :=
       format_fixed 3 (freq / 1e9) ++ "GHz_" ++ str_int (NR5G.bw drv) ++ "MHz_"
       ++ NR5G.dupl drv ++ "_" ++ NR5G.ldir drv ++ "_" ++ str_int (NR5G.scs drv)
       ++ "_" ++ str_int (NR5G.rb drv) ++ "RB_" ++ str_int (NR5G.rbo drv)
       ++ "RBO_" ++ NR5G.mod_ drv ++ "_waveform_" ++ file_label waveform_file
       ++ "_setup_" ++ file_label setup_file in
     '(_, t) ← call NR5G.VSA_sweep;
     let timings := <["VSA_sweep_evm" := t]> timings in
     '(evm, t) ← call NR5G.VSA_get_EVM;
     let timings := <["VSA_get_EVM" := t]> timings in
     let timings := <["VSA_get_ACLR" := 0%float]> timings in
     '(aclr, timings) ←
       (if measure_aclr then
          '(aclr_vals, t) ← call NR5G.VSA_get_ACLR;
          let timings := <["VSA_get_ACLR" := t]> timings in
          aclr ← eval (aclr_fields aclr_vals);
          mret (aclr, timings)
        else mret ([None; None; None; None; None], timings));
     results_append
       (EvmRecord
          {| test_set := test_set;
             type_ := "NR5G";
             center_frequency_hz := freq;
             result_power_dbm := pwr;
             resource_blocks := NR5G.rb drv;
             resource_block_offset := NR5G.rbo drv;
             channel_bandwidth_mhz := NR5G.bw drv;
             modulation_type := NR5G.mod_ drv;
             subcarrier_spacing_khz := NR5G.scs drv;
             duplexing := NR5G.dupl drv;
             link_direction := NR5G.ldir drv;
             result_waveform_file := waveform_file;
             result_setup_file := setup_file;
             config_summary := config;
             evm := Some evm;
             ch_pwr := nth 0 aclr None;
             acp_lower := nth 1 aclr None;
             acp_upper := nth 2 aclr None;
             alt_lower := nth 3 aclr None;
             alt_upper := nth 4 aclr None;
             timings := timings |}))
    (fun _ => mret tt).

(** The value of [fundamental_frequency_ghz] in a SpurSearch test: a
    number, a list, or a dictionary holding a range. *)
Inductive frequency_input :=
| Scalar (f : float)
| FreqList (l : list float)
| FreqRange (start_ghz stop_ghz step_mhz : float).

Record spur_test_config := SpurTestConfig {
  fundamental_frequency_ghz : frequency_input;
  rbw_mhz : option float;
  spur_limit_dbm : option float;
  spur_power : option float }.

(** A function's local variable that its exception handler reads: [None]
    while it is unbound. *)
Definition with_local {S L A} (m : M (S * option L) A) : M S A :=
  fun w s => let '(r, (s', _)) := m w (s, None) in (r, s').

Definition global {S L A} (m : M S A) : M (S * option L) A :=
  zoom fst (fun s sl => (s, snd sl)) m.

Definition set_local {S L} (v : L) : M (S * option L) unit :=
  modify (fun sl => (fst sl, Some v)).

Definition get_local {S L} : M (S * option L) L :=
  fun w sl =>
    match snd sl with
    | Some v => (inr v, sl)
    | None => (inl (Exn NameError "cannot access local variable"), sl)
    end.

(** [run_spur_search_measurement]; the local [timings] is read by the
    handler. *)
Definition run_spur_search_measurement (test_config : spur_test_config)
    (test_set : Z) : M (state Spur.SpurSearch) Z :=
  let rbw_mhz := Spur.or_default (rbw_mhz test_config) 0.01 in
  let spur_limit_dbm := Spur.or_default (spur_limit_dbm test_config) (-95) in
  let pwr := Spur.or_default (spur_power test_config) (-70) in
  with_local
    (try_except
       (g ← global get;
        fundamental_ghz ←
          match fundamental_frequency_ghz test_config with
          | Scalar f => mret f
          | FreqList _ => mret (Spur.fundamental_ghz (self (instr g)))
          | FreqRange _ _ _ =>
              raise (Exn ValueError "Range input should be processed in main loop")
          end;
        set_local (∅ : gmap string float);;
        '(_, t) ← global (call (Spur.VSG_config (Some fundamental_ghz) (Some pwr)));
        timings ← get_local; set_local (<["VSG_config" := t]> timings);;
        '(_, t) ← global (call (Spur.VSA_config (Some fundamental_ghz) (Some rbw_mhz)
                                  (Some spur_limit_dbm)));
        timings ← get_local; set_local (<["VSA_config" := t]> timings);;
        '(_, t) ← global (call Spur.measure);
        timings ← get_local; set_local (<["measure" := t]> timings);;
        '(results_data, t) ← global (call Spur.get_results);
        timings ← get_local; set_local (<["get_results" := t]> timings);;
        timings ← get_local;
        let config :=
          format_fixed 3 fundamental_ghz ++ "GHz_Spur_RBW" ++ format_fixed 3 rbw_mhz
          ++ "MHz_Limit" ++ format_fixed 2 spur_limit_dbm ++ "dBm" in
        global (results_append
          (SpurRecord
             {| spur_test_set := test_set;
                spur_type := "SpurSearch";
                fundamental_frequency_hz := Some (fundamental_ghz * 1e9)%float;
                rbw_hz := rbw_mhz * 1e6;
                spur_limit := spur_limit_dbm;
                spur_power_dbm := pwr;
                spurs := results_data;
                spur_config := config;
                spur_timings := timings;
                spur_error :=
                  match results_data with
                  | [] => Some "No spurs detected"
                  | _ => None
                  end |}));;
        mret (test_set + 1)%Z)
       (fun e =>
          timings ← get_local;
          global (results_append
            (SpurRecord
               {| spur_test_set := test_set;
                  spur_type := "SpurSearch";
                  fundamental_frequency_hz := None;
                  rbw_hz := rbw_mhz * 1e6;
                  spur_limit := spur_limit_dbm;
                  spur_power_dbm := pwr;
                  spurs := [];
                  spur_config :=
                    "Spur_RBW" ++ format_fixed 3 rbw_mhz ++ "MHz_Limit"
                    ++ format_fixed 2 spur_limit_dbm ++ "dBm";
                  spur_timings := timings;
                  spur_error := Some (exn_msg e) |}));;
          mret (test_set + 1)%Z)).

(** The locals the loop of [run_stn_measurement] updates. *)
Record stn_locals := StnLocals {
  loc_meas : list (option float * float);
  loc_timings : gmap string float;
  loc_total_test_time : float }.

Definition marker_key (i : nat) : string :=
  "get_VSA_sweep_noise_mkr_" ++ str_int (Z.of_nat (i + 1)).

(** [for i in range(iterations)], from index [i] on. *)
Fixpoint stn_loop (remaining i : nat) (l : stn_locals)
  : M (state STN.option_functions) stn_locals :=
  match remaining with
  | O => mret l
  | S remaining' =>
      l' ←
        try_except
          ('(marker, delta_time) ← call STN.get_VSA_sweep_noise_mkr;
           mret {| loc_meas := loc_meas l ++ [(Some marker, delta_time)];
                   loc_timings := <[marker_key i := delta_time]> (loc_timings l);
                   loc_total_test_time := loc_total_test_time l + delta_time |})
          (fun _ =>
           mret {| loc_meas := loc_meas l ++ [(None, 0%float)];
                   loc_timings := <[marker_key i := 0%float]> (loc_timings l);
                   loc_total_test_time := loc_total_test_time l |});
      stn_loop remaining' (S i) l'
  end.

(** [[m["marker"] for m in meas if m["marker"] is not None]] *)
Definition valid_markers (meas : list (option float * float)) : list float :=
  omap fst meas.

(** [run_stn_measurement] *)
Definition run_stn_measurement (freq : float) (test_set : Z) (swp_time : float)
    (iterations : nat) : M (state STN.option_functions) unit :=
  let config := format_fixed 3 (freq / 1e9) ++ "GHz_STN_" ++ format_fixed 1 swp_time
                ++ "sec" in
  try_except
    ('(_, t) ← call STN.VSA_Config;
     let l := {| loc_meas := [];
                 loc_timings := <["VSA_Config" := t]> ∅;
                 loc_total_test_time := 0.0 + t |} in
     l ← stn_loop iterations 0 l;
     let valid_markers := valid_markers (loc_meas l) in
     stats ←
       (if (2 <=? length valid_markers)%nat then
          stats ← eval (STN.get_Array_stats valid_markers); mret (Some stats)
        else mret None);
     results_append
       (StnRecord
          {| stn_test_set := test_set;
             stn_type := "STN";
             stn_center_frequency_hz := freq;
             sweep_time := swp_time;
             iterations := iterations;
             stn_config := config;
             markers := loc_meas l;
             stats := stats;
             stn_timings := loc_timings l;
             total_test_time := loc_total_test_time l;
             stn_error :=
               match valid_markers with
               | [] => Some "No successful measurements"
               | _ => None
               end |}))
    (fun e =>
     results_append
       (StnRecord
          {| stn_test_set := test_set;
             stn_type := "STN";
             stn_center_frequency_hz := freq;
             sweep_time := swp_time;
             iterations := iterations;
             stn_config := config;
             markers := [];
             stats := None;
             stn_timings := ∅;
             total_test_time := 0.0;
             stn_error := Some (exn_msg e) |})).

End Main.

(** ** src/utils/utils.py: the standard configuration

    [std_config] on an NR5G driver. [std_meas] is not modelled: one of its
    branches calls a method the driver does not define. *)

Module Utils.
Import Py IO.

(** [std_config] *)
Definition std_config : NR5G.Dev unit :=
  NR5G.VSG_Config;;
  NR5G.VSA_Config None;;
  self ← get_self;
  NR5G.VSx_freq (NR5G.freq self);;
  NR5G.VSA_sweep;;
  clear_error VSG;;
  clear_error VSA.

End Utils.

(** ** src/main.py: the rows of the report

    After the test sets the script turns every record of [results] into
    rows of a table. The model covers the dictionary [base_row] it builds
    first for each record; the per-spur and per-marker copies, the totals
    and the spreadsheet are not modelled. The subscripts [r["test_set"]]
    and [r["type"]] are read like [r.get]: every record holds both keys. *)

Module Report.
Import Py Main.

(** A Python value held by a record or a cell. *)
Inductive value := none | int (z : Z) | flt (x : float) | str (s : string).

Definition opt {A} (inject : A -> value) (o : option A) : value :=
  match o with Some a => inject a | None => none end.

(** The scalar entries of a record, key by key as the runner wrote them
    (the lists [spurs] and [markers] and the map [timings] are read through
    the record itself). *)
Definition entries (r : result) : list (string * value) :=
  match r with
  | EvmRecord r =>
      [("test_set", int (test_set r)); ("type", str (type_ r));
       ("center_frequency_hz", flt (center_frequency_hz r));
       ("power_dbm", flt (result_power_dbm r));
       ("resource_blocks", int (resource_blocks r));
       ("resource_block_offset", int (resource_block_offset r));
       ("channel_bandwidth_mhz", int (channel_bandwidth_mhz r));
       ("modulation_type", str (modulation_type r));
       ("subcarrier_spacing_khz", int (subcarrier_spacing_khz r));
       ("duplexing", str (duplexing r));
       ("link_direction", str (link_direction r));
       ("waveform_file", opt str (result_waveform_file r));
       ("setup_file", opt str (result_setup_file r));
       ("config", str (config_summary r));
       ("evm", opt flt (evm r)); ("ch_pwr", opt flt (ch_pwr r));
       ("acp_lower", opt flt (acp_lower r)); ("acp_upper", opt flt (acp_upper r));
       ("alt_lower", opt flt (alt_lower r)); ("alt_upper", opt flt (alt_upper r))]
  | SpurRecord r =>
      [("test_set", int (spur_test_set r)); ("type", str (spur_type r));
       ("fundamental_frequency_hz", opt flt (fundamental_frequency_hz r));
       ("rbw_hz", flt (rbw_hz r)); ("spur_limit_dbm", flt (spur_limit r));
       ("power_dbm", flt (spur_power_dbm r)); ("config", str (spur_config r))]
      ++ match spur_error r with Some e => [("error", str e)] | None => [] end
  | StnRecord r =>
      [("test_set", int (stn_test_set r)); ("type", str (stn_type r));
       ("center_frequency_hz", flt (stn_center_frequency_hz r));
       ("sweep_time", flt (sweep_time r));
       ("iterations", int (Z.of_nat (iterations r)));
       ("config", str (stn_config r)); ("stats", opt str (stats r));
       ("total_test_time", flt (total_test_time r))]
      ++ match stn_error r with Some e => [("error", str e)] | None => [] end
  end.

Definition record_timings (r : result) : gmap string float :=
  match r with
  | EvmRecord r => timings r
  | SpurRecord r => spur_timings r
  | StnRecord r => stn_timings r
  end.

Fixpoint lookup (key : string) (l : list (string * value)) : option value :=
  match l with
  | [] => None
  | (k, v) :: l' => if String.eqb k key then Some v else lookup key l'
  end.

(** [r.get(key, default)] and [r.get(key)] *)
Definition get_default (r : result) (key : string) (default : value) : value :=
  match lookup key (entries r) with Some v => v | None => default end.

Definition get (r : result) (key : string) : value := get_default r key none.

(** [r["timings"].get(key, default)] *)
Definition timing (r : result) (key : string) (default : value) : value :=
  match record_timings r !! key with Some t => flt t | None => default end.

(** The truth value of a Python value. *)
Definition truth (v : value) : bool :=
  match v with
  | none => false
  | int z => negb (z =? 0)%Z
  | flt x => negb (x =? 0)%float
  | str s => negb (String.eqb s "")
  end.

(** [v / d] for a float [d]: an integer is converted first (the
    [OverflowError] of an integer beyond the binary64 range is not
    modelled); [None] and strings cannot be divided. *)
Definition truediv (v : value) (d : float) : exn + value :=
  match v with
  | flt x => inr (flt (x / d))
  | int z => inr (flt (float_of_decimal (z <? 0)%Z (Z.abs z) 0 / d))
  | none =>
      inl (Exn TypeError "unsupported operand type(s) for /: 'NoneType' and 'float'")
  | str _ =>
      inl (Exn TypeError "unsupported operand type(s) for /: 'str' and 'float'")
  end.

(** The dictionary [base_row] of a record [r]; its entries are evaluated
    in order, so the first that raises ends the script. *)
Definition base_row (r : result) : exn + list (string * value) :=
  match truediv (get_default r "center_frequency_hz"
                   (get_default r "fundamental_frequency_hz" none)) 1e9 with
  | inl e => inl e
  | inr center =>
      match (if truth (get r "rbw_hz") then truediv (get_default r "rbw_hz" none) 1e6
             else inr none) with
      | inl e => inl e
      | inr rbw =>
          inr [("Test Set", get r "test_set");
               ("Type", get r "type");
               ("Center Frequency (GHz)", center);
               ("Power (dBm)", get r "power_dbm");
               ("Resource Blocks", get r "resource_blocks");
               ("Resource Block Offset", get r "resource_block_offset");
               ("Channel Bandwidth (MHz)", get r "channel_bandwidth_mhz");
               ("Modulation Type", get r "modulation_type");
               ("Subcarrier Spacing (kHz)", get r "subcarrier_spacing_khz");
               ("Duplexing", get r "duplexing");
               ("Link Direction", get r "link_direction");
               ("Waveform File", get r "waveform_file");
               ("Setup File", get r "setup_file");
               ("EVM (dB)", get r "evm");
               ("VSA_get_EVM Time (s)", timing r "VSA_get_EVM" (int 0));
               ("Channel Power (dBm)", get r "ch_pwr");
               ("ACP Lower (dB)", get r "acp_lower");
               ("ACP Upper (dB)", get r "acp_upper");
               ("Alternate Lower (dB)", get r "alt_lower");
               ("Alternate Upper (dB)", get r "alt_upper");
               ("VSA_get_ACLR Time (s)", timing r "VSA_get_ACLR" (int 0));
               ("RBW (MHz)", rbw);
               ("Spur Limit (dBm)", get r "spur_limit_dbm");
               ("Spur Frequency (MHz)", none);
               ("Spur Power (dBm)", none);
               ("Spur Measurement Time (s)", timing r "measure" (int 0));
               ("Get Results Time (s)", timing r "get_results" (int 0));
               ("Iteration", none);
               ("Marker (dBm)", none);
               ("Marker Time (s)", none);
               ("Stats Avg (dBm)", none);
               ("Total Test Time (s)", none);
               ("Config Summary", get r "config");
               ("VSG_Config Time (s)",
                timing r "VSG_Config" (timing r "VSG_config" (int 0)));
               ("VSA_Config Time (s)",
                timing r "VSA_Config" (timing r "VSA_config" (int 0)));
               ("VSA_get_info Time (s)", timing r "VSA_get_info" (int 0));
               ("Error", get r "error")]
      end
  end.

End Report.

(** ** Vocabulary of the statements *)

Module Props.
Import Py IO.

Fixpoint string_forall (P : ascii -> bool) (s : string) : bool :=
  match s with
  | EmptyString => true
  | String c r => P c && string_forall P r
  end.

(** A non-empty run of decimal digits, and the number it writes. *)
Definition digit_string (s : string) : Prop :=
  s <> EmptyString /\ string_forall isdigit s = true.

Definition decimal (s : string) : Z := digits_value 0 s.

(** A waveform file name built after the grammar
    [5GNR_<UL|DL>_<N>MHz_<MOD>_<N>kHz_<N>RB_<N>RBO.wv]. *)
Definition waveform_name (ld bw md scs rb rbo : string) : string :=
  "5GNR_" ++ ld ++ "_" ++ bw ++ "MHz" ++ "_" ++ md ++ "_" ++ scs ++ "kHz" ++ "_"
  ++ rb ++ "RB" ++ "_" ++ rbo ++ "RBO" ++ ".wv".

Definition clean_char (c : ascii) : bool :=
  negb (isspace c) && negb (Ascii.eqb c "/").

(** The driver methods entered during a run, in order. *)
Definition calls (t : list event) : list string :=
  omap (fun e => match e with Call n => Some n | _ => None end) t.

Arguments calls : simpl never.

(** A computation leaves an observation [f] of the state as it was,
    whatever its outcome. *)
Definition preserves {S X A} (f : S -> X) (m : M S A) : Prop :=
  forall w s, f (snd (m w s)) = f s.

(** A computation never lets an exception out. *)
Definition never_raises {S A} (m : M S A) : Prop :=
  forall w s, exists a, fst (m w s) = inr a.

(** What a driver method adds to the methods entered. *)
Definition adds_calls {D A} (names : list string) (m : M (device D) A) : Prop :=
  forall w s, calls (trace (snd (m w s))) = (calls (trace s) ++ names)%list.

(** No socket operation fails in this world. *)
Definition responsive (w : world) : Prop :=
  forall r n c, exists t, socket w r n c = Replies t.

(** The instrument answers a query the same way whenever it is asked. *)
Definition answers (w : world) (r : role) (c : command) (reply : string) : Prop :=
  forall n, socket w r n c = Replies reply.

(** The attributes of an NR5G driver that no method assigns. *)
Definition static (d : NR5G.std_insr_driver) : NR5G.std_insr_driver :=
  NR5G.set_pwr 0 (NR5G.set_freq 0 d).

(** The timed driver methods a test set of [run_nr5g_measurement] enters
    when no step raises. *)
Definition expected_calls (reconf retune aclr : bool) : list string :=
  ((if reconf then ["VSG_Config"; "VSA_Config"] else []) ++
   (if retune then ["VSx_freq"] else []) ++
   ["VSA_get_info"; "VSA_sweep"; "VSA_get_EVM"] ++
   (if aclr then ["VSA_get_ACLR"] else []))%list.

(** What every NR5G driver method guarantees, whatever its outcome. *)
Definition method_spec {A} (names : list string) (m : NR5G.Dev A) : Prop :=
  adds_calls names m /\ preserves (fun s => static (self s)) m.

(** *** Concrete inputs for the examples *)

(** An instrument that answers every line with [1]; the clock advances one
    second per reading. *)
Definition quiet_world : world :=
  World (fun _ _ _ => Replies "1") (fun n => Np.of_nat n).

(** An instrument whose EVM read-back is [N/A] and whose other answers
    are [1]. *)
Definition is_evm_query (c : command) : bool :=
  match c with
  | [Txt t] => String.eqb t ":FETC:CC1:SUMM:EVM:ALL:AVER?"
  | _ => false
  end.

Definition na_world : world :=
  World (fun _ _ c => Replies (if is_evm_query c then "N/A" else "1"))
        (fun n => Np.of_nat n).

Definition waveform_A : string :=
  "/var/user/5GNR/Qorvo_EVM_opt/5GNR_UL_10MHz_256QAM_30kHz_24RB_0RBO.wv".
Definition setup_A : string :=
  "C:/r_s/instr/user/Qorvo/5GNR_UL_10MHz_256QAM_30kHz_24RB_0RBO.dfl".
Definition waveform_B : string :=
  "/var/user/5GNR/Qorvo_EVM_opt/5GNR_DL_20MHz_64QAM_30kHz_51RB_0RBO.wv".
Definition setup_B : string :=
  "C:/r_s/instr/user/Qorvo/5GNR_DL_20MHz_64QAM_30kHz_51RB_0RBO.dfl".

(** The driver object the main loop builds for a test entry. *)
Definition nr5g_driver (freq_ghz pwr : float) (waveform_file setup_file : option string)
  : NR5G.std_insr_driver :=
  match NR5G.init (freq_ghz * 1e9) pwr waveform_file setup_file with
  | inr d => d
  | inl _ => NR5G.Driver None 0 0 0 "" 0 "" "" 0 0 None None 0
  end.

(** The start of a script run: no result, no previous configuration. *)
Definition fresh_state {D} (d : D) : Main.state D :=
  Main.State (Device 0 0 [] d) [] None None.

(** Test entry A at 6.123 GHz, and the state after a test set of it wrote
    the previous configuration and frequency. *)
Definition test_A : Main.test_config :=
  Main.TestConfig 6.123 (-20) (Some waveform_A) (Some setup_A) true.

Definition after_A : Main.state NR5G.std_insr_driver :=
  Main.State (Device 0 0 [] (nr5g_driver 6.123 (-20) (Some waveform_A) (Some setup_A)))
    [] (Some (Main.Config (Some waveform_A) (Some setup_A))) (Some 6.123e9%float).

(** Test entry B: another waveform at 6.223 GHz, with its own driver
    object, run after entry A. *)
Definition test_B : Main.test_config :=
  Main.TestConfig 6.223 (-20) (Some waveform_B) (Some setup_B) true.

Definition before_B : Main.state NR5G.std_insr_driver :=
  Main.State (Device 0 0 [] (nr5g_driver 6.223 (-20) (Some waveform_B) (Some setup_B)))
    [] (Some (Main.Config (Some waveform_A) (Some setup_A))) (Some 6.123e9%float).

Definition evm_query : command := [Txt ":FETC:CC1:SUMM:EVM:ALL:AVER?"].
Definition pep_query : command := [Txt ":SOUR1:POW:PEP?"].
Definition aclr_query : command := [Txt ":CALC:MARK:FUNC:POW:RES? ACP"].

(** The lines [VSA_get_EVM] sends, in order. *)
Definition evm_sequence (reflev : float) : list (role * command) :=
  [(VSA, [Txt ":CONF:NR5G:MEAS EVM;*OPC"]);
   (VSA, [Txt "INIT:IMM;*OPC?"]);
   (VSG, pep_query);
   (VSA, [Txt ":DISP:WIND:TRAC:Y:SCAL:RLEV "; Num reflev]);
   (VSA, [Txt ":SENS:ADJ:EVM;*OPC?"]);
   (VSA, [Txt "INIT:IMM;*OPC?"]);
   (VSA, evm_query)].

(** Every line of a sequence sent from operation [n] on is answered. *)
Definition all_answered (w : world) (n : nat) (lines : list (role * command)) : Prop :=
  forall k r c, lines !! k = Some (r, c) -> exists t, socket w r (n + k) c = Replies t.

(** Why a test set of [run_nr5g_measurement] appended nothing: one of the
    driver methods that can raise did, on a driver with the attributes of
    the one the test set started with, or the ACLR fields did not convert. *)
Inductive step_raised (w : world) (tc : Main.test_config)
    (d0 : device NR5G.std_insr_driver) : Prop :=
| VSG_Config_raised d e d' :
    static (self d) = static (self d0) ->
    NR5G.VSG_Config w d = (inl e, d') -> step_raised w tc d0
| VSA_Config_raised d e d' :
    static (self d) = static (self d0) ->
    NR5G.VSA_Config (Some (Main.center_frequency_ghz tc * 1e9)%float) w d = (inl e, d') ->
    step_raised w tc d0
| VSx_freq_raised d e d' :
    NR5G.VSx_freq (Main.center_frequency_ghz tc * 1e9)%float w d = (inl e, d') ->
    step_raised w tc d0
| VSG_pwr_raised d e d' :
    NR5G.VSG_pwr (Main.power_dbm tc) w d = (inl e, d') -> step_raised w tc d0
| aclr_fields_raised d a t d' e :
    NR5G.VSA_get_ACLR w d = (inr (a, t), d') -> Main.aclr_fields a = inl e ->
    step_raised w tc d0.

(** The lines [get_results] of the spur search reads back. *)
Definition count_query : command := [Txt ":CALC:MARK:FUNC:FPE:COUN?"].
Definition x_query : command := [Txt ":CALC:MARK:FUNC:FPE:X?"].
Definition y_query : command := [Txt ":CALC:MARK:FUNC:FPE:Y?"].

(** An analyzer whose peak list holds the given count, frequencies and
    powers, and which answers every other line with [1]. *)
Definition peak_world (count freqs powers : string) : world :=
  World (fun _ _ c =>
           Replies match c with
                   | [Txt ":CALC:MARK:FUNC:FPE:COUN?"] => count
                   | [Txt ":CALC:MARK:FUNC:FPE:X?"] => freqs
                   | [Txt ":CALC:MARK:FUNC:FPE:Y?"] => powers
                   | _ => "1"
                   end)
        (fun n => Np.of_nat n).

(** The spur-search driver object of the main loop, with the defaults of
    [run_spur_search_measurement]. *)
Definition spur_device (fundamental_ghz : float) : device Spur.SpurSearch :=
  Device 0 0 [] (Spur.init fundamental_ghz 0.01 (-95) (-70)).

(** *** The driver seen by a client, and what a run sent and recorded *)

(** A set-up file name built after the same grammar, with the extension
    [.dfl]. *)
Definition setup_name (ld bw md scs rb rbo : string) : string :=
  "5GNR_" ++ ld ++ "_" ++ bw ++ "MHz" ++ "_" ++ md ++ "_" ++ scs ++ "kHz" ++ "_"
  ++ rb ++ "RB" ++ "_" ++ rbo ++ "RBO" ++ ".dfl".

(** The timed and untimed methods of the NR5G driver, as a client calls
    them, and a sequence of calls that stops at the first exception. *)
Inductive nr5g_method :=
| call_VSG_Config
| call_VSA_Config (freq : option float)
| call_VSx_freq (freq : float)
| call_VSG_pwr (pwr : float)
| call_VSA_sweep
| call_VSA_level
| call_VSA_get_info
| call_VSA_get_EVM
| call_VSA_get_ACLR.

Definition run_method (m : nr5g_method) : NR5G.Dev unit :=
  match m with
  | call_VSG_Config => NR5G.VSG_Config;; mret tt
  | call_VSA_Config f => NR5G.VSA_Config f;; mret tt
  | call_VSx_freq f => NR5G.VSx_freq f;; mret tt
  | call_VSG_pwr p => NR5G.VSG_pwr p
  | call_VSA_sweep => NR5G.VSA_sweep;; mret tt
  | call_VSA_level => NR5G.VSA_level;; mret tt
  | call_VSA_get_info => NR5G.VSA_get_info;; mret tt
  | call_VSA_get_EVM => NR5G.VSA_get_EVM;; mret tt
  | call_VSA_get_ACLR => NR5G.VSA_get_ACLR;; mret tt
  end.

Fixpoint run_methods (ms : list nr5g_method) : NR5G.Dev unit :=
  match ms with
  | [] => mret tt
  | m :: ms' => run_method m;; run_methods ms'
  end.

(** A set-up step of a test set raised: one of the driver methods entered
    before the measurements, on a driver with the attributes of the one the
    test set started with. *)
Inductive setup_raised (w : world) (tc : Main.test_config)
    (d0 : device NR5G.std_insr_driver) : Prop :=
| setup_VSG_Config d e d' :
    static (self d) = static (self d0) ->
    NR5G.VSG_Config w d = (inl e, d') -> setup_raised w tc d0
| setup_VSA_Config d e d' :
    static (self d) = static (self d0) ->
    NR5G.VSA_Config (Some (Main.center_frequency_ghz tc * 1e9)%float) w d = (inl e, d') ->
    setup_raised w tc d0
| setup_VSx_freq d e d' :
    NR5G.VSx_freq (Main.center_frequency_ghz tc * 1e9)%float w d = (inl e, d') ->
    setup_raised w tc d0
| setup_VSG_pwr d e d' :
    NR5G.VSG_pwr (Main.power_dbm tc) w d = (inl e, d') -> setup_raised w tc d0.

(** The frequency a line tunes the generator or the analyzer to, if it is
    one of the driver's frequency commands. *)
Definition generator_frequency (e : event) : option float :=
  match e with
  | Write VSG [Txt t; Num f] =>
      if String.eqb t ":SOUR1:FREQ:CW " then Some f else None
  | Query VSG [Txt t; Num f; Txt u] =>
      if (String.eqb t ":SOUR:FREQ:CW " && String.eqb u ";*OPC?")%bool then Some f
      else None
  | _ => None
  end.

Definition analyzer_frequency (e : event) : option float :=
  match e with
  | Query VSA [Txt t; Num f; Txt u] =>
      if (String.eqb t ":SENS:FREQ:CENT " && String.eqb u ";*OPC?")%bool then Some f
      else None
  | Write VSA [Txt t; Num f; Txt u] =>
      if (String.eqb t ":SENS:FREQ:CENT "
          && String.eqb u ";:SENS:POW:ACH:ACP 2;*OPC")%bool then Some f
      else None
  | _ => None
  end.

(** The frequencies the instruments were tuned to during a run, in order. *)
Definition generator_frequencies (t : list event) : list float := omap generator_frequency t.
Definition analyzer_frequencies (t : list event) : list float := omap analyzer_frequency t.

Arguments generator_frequencies : simpl never.
Arguments analyzer_frequencies : simpl never.

(** What a driver method adds to the frequencies tuned, when every line is
    answered and the method returns. *)
Definition tunes {A} (m : NR5G.Dev A) w d (gen ana : list float) : Prop :=
  match fst (m w d) with
  | inr _ =>
      generator_frequencies (trace (snd (m w d)))
      = (generator_frequencies (trace d) ++ gen)%list
      /\ analyzer_frequencies (trace (snd (m w d)))
         = (analyzer_frequencies (trace d) ++ ana)%list
  | inl _ => True
  end.

(** The times of the iterations that returned a marker. *)
Definition successful_times (markers : list (option float * float)) : list float :=
  omap (fun m => match fst m with Some _ => Some (snd m) | None => None end) markers.

(** What an entry of [markers] records: the marker and the time a call of
    [get_VSA_sweep_noise_mkr] returned, or that a call raised. *)
Definition marker_outcome (w : world) (m : option float * float) : Prop :=
  match fst m with
  | Some marker =>
      exists d d', STN.get_VSA_sweep_noise_mkr w d = (inr (marker, snd m), d')
  | None =>
      snd m = 0%float /\ exists d e d', STN.get_VSA_sweep_noise_mkr w d = (inl e, d')
  end.

(** A step of a SpurSearch test set raised. *)
Inductive spur_step_raised (w : world) (fundamental_ghz rbw_mhz spur_limit_dbm pwr : float)
    (e : exn) : Prop :=
| spur_VSG_config_raised d d' :
    Spur.VSG_config (Some fundamental_ghz) (Some pwr) w d = (inl e, d') ->
    spur_step_raised w fundamental_ghz rbw_mhz spur_limit_dbm pwr e
| spur_VSA_config_raised d d' :
    Spur.VSA_config (Some fundamental_ghz) (Some rbw_mhz) (Some spur_limit_dbm) w d
    = (inl e, d') ->
    spur_step_raised w fundamental_ghz rbw_mhz spur_limit_dbm pwr e
| spur_measure_raised d d' :
    Spur.measure w d = (inl e, d') ->
    spur_step_raised w fundamental_ghz rbw_mhz spur_limit_dbm pwr e.

(** Every socket operation on one instrument times out; the other
    instrument answers every line with [1]. *)
Definition failing_world (r : role) : world :=
  World (fun r' _ _ =>
           match r, r' with
           | VSG, VSG | VSA, VSA => Fails (Exn OSError "timed out")
           | _, _ => Replies "1"
           end)
        (fun n => Np.of_nat n).

(** An analyzer whose ACLR read-back is the given line, and which answers
    every other line with [1]. *)
Definition aclr_world (reply : string) : world :=
  World (fun _ _ c =>
           Replies match c with
                   | [Txt ":CALC:MARK:FUNC:POW:RES? ACP"] => reply
                   | _ => "1"
                   end)
        (fun n => Np.of_nat n).

(** Test entry A moved to 6.223 GHz, run first on the driver object built
    for 6.123 GHz. *)
Definition test_A_moved : Main.test_config :=
  Main.TestConfig 6.223 (-20) (Some waveform_A) (Some setup_A) true.

Definition before_A : Main.state NR5G.std_insr_driver :=
  fresh_state (nr5g_driver 6.123 (-20) (Some waveform_A) (Some setup_A)).

(** A NaN among the eight running sums of a block. *)
Definition lanes_nan (r : Np.lanes) : Prop :=
  let '(r0, r1, r2, r3, r4, r5, r6, r7) := r in
  In nan [r0; r1; r2; r3; r4; r5; r6; r7].

End Props.

(** * Properties *)

Import Py IO Props.

#[local] Arguments String.append !_ _ / : simpl nomatch.

Ltac by_chars c :=
  destruct c as [[|] [|] [|] [|] [|] [|] [|] [|]]; vm_compute; try done.

(** ** Strings *)

Lemma string_forall_app P a b :
  string_forall P (a ++ b) = string_forall P a && string_forall P b.
Proof. induction a as [|c a IH]; simpl; [done|]. rewrite IH. by destruct (P c). Qed.

Lemma lstrip_id s : string_forall (fun c => negb (isspace c)) s = true -> lstrip s = s.
Proof. destruct s as [|c s]; simpl; [done|]. by destruct (isspace c). Qed.

Lemma rstrip_id s : string_forall (fun c => negb (isspace c)) s = true -> rstrip s = s.
Proof.
  induction s as [|c s IH]; simpl; [done|].
  intros [Hc Hs]%andb_prop. rewrite (IH Hs).
  destruct s; [|done]. by destruct (isspace c).
Qed.

Lemma strip_id s : string_forall (fun c => negb (isspace c)) s = true -> strip s = s.
Proof. intros H. unfold strip. by rewrite lstrip_id, rstrip_id. Qed.

Lemma basename_id s :
  string_forall (fun c => negb (Ascii.eqb c "/")) s = true -> basename s = s.
Proof.
  destruct s as [|c s]; [done|].
  cbn [basename string_forall].
  intros [Hc Hs]%andb_prop.
  assert (existsb (Ascii.eqb "/") (list_ascii_of_string s) = false) as ->.
  { clear Hc. induction s as [|d s IH]; [done|].
    cbn [existsb list_ascii_of_string string_forall] in *.
    apply andb_prop in Hs as [Hd Hs]. rewrite (IH Hs).
    rewrite (Ascii.eqb_sym "/" d). by destruct (Ascii.eqb d "/"). }
  by destruct (Ascii.eqb c "/").
Qed.

Lemma isdigit_clean c :
  isdigit c = true ->
  isspace c = false /\ Ascii.eqb c "/" = false /\ Ascii.eqb c "_" = false
  /\ Ascii.eqb c "-" = false /\ Ascii.eqb c "+" = false.
Proof. by_chars c. Qed.

Lemma digits_clean P s :
  (forall c, isdigit c = true -> P c = true) ->
  string_forall isdigit s = true -> string_forall P s = true.
Proof.
  intros HP. induction s as [|c s IH]; simpl; [done|].
  intros [Hc Hs]%andb_prop. by rewrite (HP c Hc), (IH Hs).
Qed.

(** A run of digits followed by a text that no digit starts is found whole. *)
Lemma span_digits_app ds rest :
  string_forall isdigit ds = true ->
  match rest with String c _ => isdigit c = false | EmptyString => True end ->
  span_digits (ds ++ rest) = (ds, rest).
Proof.
  intros Hds Hrest. induction ds as [|c ds IH]; simpl in *.
  - destruct rest as [|c r]; simpl; [done|]. by rewrite Hrest.
  - apply andb_prop in Hds as [Hc Hds]. by rewrite Hc, (IH Hds).
Qed.

Lemma int_digits_digits s :
  string_forall isdigit s = true ->
  forall b acc, int_digits b acc s = match s with
                                     | EmptyString => if b then Some acc else None
                                     | _ => Some (digits_value acc s)
                                     end.
Proof.
  induction s as [|c s IH]; simpl; [done|].
  intros [Hc Hs]%andb_prop b acc. rewrite Hc, (IH Hs). by destruct s.
Qed.

Lemma int_of_digit_string s :
  digit_string s -> int_of_str s = inr (digits_value 0 s).
Proof.
  intros [Hne Hs]. unfold int_of_str.
  rewrite strip_id.
  2:{ apply (digits_clean _ _ (fun c H => f_equal negb (proj1 (isdigit_clean c H))) Hs). }
  destruct s as [|c s]; [done|].
  assert (split_sign (String c s) = (false, String c s)) as ->.
  { simpl in Hs. apply andb_prop in Hs as [Hc _].
    destruct (isdigit_clean c Hc) as (_ & _ & _ & Hm & Hp).
    unfold split_sign. 
    destruct (Ascii.eqb_spec c "-") as [->|]; [done|].
    destruct (Ascii.eqb_spec c "+") as [->|]; [done|].
    by_chars c. }
  by rewrite (int_digits_digits _ Hs).
Qed.

(** Dropping the unit from a group of digits and unit leaves the digits. *)
Lemma replace_unit unit ds :
  string_forall isdigit ds = true ->
  match unit with String c _ => isdigit c = false | EmptyString => False end ->
  replace_from unit "" 0 unit = "" ->
  replace unit "" (ds ++ unit) = ds.
Proof.
  intros Hds Hunit Hself.
  destruct unit as [|u unit]; [done|]. unfold replace.
  induction ds as [|c ds IH]; [done|].
  cbn [string_forall] in Hds. apply andb_prop in Hds as [Hc Hds].
  cbn [append replace_from strip_prefix].
  destruct (Ascii.eqb_spec u c) as [->|_]; [congruence|].
  by rewrite (IH Hds).
Qed.

Lemma strip_prefix_app p rest : strip_prefix p (p ++ rest) = Some rest.
Proof.
  induction p as [|c p IH]; [done|].
  cbn [append strip_prefix]. by rewrite Ascii.eqb_refl.
Qed.

Lemma digits_unit_app unit ds text rest :
  digit_string ds ->
  match unit with String c _ => isdigit c = false | EmptyString => False end ->
  strip_prefix unit text = Some rest ->
  NR5G.digits_unit unit (ds ++ text) = Some (ds ++ unit, rest).
Proof.
  intros [Hne Hds] Hunit Htext. unfold NR5G.digits_unit.
  rewrite span_digits_app; [|done|].
  - destruct ds as [|d ds]; [done|]. by rewrite Htext.
  - destruct unit as [|u unit]; [done|]. destruct text as [|c text]; [done|].
    cbn [strip_prefix] in Htext. by destruct (Ascii.eqb_spec u c) as [<-|].
Qed.

Lemma match_waveform_name ld bw md scs rb rbo :
  In ld ["UL"; "DL"] -> In md NR5G.modulations ->
  digit_string bw -> digit_string scs -> digit_string rb -> digit_string rbo ->
  NR5G.match_file_name "wv" (waveform_name ld bw md scs rb rbo)
  = Some (ld, bw ++ "MHz", md, scs ++ "kHz", rb ++ "RB", rbo ++ "RBO").
Proof.
  intros Hld Hmd Hbw Hscs Hrb Hrbo.
  assert (forall x, NR5G.alternation ["UL"; "DL"] (ld ++ "_" ++ x) = Some (ld, "_" ++ x)) as Hl.
  { intros x. simpl in Hld. destruct Hld as [<-|[<-|[]]]; done. }
  assert (forall x, NR5G.alternation NR5G.modulations (md ++ "_" ++ x) = Some (md, "_" ++ x)) as Hm.
  { intros x. simpl in Hmd. destruct Hmd as [<-|[<-|[<-|[<-|[<-|[]]]]]]; done. }
  unfold NR5G.match_file_name, waveform_name.
  rewrite strip_prefix_app; cbn [mbind option_bind].
  rewrite Hl; cbn [mbind option_bind].
  rewrite strip_prefix_app; cbn [mbind option_bind].
  erewrite (digits_unit_app "MHz" bw); [|done|done|apply strip_prefix_app].
  cbn [mbind option_bind].
  rewrite strip_prefix_app; cbn [mbind option_bind].
  rewrite Hm; cbn [mbind option_bind].
  rewrite strip_prefix_app; cbn [mbind option_bind].
  erewrite (digits_unit_app "kHz" scs); [|done|done|apply strip_prefix_app].
  cbn [mbind option_bind].
  rewrite strip_prefix_app; cbn [mbind option_bind].
  erewrite (digits_unit_app "RB" rb); [|done|done|apply strip_prefix_app].
  cbn [mbind option_bind].
  rewrite strip_prefix_app; cbn [mbind option_bind].
  erewrite (digits_unit_app "RBO" rbo); [|done|done|apply strip_prefix_app].
  cbn [mbind option_bind].
  done.
Qed.

Lemma waveform_name_clean ld bw md scs rb rbo :
  In ld ["UL"; "DL"] -> In md NR5G.modulations ->
  digit_string bw -> digit_string scs -> digit_string rb -> digit_string rbo ->
  string_forall clean_char (waveform_name ld bw md scs rb rbo) = true.
Proof.
  intros Hld Hmd [_ Hbw] [_ Hscs] [_ Hrb] [_ Hrbo].
  assert (forall s, string_forall isdigit s = true -> string_forall clean_char s = true) as Hd.
  { intros s. apply digits_clean. intros c Hc. unfold clean_char.
    destruct (isdigit_clean c Hc) as (-> & -> & _). done. }
  unfold waveform_name.
  rewrite !string_forall_app, (Hd bw), (Hd scs), (Hd rb), (Hd rbo) by done.
  simpl in Hld, Hmd.
  destruct Hld as [<-|[<-|[]]]; destruct Hmd as [<-|[<-|[<-|[<-|[<-|[]]]]]];
    reflexivity.
Qed.

Lemma clean_strip_basename s :
  string_forall clean_char s = true -> strip (basename s) = s.
Proof.
  intros H. rewrite basename_id, strip_id; [done| |].
  - revert H. clear. induction s as [|c s IH]; [done|]. cbn [string_forall].
    unfold clean_char at 1. intros [[-> _]%andb_prop Hs]%andb_prop. by rewrite IH.
  - revert H. clear. induction s as [|c s IH]; [done|]. cbn [string_forall].
    unfold clean_char at 1. intros [[_ ->]%andb_prop Hs]%andb_prop. by rewrite IH.
Qed.

(** C3. For every waveform file name that matches the grammar (link
    direction UL or DL, one of the five modulations, four non-empty runs of
    digits), [_extract_waveform_params] returns the descriptor holding
    exactly the encoded signal type, link direction, bandwidth, modulation,
    subcarrier spacing, resource blocks and resource-block offset, and its
    duplexing is FDD exactly when the link direction is UL, TDD otherwise.
    The parser is a function of the name alone. *)
Theorem extract_waveform_params_recovers ld bw md scs rb rbo :
  In ld ["UL"; "DL"] -> In md NR5G.modulations ->
  digit_string bw -> digit_string scs -> digit_string rb -> digit_string rbo ->
  exists d,
    NR5G._extract_waveform_params (waveform_name ld bw md scs rb rbo) = Some d
    /\ NR5G.signal_type d = "5GNR"
    /\ NR5G.link_direction d = ld
    /\ NR5G.bandwidth_mhz d = decimal bw
    /\ NR5G.modulation d = md
    /\ NR5G.subcarrier_spacing_khz d = decimal scs
    /\ NR5G.resource_blocks d = decimal rb
    /\ NR5G.resource_block_offset d = decimal rbo
    /\ (NR5G.duplexing d = "FDD" <-> ld = "UL")
    /\ (NR5G.duplexing d = "TDD" <-> ld = "DL").
Proof.
  intros Hld Hmd Hbw Hscs Hrb Hrbo. eexists. split.
  - unfold NR5G._extract_waveform_params.
    rewrite clean_strip_basename by by apply waveform_name_clean.
    rewrite match_waveform_name by done.
    rewrite !replace_unit by (done || apply Hbw || apply Hscs || apply Hrb || apply Hrbo).
    by rewrite !int_of_digit_string.
  - cbn [NR5G.signal_type NR5G.link_direction NR5G.bandwidth_mhz NR5G.modulation
         NR5G.subcarrier_spacing_khz NR5G.resource_blocks
         NR5G.resource_block_offset NR5G.duplexing].
    simpl in Hld. destruct Hld as [<-|[<-|[]]]; by repeat split.
Qed.

Lemma extract_waveform_params_recovers_witness :
  exists d,
    NR5G._extract_waveform_params "5GNR_UL_10MHz_256QAM_30kHz_24RB_0RBO.wv" = Some d
    /\ NR5G.signal_type d = "5GNR"
    /\ NR5G.link_direction d = "UL"
    /\ NR5G.bandwidth_mhz d = 10%Z
    /\ NR5G.modulation d = "256QAM"
    /\ NR5G.subcarrier_spacing_khz d = 30%Z
    /\ NR5G.resource_blocks d = 24%Z
    /\ NR5G.resource_block_offset d = 0%Z
    /\ (NR5G.duplexing d = "FDD" <-> "UL" = "UL")
    /\ (NR5G.duplexing d = "TDD" <-> "UL" = "DL").
Proof.
  apply (extract_waveform_params_recovers "UL" "10" "256QAM" "30" "24" "0");
    [simpl; auto | simpl; auto | split; [discriminate | reflexivity] ..].
Defined.

(** ** Observations a computation leaves unchanged *)

Section Preserves.
Context {S X : Type} (f : S -> X).

Lemma preserves_ret {A} (a : A) : preserves f (mret a).
Proof. done. Qed.

Lemma preserves_raise {A} e : preserves f (raise (A:=A) e).
Proof. done. Qed.

Lemma preserves_eval {A} (r : exn + A) : preserves f (eval r).
Proof. done. Qed.

Lemma preserves_get : preserves f get.
Proof. done. Qed.

Lemma preserves_bind {A B} (m : M S A) (k : A -> M S B) :
  preserves f m -> (forall a, preserves f (k a)) -> preserves f (m ≫= k).
Proof.
  intros Hm Hk w s. unfold mbind, M_bind, bind.
  specialize (Hm w s). destruct (m w s) as [[e|a] s1]; simpl in *; [done|].
  by rewrite Hk.
Qed.

Lemma preserves_try {A} (m : M S A) h :
  preserves f m -> (forall e, preserves f (h e)) -> preserves f (try_except m h).
Proof.
  intros Hm Hh w s. unfold try_except.
  specialize (Hm w s). destruct (m w s) as [[e|a] s1]; simpl in *; [|done].
  by rewrite Hh.
Qed.

Lemma preserves_try_ValueError {A} (m : M S A) h :
  preserves f m -> (forall e, preserves f (h e)) -> preserves f (try_except_ValueError m h).
Proof.
  intros Hm Hh. apply preserves_try; [done|]. intros e.
  destruct (is_ValueError e); [done|]. apply preserves_raise.
Qed.

Lemma preserves_modify (g : S -> S) :
  (forall s, f (g s) = f s) -> preserves f (modify g).
Proof. intros H w s. apply H. Qed.

End Preserves.

Lemma preserves_zoom_out {S T X A} (f : S -> X) (proj : S -> T) inj (m : M T A) :
  (forall t s, f (inj t s) = f s) -> preserves f (zoom proj inj m).
Proof. intros H w s. unfold zoom. destruct (m w (proj s)). apply H. Qed.

Lemma preserves_zoom_in {S T X A} (g : T -> X) (proj : S -> T) inj (m : M T A) :
  (forall t s, proj (inj t s) = t) -> preserves g m ->
  preserves (fun s => g (proj s)) (zoom proj inj m).
Proof.
  intros H Hm w s. unfold zoom. specialize (Hm w (proj s)).
  destruct (m w (proj s)); simpl in *. by rewrite H.
Qed.

Section DevicePreserves.
Context {D X : Type} (f : device D -> X).
(* f ignores socket/clock cursors and non-call events *)
Hypothesis f_socket : forall s ev, (forall n, ev <> Call n) ->
  f (Device (S (ops s)) (ticks s) (trace s ++ [ev]) (self s)) = f s.
Hypothesis f_tick : forall s, f (Device (ops s) (S (ticks s)) (trace s) (self s)) = f s.

Lemma preserves_write r c : preserves f (write (D:=D) r c).
Proof.
  intros w s. unfold write, mbind, M_bind, bind, socket_op.
  destruct (socket w r (ops s) c); simpl; by apply f_socket.
Qed.

Lemma preserves_query r c : preserves f (query (D:=D) r c).
Proof.
  intros w s. unfold query, mbind, M_bind, bind, socket_op.
  destruct (socket w r (ops s) c); simpl; by apply f_socket.
Qed.

Lemma preserves_default_timer : preserves f (default_timer (D:=D)).
Proof. intros w s. apply f_tick. Qed.

End DevicePreserves.

Lemma preserves_set_self {D X} (f : device D -> X) (g : D -> D) :
  (forall s, f (with_self (g (self s)) s) = f s) -> preserves f (set_self g).
Proof. intros H. by apply preserves_modify. Qed.

Lemma preserves_get_self {D X} (f : device D -> X) : preserves f (get_self (D:=D)).
Proof. done. Qed.

Lemma calls_app t1 t2 : calls (t1 ++ t2) = (calls t1 ++ calls t2)%list.
Proof. apply omap_app. Qed.

Lemma calls_other t ev : (forall n, ev <> Call n) -> calls (t ++ [ev]) = calls t.
Proof.
  intros H. rewrite calls_app. destruct ev; simpl; rewrite ?app_nil_r; try done.
  by specialize (H method).
Qed.

Ltac preserves_side := intros; cbn; first [done | auto using calls_other].

Ltac preserves_step :=
  first
    [ apply preserves_write; preserves_side
    | apply preserves_query; preserves_side
    | apply preserves_default_timer; preserves_side
    | apply preserves_set_self; preserves_side
    | apply preserves_get_self
    | apply preserves_ret | apply preserves_raise | apply preserves_eval
    | apply preserves_get
    | apply preserves_try_ValueError; [|intros]
    | apply preserves_try; [|intros]
    | apply preserves_bind; [|intros]
    | progress cbv beta zeta
    | match goal with
      | |- preserves _ (match ?x with _ => _ end) => destruct x
      | |- preserves _ (let 'pair _ _ := ?x in _) => destruct x
      end ].

Ltac preserves_tac := repeat preserves_step.

Lemma method_timer_adds_call {D A} name (body : M (device D) A) :
  preserves (fun s => calls (trace s)) body ->
  adds_calls [name] (method_timer name body).
Proof.
  intros Hb w s. unfold method_timer, mbind, M_bind, bind, log, modify, default_timer.
  cbn. 
  match goal with |- context [body w ?s0] => specialize (Hb w s0); destruct (body w s0) as [[e|a] s1] end;
  cbn in *; rewrite Hb, calls_app; done.
Qed.

Lemma VSG_pwr_calls p : preserves (fun s => calls (trace s)) (NR5G.VSG_pwr p).
Proof. unfold NR5G.VSG_pwr. preserves_tac. Qed.

Lemma VSG_Config_calls : adds_calls ["VSG_Config"] NR5G.VSG_Config.
Proof.
  apply method_timer_adds_call. preserves_tac.
Qed.

Lemma VSA_Config_calls f : adds_calls ["VSA_Config"] (NR5G.VSA_Config f).
Proof. apply method_timer_adds_call. preserves_tac. Qed.
Lemma VSx_freq_calls f : adds_calls ["VSx_freq"] (NR5G.VSx_freq f).
Proof. apply method_timer_adds_call. preserves_tac. Qed.
Lemma VSA_get_info_calls : adds_calls ["VSA_get_info"] NR5G.VSA_get_info.
Proof. apply method_timer_adds_call. preserves_tac. Qed.
Lemma VSA_sweep_calls : adds_calls ["VSA_sweep"] NR5G.VSA_sweep.
Proof. apply method_timer_adds_call. preserves_tac. Qed.
Lemma VSA_get_EVM_calls : adds_calls ["VSA_get_EVM"] NR5G.VSA_get_EVM.
Proof. apply method_timer_adds_call. preserves_tac. Qed.
Lemma VSA_get_ACLR_calls : adds_calls ["VSA_get_ACLR"] NR5G.VSA_get_ACLR.
Proof. apply method_timer_adds_call. preserves_tac. Qed.


(** ** Binary64 facts *)

Lemma sub_self_spec (x : float) :
  Prim2SF (x - x) = S754_nan \/ exists s, Prim2SF (x - x) = S754_zero s.
Proof.
  rewrite sub_spec. destruct (Prim2SF x) as [s|[]| |s m e]; cbn; eauto.
  - destruct s; eauto.
  - right. unfold SF64sub, SFsub.
    match goal with |- context [binary_normalize _ _ (?a - ?b)%Z] =>
      replace (a - b)%Z with 0%Z by (symmetry; apply Z.sub_diag) end.
    cbn. eauto.
Qed.

(** A frequency never differs from itself by more than the tolerance. *)
Lemma freq_changed_same (f : float) : Main.freq_changed (Some f) f = false.
Proof.
  unfold Main.freq_changed. rewrite ltb_spec, abs_spec.
  destruct (sub_self_spec f) as [->|[s ->]]; [done|]. by destruct s.
Qed.

(** ** The NR5G driver methods *)

Ltac static_side :=
  intros; cbn;
  first [ done | auto using calls_other
        | unfold static, NR5G.set_pwr, NR5G.set_freq; cbn; reflexivity ].

Lemma preserves_method_timer {D A X} (f : device D -> X) name (body : M (device D) A) :
  (forall s ev, f (Device (ops s) (ticks s) (trace s ++ [ev]) (self s)) = f s) ->
  (forall s, f (Device (ops s) (S (ticks s)) (trace s) (self s)) = f s) ->
  preserves f body -> preserves f (method_timer name body).
Proof.
  intros Hlog Htick Hb. unfold method_timer.
  apply preserves_bind; [by apply preserves_modify|intros _].
  apply preserves_bind; [by apply preserves_default_timer|intros t0].
  apply preserves_bind; [done|intros a].
  apply preserves_bind; [by apply preserves_default_timer|intros t1].
  apply preserves_ret.
Qed.

Ltac static_tac :=
  apply preserves_method_timer; [static_side | static_side |];
  repeat first
    [ apply preserves_write; static_side
    | apply preserves_query; static_side
    | apply preserves_set_self; static_side
    | preserves_step ].

Lemma VSG_pwr_spec p : method_spec [] (NR5G.VSG_pwr p).
Proof.
  split.
  - intros w s. rewrite app_nil_r. revert w s.
    change (preserves (fun s => calls (trace s)) (NR5G.VSG_pwr p)).
    unfold NR5G.VSG_pwr. preserves_tac.
  - unfold NR5G.VSG_pwr.
    repeat first [ apply preserves_write; static_side
                 | apply preserves_set_self; static_side | preserves_step ].
Qed.

Lemma VSG_Config_spec : method_spec ["VSG_Config"] NR5G.VSG_Config.
Proof. split; [apply VSG_Config_calls | static_tac]. Qed.
Lemma VSA_Config_spec f : method_spec ["VSA_Config"] (NR5G.VSA_Config f).
Proof. split; [apply VSA_Config_calls | static_tac]. Qed.
Lemma VSx_freq_spec f : method_spec ["VSx_freq"] (NR5G.VSx_freq f).
Proof. split; [apply VSx_freq_calls | static_tac]. Qed.
Lemma VSA_get_info_spec : method_spec ["VSA_get_info"] NR5G.VSA_get_info.
Proof. split; [apply VSA_get_info_calls | static_tac]. Qed.
Lemma VSA_sweep_spec : method_spec ["VSA_sweep"] NR5G.VSA_sweep.
Proof. split; [apply VSA_sweep_calls | static_tac]. Qed.
Lemma VSA_get_EVM_spec : method_spec ["VSA_get_EVM"] NR5G.VSA_get_EVM.
Proof. split; [apply VSA_get_EVM_calls | static_tac]. Qed.
Lemma VSA_get_ACLR_spec : method_spec ["VSA_get_ACLR"] NR5G.VSA_get_ACLR.
Proof. split; [apply VSA_get_ACLR_calls | static_tac]. Qed.

(** ** The EVM measurement *)

Ltac dev_cbv :=
  cbv beta iota zeta delta
    [method_timer log default_timer write query queryFloat socket_op get_self set_self
     with_self try_except try_except_ValueError mbind M_bind bind mret M_ret ret
     get modify raise eval fst snd];
  cbn [ops ticks trace self].

(** The next socket operation of the computation in the goal: it fails
    (first goal) or is answered (second goal). *)
Tactic Notation "next_op" constr(n) "as" ident(t) ident(E) :=
  match goal with
  | |- context [socket ?w ?r n ?c] =>
      destruct (socket w r n c) as [?e|t] eqn:E; dev_cbv
  end.

Lemma all_answered_cons w n r c t lines :
  socket w r n c = Replies t -> all_answered w (S n) lines ->
  all_answered w n ((r, c) :: lines).
Proof.
  intros H Hl [|k] r' c'; cbn.
  - intros [= <- <-]. rewrite Nat.add_0_r. eauto.
  - intros Hk. rewrite <- Nat.add_succ_comm. by apply Hl.
Qed.

Lemma all_answered_nil w n : all_answered w n [].
Proof. by intros k r c. Qed.

(** C10. [VSA_get_EVM] returns a value and its elapsed time in every
    world: no exception leaves it. The value is NaN unless every line of
    the measurement sequence was answered, the peak-envelope-power
    read-back was numeric and the EVM read-back was numeric, in which case
    it is the EVM read. So a failed socket operation anywhere, a
    non-numeric PEP and a non-numeric EVM all end in NaN. *)
Theorem VSA_get_EVM_never_raises w d :
  exists v t d',
    NR5G.VSA_get_EVM w d = (inr (v, t), d')
    /\ (v = nan
        \/ exists pep_str pep evm_str,
             socket w VSG (2 + ops d) pep_query = Replies pep_str
             /\ float_of_str (strip pep_str) = inr pep
             /\ all_answered w (ops d) (evm_sequence (pep - 2))
             /\ socket w VSA (6 + ops d) evm_query = Replies evm_str
             /\ float_of_str (strip evm_str) = inr v).
Proof.
  unfold NR5G.VSA_get_EVM. dev_cbv.
  next_op (ops d) as t0 E0; [by eauto 10|].
  next_op (S (ops d)) as t1 E1; [by eauto 10|].
  next_op (S (S (ops d))) as pep_str E2; [by eauto 10|].
  destruct (float_of_str (strip pep_str)) as [e|pep] eqn:Hpep; dev_cbv.
  { destruct (is_ValueError e); dev_cbv; by eauto 10. }
  next_op (S (S (S (ops d)))) as t3 E3; [by eauto 10|].
  next_op (S (S (S (S (ops d))))) as t4 E4; [by eauto 10|].
  next_op (S (S (S (S (S (ops d)))))) as t5 E5; [by eauto 10|].
  next_op (S (S (S (S (S (S (ops d))))))) as evm_str E6; [by eauto 10|].
  destruct (float_of_str (strip evm_str)) as [e|v] eqn:Hevm; dev_cbv.
  { destruct (is_ValueError e); dev_cbv; by eauto 10. }
  do 3 eexists. split; [reflexivity|]. right. exists pep_str, pep, evm_str.
  repeat split; try done.
  repeat (eapply all_answered_cons; [eassumption|]). apply all_answered_nil.
Qed.

(** ** Methods that cannot raise, and methods that return when the
    instruments answer *)

Lemma never_raises_ret {S A} (a : A) : never_raises (S:=S) (mret a).
Proof. intros w s. by eexists. Qed.

Lemma never_raises_bind {S A B} (m : M S A) (k : A -> M S B) :
  never_raises m -> (forall a, never_raises (k a)) -> never_raises (m ≫= k).
Proof.
  intros Hm Hk w s. unfold mbind, M_bind, bind.
  destruct (Hm w s) as [a Ha]. destruct (m w s) as [[e|a'] s1]; [done|].
  cbn in Ha. apply Hk.
Qed.

Lemma never_raises_try {S A} (m : M S A) h :
  (forall e, never_raises (h e)) -> never_raises (try_except m h).
Proof.
  intros Hh w s. unfold try_except.
  destruct (m w s) as [[e|a] s1]; [apply Hh|by eexists].
Qed.

Lemma never_raises_method_timer {D A} name (m : M (device D) A) :
  never_raises m -> never_raises (method_timer name m).
Proof.
  intros Hm. unfold method_timer.
  repeat (apply never_raises_bind; [|intros]);
    first [done | apply never_raises_ret | intros w s; by eexists].
Qed.

Lemma VSA_get_info_never_raises : never_raises NR5G.VSA_get_info.
Proof.
  apply never_raises_method_timer, never_raises_bind; [intros w s; by eexists|].
  intros a. apply never_raises_ret.
Qed.

Lemma VSA_sweep_never_raises : never_raises NR5G.VSA_sweep.
Proof. apply never_raises_method_timer, never_raises_ret. Qed.

Lemma VSA_get_EVM_total : never_raises NR5G.VSA_get_EVM.
Proof.
  apply never_raises_method_timer, never_raises_try. intros e. apply never_raises_ret.
Qed.

Lemma VSA_get_ACLR_never_raises : never_raises NR5G.VSA_get_ACLR.
Proof.
  apply never_raises_method_timer, never_raises_try. intros e. apply never_raises_ret.
Qed.

(** The ACLR string handed back is empty or a stripped read-back. *)
Lemma VSA_get_ACLR_result w d a t d' :
  NR5G.VSA_get_ACLR w d = (inr (a, t), d') ->
  a = "" \/ exists n r, socket w VSA n aclr_query = Replies r /\ a = strip (strip r).
Proof.
  unfold NR5G.VSA_get_ACLR. dev_cbv.
  next_op (ops d) as t0 E0; [intros [= <- _ _]; by left|].
  next_op (S (ops d)) as t1 E1; [intros [= <- _ _]; by left|].
  next_op (S (S (ops d))) as t2 E2; [intros [= <- _ _]; by left|].
  next_op (S (S (S (ops d)))) as t3 E3; [intros [= <- _ _]; by left|].
  next_op (S (S (S (S (ops d))))) as t4 E4; [intros [= <- _ _]; by left|].
  next_op (S (S (S (S (S (ops d)))))) as t5 E5; [intros [= <- _ _]; by left|].
  intros [= <- _ _]. right. eauto.
Qed.

Ltac answer H :=
  repeat match goal with
         | |- context [socket ?w ?r ?n ?c] =>
             let t := fresh "t" in
             destruct (H r n c) as [t ->]; dev_cbv
         end.

Lemma VSG_pwr_returns w d p :
  responsive w -> exists d', NR5G.VSG_pwr p w d = (inr tt, d').
Proof. intros H. unfold NR5G.VSG_pwr. dev_cbv. answer H. by eexists. Qed.

Lemma VSG_Config_returns w d :
  responsive w -> truthy (NR5G.waveform_file (self d)) = true ->
  exists a d', NR5G.VSG_Config w d = (inr a, d').
Proof.
  intros H Hw. unfold NR5G.VSG_Config, NR5G.VSG_pwr. dev_cbv.
  destruct (NR5G.waveform_file (self d)) as [[|c path]|]; try done.
  dev_cbv. answer H. by do 2 eexists.
Qed.

Lemma VSA_Config_returns w d f :
  responsive w -> truthy (NR5G.setup_file (self d)) = true -> (f <=? 0)%float = false ->
  exists a d', NR5G.VSA_Config (Some f) w d = (inr a, d').
Proof.
  intros H Hw Hf. unfold NR5G.VSA_Config. dev_cbv. rewrite Hf.
  destruct (NR5G.setup_file (self d)) as [[|c path]|]; try done.
  dev_cbv. answer H. by do 2 eexists.
Qed.

Lemma VSx_freq_returns w d f :
  responsive w -> (f <=? 0)%float = false ->
  exists a d', NR5G.VSx_freq f w d = (inr a, d').
Proof.
  intros H Hf. unfold NR5G.VSx_freq. dev_cbv. rewrite Hf. dev_cbv.
  answer H. by do 2 eexists.
Qed.

(** A non-numeric EVM read-back gives NaN. *)
Lemma VSA_get_EVM_malformed w d evm_str e :
  answers w VSA evm_query evm_str -> float_of_str (strip evm_str) = inl e ->
  exists t d', NR5G.VSA_get_EVM w d = (inr (nan, t), d').
Proof.
  intros Hans Hbad. unfold NR5G.VSA_get_EVM. dev_cbv.
  next_op (ops d) as t0 E0; [by eauto|].
  next_op (S (ops d)) as t1 E1; [by eauto|].
  next_op (S (S (ops d))) as pep_str E2; [by eauto|].
  destruct (float_of_str (strip pep_str)) as [e'|pep] eqn:Hpep; dev_cbv.
  { destruct (is_ValueError e'); dev_cbv; by eauto. }
  next_op (S (S (S (ops d)))) as t3 E3; [by eauto|].
  next_op (S (S (S (S (ops d))))) as t4 E4; [by eauto|].
  next_op (S (S (S (S (S (ops d)))))) as t5 E5; [by eauto|].
  fold evm_query. rewrite Hans. dev_cbv. rewrite Hbad. dev_cbv.
  destruct (is_ValueError e); dev_cbv; by eauto.
Qed.

Import Main.

(** ** The NR5G test-set runner *)

Lemma call_unfold {D A} (m : M (device D) A) w (s : state D) :
  call m w s = (fst (m w (instr s)), set_instr (snd (m w (instr s))) s).
Proof. unfold call, zoom. by destruct (m w (instr s)). Qed.

Ltac run_cbn :=
  cbv beta iota zeta delta
    [try_except mbind M_bind bind mret M_ret ret get modify raise eval fst snd
     set_previous_config set_previous_freq results_append set_instr];
  cbn [instr results previous_config previous_freq].

Ltac nr5g_lemma m :=
  lazymatch m with
  | NR5G.VSG_Config => constr:(VSG_Config_spec)
  | NR5G.VSA_Config ?f => constr:(VSA_Config_spec f)
  | NR5G.VSx_freq ?f => constr:(VSx_freq_spec f)
  | NR5G.VSG_pwr ?p => constr:(VSG_pwr_spec p)
  | NR5G.VSA_get_info => constr:(VSA_get_info_spec)
  | NR5G.VSA_sweep => constr:(VSA_sweep_spec)
  | NR5G.VSA_get_EVM => constr:(VSA_get_EVM_spec)
  | NR5G.VSA_get_ACLR => constr:(VSA_get_ACLR_spec)
  end.

(** One step of a run: the next driver call either raises (first goal) or
    returns (second goal). *)
Ltac step_call :=
  match goal with
  | |- context [call ?m ?w ?s] =>
      let lem := nr5g_lemma m in
      let Hc := fresh "Hc" in
      let Hs := fresh "Hs" in
      let E := fresh "E" in
      pose proof (proj1 lem w (instr s)) as Hc;
      pose proof (proj2 lem w (instr s)) as Hs;
      rewrite (call_unfold m w s);
      destruct (m w (instr s)) as [[?e|?a] ?d] eqn:E;
      cbn [fst snd instr results previous_config previous_freq] in Hc, Hs, E;
      rewrite ?app_nil_r in Hc;
      [|try match goal with p : (_ * _)%type |- _ => destruct p end];
      run_cbn
  end.

Ltac calls_chain :=
  repeat match goal with H : calls _ = _ |- _ => rewrite H; clear H end;
  rewrite <- ?app_assoc;
  first [reflexivity | symmetry; apply app_nil_r].

Ltac static_chain :=
  repeat match goal with H : static _ = _ |- _ => rewrite H; clear H end;
  reflexivity.

Ltac raised_tac :=
  first
    [ eapply VSG_Config_raised; [|eassumption]; static_chain
    | eapply VSA_Config_raised; [|eassumption]; static_chain
    | eapply VSx_freq_raised; eassumption
    | eapply VSG_pwr_raised; eassumption
    | eapply aclr_fields_raised; eassumption
    | exfalso;
      let H := fresh "Hnever" in
      match goal with
      | E : NR5G.VSA_get_info ?w ?d = (inl _, _) |- _ =>
          destruct (VSA_get_info_never_raises w d) as [? H]; rewrite E in H
      | E : NR5G.VSA_sweep ?w ?d = (inl _, _) |- _ =>
          destruct (VSA_sweep_never_raises w d) as [? H]; rewrite E in H
      | E : NR5G.VSA_get_EVM ?w ?d = (inl _, _) |- _ =>
          destruct (VSA_get_EVM_total w d) as [? H]; rewrite E in H
      | E : NR5G.VSA_get_ACLR ?w ?d = (inl _, _) |- _ =>
          destruct (VSA_get_ACLR_never_raises w d) as [? H]; rewrite E in H
      end; cbn in H; discriminate ].

(** What one test set does, for every world: the methods entered are the
    expected ones up to the first step that raises, and either nothing is
    appended or one record built from what the steps returned. *)
Lemma run_nr5g_spec tc ts w s :
  let freq := (center_frequency_ghz tc * 1e9)%float in
  let reconf :=
    config_changed (previous_config s) (Config (waveform_file tc) (setup_file tc)) in
  let retune := if reconf then false else freq_changed (previous_freq s) freq in
  let s' := snd (run_nr5g_measurement tc ts w s) in
  exists new,
    calls (trace (instr s')) = (calls (trace (instr s)) ++ new)%list
    /\ new `prefix_of` expected_calls reconf retune (measure_aclr tc)
    /\ (reconf || retune = true -> new <> [])
    /\ (reconf = true ->
        (exists e d, NR5G.VSG_Config w (instr s) = (inl e, d))
        \/ exists rest, new = "VSG_Config" :: "VSA_Config" :: rest)
    /\ static (self (instr s')) = static (self (instr s))
    /\ (results s' = results s /\ step_raised w tc (instr s)
        \/ exists rec d v t d',
             results s' = (results s ++ [EvmRecord rec])%list
             /\ new = expected_calls reconf retune (measure_aclr tc)
             /\ NR5G.VSA_get_EVM w d = (inr (v, t), d')
             /\ test_set rec = ts
             /\ type_ rec = "NR5G"
             /\ evm rec = Some v
             /\ timings rec !! "VSA_get_EVM" = Some t
             /\ (is_Some (timings rec !! "VSG_Config") <-> reconf = true)
             /\ (is_Some (timings rec !! "VSA_Config") <-> reconf = true)
             /\ (retune = false -> timings rec !! "VSx_freq" = Some 0%float)
             /\ is_Some (timings rec !! "VSx_freq")
             /\ is_Some (timings rec !! "VSA_get_ACLR")).
Proof.
  intros freq reconf retune s'. pose proof (freq_changed_same freq) as Hff.
  subst s'. unfold run_nr5g_measurement.
  fold freq. run_cbn. fold reconf.
  destruct (measure_aclr tc) eqn:Ha; (destruct reconf eqn:Hr; run_cbn;
    [ step_call; [|step_call; [|rewrite Hff; run_cbn]]
    | subst retune; destruct (freq_changed (previous_freq s) freq) eqn:Hf; run_cbn]).
  all: repeat (step_call; [shelve|]).
  all: try match goal with
      | |- context [aclr_fields ?x] => destruct (aclr_fields x) eqn:?; run_cbn
      end.
  Unshelve.
  all: eexists; split; [calls_chain|].
  all: split; [by eexists|].
  all: split; [done|].
  all: split; [first [done | intros _; left; solve [eauto] | intros _; right; solve [eauto]]|].
  all: split; [static_chain|].
  all: first [ left; split; [reflexivity|]; raised_tac | right ].
  all: do 5 eexists.
  all: split; [reflexivity|].
  all: split; [reflexivity|].
  all: split; [eassumption|].
  all: cbn [test_set type_ evm timings].
  all: split; [reflexivity|].
  all: split; [reflexivity|].
  all: split; [reflexivity|].
  all: simplify_map_eq.
  all: repeat split; try done; try (intros [? ?]; done); eauto.
Qed.

(** ** Claims about the configuration-change tracking *)


Lemma prefix_In {A} (x : A) (new l : list A) :
  new `prefix_of` l -> In x new -> In x l.
Proof. intros [k ->] H. apply in_or_app. by left. Qed.







(** C1, what the code does. A test set of [run_nr5g_measurement] appends
    nothing or one record, and that record never has an [error] key: when a
    step raises, the handler only logs. In particular a test entry without
    waveform file, run first, appends nothing, whatever the instruments
    answer. And a SpurSearch test entry that holds a frequency range makes
    [run_spur_search_measurement] raise before its local [timings] is
    bound, so that its handler, which reads [timings], raises in turn:
    the exception leaves the function and nothing is appended. *)
Theorem nr5g_failure_appends_no_record tc ts w s :
  let s' := snd (run_nr5g_measurement tc ts w s) in
  (results s' = results s
   \/ exists rec, results s' = (results s ++ [EvmRecord rec])%list
                  /\ error (EvmRecord rec) = None)
  /\ (forall freq_ghz pwr,
        results (snd (run_nr5g_measurement (TestConfig freq_ghz pwr None None true) ts w
                        (fresh_state (nr5g_driver freq_ghz pwr None None)))) = [])
  /\ (forall start_ghz stop_ghz step_mhz rbw lim p s0,
        run_spur_search_measurement
          (SpurTestConfig (FreqRange start_ghz stop_ghz step_mhz) rbw lim p) ts w s0
        = (inl (Exn NameError "cannot access local variable"), s0)).
Proof.
  intros s'. split; [|split].
  - destruct (run_nr5g_spec tc ts w s)
      as (new & _ & _ & _ & _ & _ & [[Hnone _]|(rec & _ & _ & _ & _ & Hrec & _)]);
      [by left|right; eauto].
  - intros freq_ghz pwr. reflexivity.
  - intros start_ghz stop_ghz step_mhz rbw lim p s0. by destruct s0.
Qed.

(** ** Claims about a malformed EVM read-back *)

Lemma static_waveform_file d d0 :
  static d = static d0 -> NR5G.waveform_file d = NR5G.waveform_file d0.
Proof. intros H. by apply (f_equal NR5G.waveform_file) in H. Qed.

Lemma static_setup_file d d0 :
  static d = static d0 -> NR5G.setup_file d = NR5G.setup_file d0.
Proof. intros H. by apply (f_equal NR5G.setup_file) in H. Qed.

(** C8. When the analyzer answers the averaged-EVM query with a text that
    is not a number, [VSA_get_EVM] returns NaN (with its elapsed time)
    instead of raising; and when nothing else fails in the test set (the
    sockets answer, the driver has its waveform and set-up files, the
    frequency is positive and the ACLR read-back converts), the test set
    appends its record, with [evm] equal to NaN. *)
Theorem malformed_evm_is_recorded_as_nan tc ts w s evm_str e :
  let s' := snd (run_nr5g_measurement tc ts w s) in
  answers w VSA evm_query evm_str ->
  float_of_str (strip evm_str) = inl e ->
  responsive w ->
  truthy (NR5G.waveform_file (self (instr s))) = true ->
  truthy (NR5G.setup_file (self (instr s))) = true ->
  (center_frequency_ghz tc * 1e9 <=? 0)%float = false ->
  (forall n r, socket w VSA n aclr_query = Replies r ->
               exists fields, aclr_fields (strip (strip r)) = inr fields) ->
  (forall d, exists t d', NR5G.VSA_get_EVM w d = (inr (nan, t), d'))
  /\ exists rec, results s' = (results s ++ [EvmRecord rec])%list
                 /\ evm rec = Some nan.
Proof.
  intros s' Hna Hbad Hw Hwf Hsf Hfreq Haclr.
  assert (forall d, exists t d', NR5G.VSA_get_EVM w d = (inr (nan, t), d')) as Hevm.
  { intros d. by eapply VSA_get_EVM_malformed. }
  split; [done|].
  destruct (run_nr5g_spec tc ts w s)
    as (new & _ & _ & _ & _ & _ & [[_ Hraised]|(rec & d & v & t & d' & Hrec & _ & Hv & _ & _
        & Hrecv & _)]).
  - exfalso. destruct Hraised as [d x d' Hs E|d x d' Hs E|d x d' E|d x d' E|d a t d' x E Hx].
    + destruct (VSG_Config_returns w d Hw) as (? & ? & H); [|by rewrite H in E].
      by rewrite (static_waveform_file _ _ Hs).
    + destruct (VSA_Config_returns w d (center_frequency_ghz tc * 1e9) Hw)
        as (? & ? & H); [|done|by rewrite H in E].
      by rewrite (static_setup_file _ _ Hs).
    + destruct (VSx_freq_returns w d _ Hw Hfreq) as (? & ? & H). by rewrite H in E.
    + destruct (VSG_pwr_returns w d (power_dbm tc) Hw) as (? & H). by rewrite H in E.
    + destruct (VSA_get_ACLR_result _ _ _ _ _ E) as [->|(n & r & Hr & ->)]; [done|].
      destruct (Haclr n r Hr) as [fields H]. by rewrite H in Hx.
  - exists rec. split; [done|]. rewrite Hrecv.
    destruct (Hevm d) as (t' & d'' & H). rewrite H in Hv. by injection Hv as <- _ _.
Qed.

Lemma malformed_evm_is_recorded_as_nan_witness :
  (forall d, exists t d', NR5G.VSA_get_EVM na_world d = (inr (nan, t), d'))
  /\ exists rec,
       results (snd (run_nr5g_measurement test_A 1 na_world
                       (fresh_state (nr5g_driver 6.123 (-20) (Some waveform_A)
                                       (Some setup_A)))))
       = ([] ++ [EvmRecord rec])%list
       /\ evm rec = Some nan.
Proof.
  apply (malformed_evm_is_recorded_as_nan test_A 1 na_world
           (fresh_state (nr5g_driver 6.123 (-20) (Some waveform_A) (Some setup_A)))
           "N/A" (Exn ValueError "could not convert string to float")).
  - intros n. reflexivity.
  - vm_compute. reflexivity.
  - intros r n c. eexists. reflexivity.
  - vm_compute. reflexivity.
  - vm_compute. reflexivity.
  - vm_compute. reflexivity.
  - intros n r H. injection H as <-. eexists. vm_compute. reflexivity.
Defined.

(** ** Spur search results *)

Lemma rstrip_cons c r :
  rstrip (String c r)
  = match rstrip r with
    | "" => if isspace c then "" else String c ""
    | r' => String c r'
    end.
Proof. done. Qed.

Lemma rstrip_idempotent s : rstrip (rstrip s) = rstrip s.
Proof.
  induction s as [|c s IH]; [done|]. rewrite rstrip_cons.
  destruct (rstrip s) as [|c' s'] eqn:E.
  - destruct (isspace c) eqn:Hc; cbn; [done|]. by rewrite Hc.
  - by rewrite rstrip_cons, IH.
Qed.

Lemma lstrip_rstrip_lstrip s : lstrip (rstrip (lstrip s)) = rstrip (lstrip s).
Proof.
  assert (forall x, match x with String c _ => isspace c = false | "" => True end ->
                    lstrip (rstrip x) = rstrip x) as H.
  { intros [|c x] Hx; [done|]. rewrite rstrip_cons.
    destruct (rstrip x); rewrite ?Hx; cbn; by rewrite Hx. }
  apply H. induction s as [|c s IH]; [done|]. cbn.
  by destruct (isspace c) eqn:Hc.
Qed.

Lemma strip_idempotent s : strip (strip s) = strip s.
Proof. unfold strip. by rewrite lstrip_rstrip_lstrip, rstrip_idempotent. Qed.

Lemma int_of_str_strip s : int_of_str (strip s) = int_of_str s.
Proof. unfold int_of_str. by rewrite strip_idempotent. Qed.

Lemma filter_spurs_In fund window peaks f p :
  In (f, p) (Spur.filter_spurs fund window peaks)
  <-> In (f, p) peaks /\ (window <? abs (f - fund))%float = true.
Proof. unfold Spur.filter_spurs. by rewrite filter_In. Qed.

(** A count that is not positive: no list is read, no spur is returned. *)
Lemma get_results_no_peak w d count_str n :
  answers w VSA count_query count_str -> int_of_str count_str = inr n ->
  (n <= 0)%Z ->
  exists t d', Spur.get_results w d = (inr ([], t), d').
Proof.
  intros Hc Hn Hle. unfold Spur.get_results. dev_cbv.
  fold count_query. rewrite Hc. dev_cbv. rewrite !int_of_str_strip, Hn. dev_cbv.
  destruct (Z.ltb_spec 0 n); [lia|]. by eauto.
Qed.

(** C4. When the analyzer answers, the peak count it reports is [n] and
    the frequency and power lists it returns both hold [n] numbers,
    [get_results] returns a list in which a peak (frequency [f], power [p])
    of the read-back appears if and only if [|f - fundamental| > 10 MHz],
    the fundamental being the driver's [fundamental_ghz] times 1e9, in
    binary64 arithmetic. *)
Theorem get_results_excludes_guard_band
    w d count_str n freq_str freqs power_str powers :
  let fundamental_hz := (Spur.fundamental_ghz (self d) * 1e9)%float in
  responsive w ->
  answers w VSA count_query count_str -> int_of_str count_str = inr n ->
  answers w VSA x_query freq_str ->
  Spur.parse_floats (split "," (strip freq_str)) = inr freqs ->
  answers w VSA y_query power_str ->
  Spur.parse_floats (split "," (strip power_str)) = inr powers ->
  Z.of_nat (length freqs) = n -> Z.of_nat (length powers) = n ->
  exists spurs t d',
    Spur.get_results w d = (inr (spurs, t), d')
    /\ forall f p,
         In (f, p) spurs
         <-> In (f, p) (combine freqs powers)
             /\ (10e6 <? abs (f - fundamental_hz))%float = true.
Proof.
  intros fund Hw Hc Hn Hx Hfs Hy Hps Hlf Hlp.
  destruct (Z.ltb_spec 0 n) as [Hpos|Hle].
  - unfold Spur.get_results. dev_cbv.
    fold count_query. rewrite Hc. dev_cbv. rewrite !int_of_str_strip, Hn. dev_cbv.
    destruct (Z.ltb_spec 0 n); [|lia]. dev_cbv.
    destruct (Hw VSA (S (ops d)) [Txt "DISP:WIND1:SUBW:TRAC1:Y:SCAL:AUTO ONCE"]) as [t1 ->].
    dev_cbv. fold x_query. rewrite Hx. dev_cbv. fold y_query. rewrite Hy. dev_cbv.
    rewrite !strip_idempotent, Hfs. dev_cbv. rewrite Hps. dev_cbv.
    rewrite Hlf, Hlp, Z.eqb_refl. cbn [negb orb].
    do 3 eexists. split; [reflexivity|]. intros f p. apply filter_spurs_In.
  - destruct (get_results_no_peak w d count_str n Hc Hn Hle) as (t & d' & ->).
    exists [], t, d'. split; [done|]. intros f p.
    destruct freqs; [|cbn in Hlf; lia]. cbn. tauto.
Qed.

(** The fundamental at 2.44 GHz: of the peaks at 2.441 GHz and 2.460 GHz
    the first is excluded and the second retained. *)
Lemma get_results_excludes_guard_band_witness :
  exists spurs t d',
    Spur.get_results (peak_world "2" "2441000000,2460000000" "-80.5,-101.25")
      (spur_device 2.44)
    = (inr (spurs, t), d')
    /\ In (2460000000, -101.25)%float spurs
    /\ ~ In (2441000000, -80.5)%float spurs.
Proof.
  destruct (get_results_excludes_guard_band
              (peak_world "2" "2441000000,2460000000" "-80.5,-101.25")
              (spur_device 2.44) "2" 2
              "2441000000,2460000000" [2441000000; 2460000000]%float
              "-80.5,-101.25" [-80.5; -101.25]%float)
    as (spurs & t & d' & Hrun & Hiff).
  - intros r n c. eexists. reflexivity.
  - intros n. reflexivity.
  - vm_compute. reflexivity.
  - intros n. reflexivity.
  - vm_compute. reflexivity.
  - intros n. reflexivity.
  - vm_compute. reflexivity.
  - reflexivity.
  - reflexivity.
  - exists spurs, t, d'. split; [exact Hrun|]. split.
    + apply Hiff. split; [right; left; reflexivity|vm_compute; reflexivity].
    + intros Hin. apply Hiff in Hin. destruct Hin as [_ Hin].
      vm_compute in Hin. discriminate Hin.
Defined.

(** C5. When the peak count the analyzer reports differs from the number
    of frequencies or from the number of powers it returns, [get_results]
    returns the empty list, with its elapsed time: no peak of the read-back
    is returned and no exception is raised. *)
Theorem get_results_discards_on_mismatch
    w d count_str n freq_str freqs power_str powers :
  answers w VSA count_query count_str -> int_of_str count_str = inr n ->
  answers w VSA x_query freq_str ->
  Spur.parse_floats (split "," (strip freq_str)) = inr freqs ->
  answers w VSA y_query power_str ->
  Spur.parse_floats (split "," (strip power_str)) = inr powers ->
  Z.of_nat (length freqs) <> n \/ Z.of_nat (length powers) <> n ->
  exists t d', Spur.get_results w d = (inr ([], t), d').
Proof.
  intros Hc Hn Hx Hfs Hy Hps Hne.
  destruct (Z.ltb_spec 0 n) as [Hpos|Hle]; [|by eapply get_results_no_peak].
  unfold Spur.get_results. dev_cbv.
  fold count_query. rewrite Hc. dev_cbv. rewrite !int_of_str_strip, Hn. dev_cbv.
  destruct (Z.ltb_spec 0 n); [|lia]. dev_cbv.
  next_op (S (ops d)) as t1 E1; [by eauto|].
  fold x_query. rewrite Hx. dev_cbv. fold y_query. rewrite Hy. dev_cbv.
  rewrite !strip_idempotent, Hfs. dev_cbv. rewrite Hps. dev_cbv.
  assert (negb (Z.of_nat (length freqs) =? n)%Z || negb (Z.of_nat (length powers) =? n)%Z
          = true) as ->; [|by eauto].
  apply orb_true_iff. rewrite !negb_true_iff, !Z.eqb_neq. done.
Qed.

(** A count of 3 with two frequencies and three powers. *)
Lemma get_results_discards_on_mismatch_witness :
  exists t d',
    Spur.get_results (peak_world "3" "2460000000,2480000000" "-100,-101,-102")
      (spur_device 2.44)
    = (inr ([], t), d').
Proof.
  apply (get_results_discards_on_mismatch
           (peak_world "3" "2460000000,2480000000" "-100,-101,-102")
           (spur_device 2.44) "3" 3
           "2460000000,2480000000" [2460000000; 2480000000]%float
           "-100,-101,-102" [-100; -101; -102]%float).
  - intros n. reflexivity.
  - vm_compute. reflexivity.
  - intros n. reflexivity.
  - vm_compute. reflexivity.
  - intros n. reflexivity.
  - vm_compute. reflexivity.
  - left. cbn. lia.
Defined.

(** X1. No world makes [get_results] raise, and no peak it returns lies
    within the guard band. *)
Lemma get_results_outside_guard_band w d :
  exists spurs t d',
    Spur.get_results w d = (inr (spurs, t), d')
    /\ Forall (fun peak => (10e6 <? abs (fst peak - Spur.fundamental_ghz (self d) * 1e9))%float
                           = true) spurs.
Proof.
  unfold Spur.get_results. dev_cbv.
  next_op (ops d) as count_str E0; [by eauto 10|].
  destruct (int_of_str _) as [e|n]; dev_cbv; [by eauto 10|].
  destruct (0 <? n)%Z; dev_cbv; [|by eauto 10].
  next_op (S (ops d)) as t1 E1; [by eauto 10|].
  next_op (S (S (ops d))) as fs E2; [by eauto 10|].
  next_op (S (S (S (ops d)))) as ps E3; [by eauto 10|].
  destruct (Spur.parse_floats (split _ (strip (strip fs)))) as [e|freqs]; dev_cbv; [by eauto 10|].
  destruct (Spur.parse_floats (split _ (strip (strip ps)))) as [e|powers]; dev_cbv; [by eauto 10|].
  destruct (_ || _); dev_cbv; [by eauto 10|].
  do 3 eexists. split; [reflexivity|].
  apply List.Forall_forall. intros [f p] Hin. by apply filter_In in Hin as [_ Hin].
Qed.

(** ** Noise-marker statistics *)

(** The order of binary64 values that are not NaN. *)
Lemma SFleb_of_ltb a b : SFltb a b = true -> SFleb a b = true.
Proof. unfold SFltb, SFleb. by destruct (SFcompare a b) as [[]|]. Qed.

Lemma SFcompare_opp a b :
  SFcompare b a = option_map CompOpp (SFcompare a b).
Proof.
  destruct a as [[]|[]| |[] ma ea], b as [[]|[]| |[] mb eb]; cbn; try done.
  all: change (Pos.compare_cont Eq ?x ?y) with (Pos.compare x y).
  all: rewrite (Z.compare_antisym ea eb), (Pos.compare_antisym ma mb).
  all: by destruct (ea ?= eb)%Z; cbn; rewrite ?CompOpp_involutive.
Qed.

Lemma SFleb_total a b :
  SFeqb a a = true -> SFeqb b b = true -> SFltb a b = false -> SFleb b a = true.
Proof.
  intros Ha Hb. unfold SFltb, SFleb. rewrite (SFcompare_opp a b).
  destruct (SFcompare a b) as [[]|] eqn:E; cbn; try done.
  by destruct a as [[]|[]| |[] ma ea], b as [[]|[]| |[] mb eb].
Qed.

Lemma SFleb_trans a b c : SFleb a b = true -> SFleb b c = true -> SFleb a c = true.
Proof.
  unfold SFleb.
  destruct a as [[]|[]| |[] ma ea], b as [[]|[]| |[] mb eb], c as [[]|[]| |[] mc ec];
    cbn; try done.
  all: change (Pos.compare_cont Eq ?x ?y) with (Pos.compare x y).
  all: destruct (Z.compare_spec ea eb), (Z.compare_spec eb ec), (Z.compare_spec ea ec);
    try done; try lia.
  all: destruct (Pos.compare_spec ma mb), (Pos.compare_spec mb mc),
         (Pos.compare_spec ma mc); cbn; try done; lia.
Qed.

Lemma leb_of_ltb a b : (a <? b)%float = true -> (a <=? b)%float = true.
Proof. rewrite FloatAxioms.ltb_spec, FloatAxioms.leb_spec. apply SFleb_of_ltb. Qed.

Lemma leb_refl a : Np.is_nan a = false -> (a <=? a)%float = true.
Proof.
  unfold Np.is_nan. intros H%negb_false_iff. revert H. rewrite FloatAxioms.eqb_spec, FloatAxioms.leb_spec.
  unfold SFeqb, SFleb. by destruct (SFcompare _ _) as [[]|].
Qed.

Lemma leb_total a b :
  Np.is_nan a = false -> Np.is_nan b = false ->
  (a <? b)%float = false -> (b <=? a)%float = true.
Proof.
  unfold Np.is_nan. intros Ha%negb_false_iff Hb%negb_false_iff. revert Ha Hb.
  rewrite !FloatAxioms.eqb_spec, FloatAxioms.ltb_spec, FloatAxioms.leb_spec. apply SFleb_total.
Qed.

Lemma leb_trans a b c :
  (a <=? b)%float = true -> (b <=? c)%float = true -> (a <=? c)%float = true.
Proof. rewrite !FloatAxioms.leb_spec. apply SFleb_trans. Qed.

Lemma minimum_spec a b :
  Np.is_nan a = false -> Np.is_nan b = false ->
  (Np.minimum a b = a \/ Np.minimum a b = b)
  /\ (Np.minimum a b <=? a)%float = true /\ (Np.minimum a b <=? b)%float = true.
Proof.
  intros Ha Hb. unfold Np.minimum. rewrite Ha, orb_false_r.
  destruct (a <? b)%float eqn:E.
  - auto using leb_refl, leb_of_ltb.
  - auto using leb_refl, leb_total.
Qed.

Lemma maximum_spec a b :
  Np.is_nan a = false -> Np.is_nan b = false ->
  (Np.maximum a b = a \/ Np.maximum a b = b)
  /\ (a <=? Np.maximum a b)%float = true /\ (b <=? Np.maximum a b)%float = true.
Proof.
  intros Ha Hb. unfold Np.maximum. rewrite Ha, orb_false_r.
  destruct (b <? a)%float eqn:E.
  - auto using leb_refl, leb_of_ltb.
  - auto using leb_refl, leb_total.
Qed.

Lemma min_spec x xs :
  Forall (fun v => Np.is_nan v = false) (x :: xs) ->
  In (Np.min x xs) (x :: xs)
  /\ Forall (fun v => (Np.min x xs <=? v)%float = true) (x :: xs).
Proof.
  unfold Np.min. revert x. induction xs as [|y ys IH]; intros x H.
  - inversion_clear H as [|? ? Hx _]. cbn. auto using leb_refl.
  - inversion_clear H as [|? ? Hx H']. inversion_clear H' as [|? ? Hy Hys].
    destruct (minimum_spec x y Hx Hy) as (Hm & Hmx & Hmy).
    assert (Np.is_nan (Np.minimum x y) = false) as Hn by (by destruct Hm as [-> | ->]).
    destruct (IH (Np.minimum x y)) as [Hin Hall]; [by constructor|].
    cbn [fold_left]. inversion_clear Hall as [|? ? H0 Hall']. split.
    + destruct Hin as [<-|Hin]; [|by do 2 right].
      cbn. destruct Hm as [-> | ->]; auto.
    + repeat constructor; eauto using leb_trans.
Qed.

Lemma max_spec x xs :
  Forall (fun v => Np.is_nan v = false) (x :: xs) ->
  In (Np.max x xs) (x :: xs)
  /\ Forall (fun v => (v <=? Np.max x xs)%float = true) (x :: xs).
Proof.
  unfold Np.max. revert x. induction xs as [|y ys IH]; intros x H.
  - inversion_clear H as [|? ? Hx _]. cbn. auto using leb_refl.
  - inversion_clear H as [|? ? Hx H']. inversion_clear H' as [|? ? Hy Hys].
    destruct (maximum_spec x y Hx Hy) as (Hm & Hmx & Hmy).
    assert (Np.is_nan (Np.maximum x y) = false) as Hn by (by destruct Hm as [-> | ->]).
    destruct (IH (Np.maximum x y)) as [Hin Hall]; [by constructor|].
    cbn [fold_left]. inversion_clear Hall as [|? ? H0 Hall']. split.
    + destruct Hin as [<-|Hin]; [|by do 2 right].
      cbn. destruct Hm as [-> | ->]; auto.
    + repeat constructor; eauto using leb_trans.
Qed.

(** The order of the additions in a sum *)

(** The length is fuel enough: more fuel changes nothing. *)
Lemma pairwise_sum_fuel fuel1 : forall fuel2 a,
  length a <= fuel1 + 128 -> length a <= fuel2 + 128 ->
  Np.pairwise_sum fuel1 a = Np.pairwise_sum fuel2 a.
Proof.
  induction fuel1 as [|f1 IH]; intros [|f2] a H1 H2; cbn [Np.pairwise_sum]; try done.
  - destruct (Nat.ltb_spec 128 (length a)); [lia|done].
  - destruct (Nat.ltb_spec 128 (length a)); [lia|done].
  - destruct (Nat.ltb_spec 128 (length a)) as [Hn|Hn]; [|done].
    pose proof (Nat.Div0.mod_le (length a / 2) 8).
    pose proof (Nat.mod_upper_bound (length a / 2) 8).
    pose proof (Nat.Div0.div_mod (length a) 2).
    pose proof (Nat.mod_upper_bound (length a) 2).
    f_equal; apply IH; rewrite ?length_firstn, ?length_skipn; lia.
Qed.

Lemma pairwise_sum_unfold a :
  Np.pairwise_sum (length a) a
  = if (128 <? length a)%nat then
      let n2 := (length a / 2 - (length a / 2) mod 8)%nat in
      (Np.pairwise_sum (length (firstn n2 a)) (firstn n2 a)
       + Np.pairwise_sum (length (skipn n2 a)) (skipn n2 a))%float
    else Np.block_sum a.
Proof.
  destruct (length a) as [|n] eqn:E; [done|]. cbn [Np.pairwise_sum]. rewrite E.
  destruct (Nat.ltb_spec 128 (S n)) as [Hn|Hn]; [|done]. cbv zeta.
  pose proof (Nat.Div0.mod_le (S n / 2) 8).
  pose proof (Nat.mod_upper_bound (S n / 2) 8).
  pose proof (Nat.Div0.div_mod (S n) 2).
  pose proof (Nat.mod_upper_bound (S n) 2).
  f_equal; apply pairwise_sum_fuel; rewrite ?length_firstn, ?length_skipn; lia.
Qed.


(** Fewer than eight elements are added left to right; eight to fifteen
    as a tree of the first eight, then the others one by one. *)
Lemma sum_short a :
  length a < 8 -> Np.sum a = (0 + fold_left PrimFloat.add a 0)%float.
Proof.
  intros H. unfold Np.sum. rewrite pairwise_sum_unfold.
  destruct (Nat.ltb_spec 128 (length a)); [lia|].
  by destruct a as [|a0 [|a1 [|a2 [|a3 [|a4 [|a5 [|a6 [|a7 rest]]]]]]]]; [..|cbn in H; lia].
Qed.

Lemma sum_one_block a0 a1 a2 a3 a4 a5 a6 a7 tail :
  length tail < 8 ->
  Np.sum (a0 :: a1 :: a2 :: a3 :: a4 :: a5 :: a6 :: a7 :: tail)
  = (0 + fold_left PrimFloat.add tail
           (((a0 + a1) + (a2 + a3)) + ((a4 + a5) + (a6 + a7))))%float.
Proof.
  intros H. unfold Np.sum. rewrite pairwise_sum_unfold.
  match goal with
  | |- context [(128 <? ?n)%nat] => destruct (Nat.ltb_spec 128 n); [cbn in *; lia|]
  end.
  unfold Np.block_sum.
  by destruct tail as [|b0 [|b1 [|b2 [|b3 [|b4 [|b5 [|b6 [|b7 rest]]]]]]]]; [..|cbn in H; lia].
Qed.

(** C9. For the samples -90.0 and -92.0 [get_Array_stats] reports minimum
    -92.000, maximum -90.000, average -91.000, standard deviation 1.000 and
    delta 2.000; two more arrays, of five and of eight samples, show an
    average and a standard deviation in binary64 (for the eight samples
    the exact average -88.6375 is reported as -88.637). For every non-empty
    array without NaN the report names, to three decimals, a minimum that
    is an element of the array and at most every element, a maximum that is
    an element and at least every element, the sum of the elements divided
    by their number, the square root of the sum of the squared deviations
    from that average divided by the number, and the maximum minus the
    minimum. The sums are numpy's: of fewer than eight elements left to
    right, of eight to fifteen as a tree of the first eight followed by
    the others, of more by blocks (the value for an array of 131 elements
    is given). The function takes the array alone: it reads no clock and
    no instrument. *)
Theorem get_Array_stats_reports :
  STN.get_Array_stats [-90; -92]%float
  = inr "Min:-92.000 Max:-90.000 Avg:-91.000 StdDev:1.000 Delta:2.000"
  /\ STN.get_Array_stats [-90.5; -91.25; -89; -93.75; -90]%float
     = inr "Min:-93.750 Max:-89.000 Avg:-90.900 StdDev:1.602 Delta:4.750"
  /\ STN.get_Array_stats [-85.1; -86.4; -93.8; -91.7; -87.8; -87.9; -85.6; -90.8]%float
     = inr "Min:-93.800 Max:-85.100 Avg:-88.637 StdDev:2.930 Delta:8.700"
  /\ (forall x xs,
        Forall (fun v => Np.is_nan v = false) (x :: xs) ->
        let a := x :: xs in
        let count := Np.of_nat (length a) in
        let avg := (Np.sum a / count)%float in
        let squares := map (fun v => ((v - avg) * (v - avg))%float) a in
        exists min_val max_val,
          STN.get_Array_stats a
          = inr ("Min:" ++ format_fixed 3 min_val
                 ++ " Max:" ++ format_fixed 3 max_val
                 ++ " Avg:" ++ format_fixed 3 avg
                 ++ " StdDev:" ++ format_fixed 3 (PrimFloat.sqrt (Np.sum squares / count))
                 ++ " Delta:" ++ format_fixed 3 (max_val - min_val))
          /\ In min_val a
          /\ Forall (fun v => (min_val <=? v)%float = true) a
          /\ In max_val a
          /\ Forall (fun v => (v <=? max_val)%float = true) a)
  /\ (forall a, length a < 8 -> Np.sum a = (0 + fold_left PrimFloat.add a 0)%float)
  /\ (forall a0 a1 a2 a3 a4 a5 a6 a7 tail,
        length tail < 8 ->
        Np.sum (a0 :: a1 :: a2 :: a3 :: a4 :: a5 :: a6 :: a7 :: tail)
        = (0 + fold_left PrimFloat.add tail
                 (((a0 + a1) + (a2 + a3)) + ((a4 + a5) + (a6 + a7))))%float)
  /\ Np.sum (map (fun k => (-90 + Np.of_nat ((5 * k) mod 7) / 10)%float) (seq 0 131))
     = (-0x1.6f35999999999p+13)%float.
Proof.
  split; [by vm_compute|]. split; [by vm_compute|]. split; [by vm_compute|].
  split; [|split; [exact sum_short|split; [exact sum_one_block|by vm_compute]]].
  intros x xs H a count avg squares.
  destruct (min_spec x xs H) as [Hmin Hle], (max_spec x xs H) as [Hmax Hge].
  exists (Np.min x xs), (Np.max x xs). split; [|done].
  unfold STN.get_Array_stats, Np.std, Np.mean. fold a. fold count. fold avg.
  by rewrite map_map.
Qed.

(** Five samples of a test set. *)
Lemma get_Array_stats_reports_witness :
  let a := [-90.5; -91.25; -89; -93.75; -90]%float in
  let count := Np.of_nat (length a) in
  let avg := (Np.sum a / count)%float in
  let squares := map (fun v => ((v - avg) * (v - avg))%float) a in
  exists min_val max_val,
    STN.get_Array_stats a
    = inr ("Min:" ++ format_fixed 3 min_val
           ++ " Max:" ++ format_fixed 3 max_val
           ++ " Avg:" ++ format_fixed 3 avg
           ++ " StdDev:" ++ format_fixed 3 (PrimFloat.sqrt (Np.sum squares / count))
           ++ " Delta:" ++ format_fixed 3 (max_val - min_val))
    /\ In min_val a
    /\ Forall (fun v => (min_val <=? v)%float = true) a
    /\ In max_val a
    /\ Forall (fun v => (v <=? max_val)%float = true) a.
Proof.
  destruct get_Array_stats_reports as (_ & _ & _ & H & _).
  apply (H (-90.5)%float [-91.25; -89; -93.75; -90]%float).
  repeat constructor.
Defined.

(** ** The other test-set runners *)

Lemma call_results {D A} (m : M (device D) A) w (s : state D) :
  results (snd (call m w s)) = results s.
Proof. rewrite call_unfold. by destruct s. Qed.

Lemma stn_loop_results remaining : forall i l w s,
  exists l' s', stn_loop remaining i l w s = (inr l', s') /\ results s' = results s.
Proof.
  induction remaining as [|k IH]; intros i l w s; [by do 2 eexists|].
  cbn [stn_loop]. cbv beta iota zeta delta [mbind M_bind bind mret M_ret ret try_except].
  pose proof (call_results STN.get_VSA_sweep_noise_mkr w s) as Hc.
  destruct (call STN.get_VSA_sweep_noise_mkr w s) as [[e|[marker dt]] s1]; cbn in Hc |- *.
  all: match goal with
       | |- context [stn_loop _ ?j ?l1 ?w1 ?s2] =>
           destruct (IH j l1 w1 s2) as (l' & s' & -> & Hr)
       end.
  all: exists l', s'; by rewrite Hr.
Qed.

(** X2. Every test set of [run_stn_measurement] returns and appends exactly
    one record, whatever the instruments do. *)
Lemma stn_appends_one_record freq ts swp_time iterations w s :
  exists rec,
    run_stn_measurement freq ts swp_time iterations w s
    = (inr tt, snd (run_stn_measurement freq ts swp_time iterations w s))
    /\ results (snd (run_stn_measurement freq ts swp_time iterations w s))
       = (results s ++ [StnRecord rec])%list.
Proof.
  unfold run_stn_measurement.
  cbv beta iota zeta delta [mbind M_bind bind mret M_ret ret try_except eval results_append modify].
  pose proof (call_results STN.VSA_Config w s) as Hc.
  destruct (call STN.VSA_Config w s) as [[e|[[] t]] s1]; cbn in Hc |- *.
  { eexists. split; [reflexivity|]. cbn. by rewrite Hc. }
  destruct (stn_loop_results iterations 0
              {| loc_meas := []; loc_timings := <["VSA_Config" := t]> ∅;
                 loc_total_test_time := 0.0 + t |} w s1) as (l' & s' & -> & Hr).
  destruct (valid_markers (loc_meas l')) as [|m1 [|m2 ms]] eqn:Hv; cbn;
    (eexists; split; [reflexivity|]; cbn; by rewrite Hr, Hc).
Qed.

(** X3. With a single frequency or a list in the test entry, every test
    set of [run_spur_search_measurement] appends exactly one record and
    returns the next test-set number. A range left in the test entry makes
    it raise before its local [timings] is bound; the handler then reads
    the unbound local, and its NameError leaves the function: nothing is
    appended. *)
Lemma spur_appends_one_record_unless_range input rbw lim p ts w s :
  let run := run_spur_search_measurement (SpurTestConfig input rbw lim p) ts w s in
  match input with
  | FreqRange _ _ _ => run = (inl (Exn NameError "cannot access local variable"), s)
  | _ => exists rec s',
           run = (inr (ts + 1)%Z, s')
           /\ results s' = (results s ++ [SpurRecord rec])%list
  end.
Proof.
  cbv zeta. unfold run_spur_search_measurement, with_local.
  cbv beta iota zeta delta
    [mbind M_bind bind mret M_ret ret try_except eval results_append modify get
     global zoom set_local get_local raise fst snd fundamental_frequency_ghz].
  destruct input as [f|l|a b c]; [| |by destruct s].
  all: repeat match goal with
         | |- context [call ?m ?w1 ?s1] =>
             let H := fresh "Hc" in
             pose proof (call_results m w1 s1) as H;
             destruct (call m w1 s1) as [[?e|[? ?]] ?s]; cbn in H |- *
         end.
  all: do 2 eexists; (split; [reflexivity|]); cbn [results].
  all: repeat match goal with H : results _ = _ |- _ => rewrite H end; reflexivity.
Qed.

(** ** File names the NR5G driver accepts *)

Lemma strip_prefix_Some p s r : strip_prefix p s = Some r -> s = p ++ r.
Proof.
  revert s. induction p as [|a p IH]; intros [|b s]; cbn; try done.
  - by intros [= ->].
  - by intros [= ->].
  - destruct (Ascii.eqb_spec a b) as [->|]; [|done]. intros H. by rewrite (IH _ H).
Qed.

Lemma alternation_Some alts s a r :
  NR5G.alternation alts s = Some (a, r) -> In a alts /\ s = a ++ r.
Proof.
  induction alts as [|b alts IH]; cbn; [done|].
  destruct (strip_prefix b s) as [rest|] eqn:E.
  - intros [= <- <-]. split; [by left|]. by apply strip_prefix_Some.
  - intros H. destruct (IH H). auto.
Qed.

Lemma span_digits_Some s ds rest :
  span_digits s = (ds, rest) -> s = ds ++ rest /\ string_forall isdigit ds = true.
Proof.
  revert ds rest. induction s as [|c s IH]; intros ds rest; cbn.
  - by intros [= <- <-].
  - destruct (isdigit c) eqn:Hc.
    + destruct (span_digits s) as [ds' rest'].
      intros [= <- <-]. destruct (IH _ _ eq_refl) as [-> H]. cbn. by rewrite Hc.
    + by intros [= <- <-].
Qed.

Lemma digits_unit_Some unit s g r :
  NR5G.digits_unit unit s = Some (g, r) ->
  exists ds, digit_string ds /\ g = ds ++ unit /\ s = ds ++ unit ++ r.
Proof.
  unfold NR5G.digits_unit.
  destruct (span_digits s) as [[|d ds] rest] eqn:E; [done|].
  destruct (span_digits_Some _ _ _ E) as [-> Hds].
  destruct (strip_prefix unit rest) as [rest'|] eqn:Er; [|done].
  cbn. intros [= <- <-]. exists (String d ds).
  by rewrite (strip_prefix_Some _ _ _ Er).
Qed.

Lemma append_assoc_string a b c : (a ++ b) ++ c = a ++ b ++ c.
Proof. induction a as [|x a IH]; [done|]. cbn [append]. by rewrite IH. Qed.

Lemma append_empty_r a : a ++ "" = a.
Proof. induction a as [|x a IH]; [done|]. cbn [append]. by rewrite IH. Qed.

Lemma append_length_string a b :
  String.length (a ++ b) = String.length a + String.length b.
Proof. induction a as [|x a IH]; [done|]. cbn [append String.length]. by rewrite IH. Qed.

Lemma rstrip_length s : String.length (rstrip s) <= String.length s.
Proof.
  induction s as [|c s IH]; [done|]. rewrite rstrip_cons.
  destruct (rstrip s); [destruct (isspace c)|]; cbn in *; lia.
Qed.

Lemma rstrip_app_newline s : rstrip (s ++ newline) = rstrip s.
Proof.
  induction s as [|c s IH]; [done|].
  cbn [append]. by rewrite !rstrip_cons, IH.
Qed.

(** A stripped text does not end with a line feed. *)
Lemma strip_no_newline x a : strip x <> a ++ newline.
Proof.
  intros H. pose proof (rstrip_idempotent (lstrip x)) as Hi.
  fold (strip x) in Hi. rewrite H, rstrip_app_newline in Hi.
  pose proof (rstrip_length a) as Hl. rewrite Hi in Hl.
  rewrite append_length_string in Hl. cbn in Hl. lia.
Qed.

(** What [re.match] accepts follows the grammar. *)
Lemma match_file_name_Some ext name g1 g2 g3 g4 g5 g6 :
  NR5G.match_file_name ext name = Some (g1, g2, g3, g4, g5, g6) ->
  exists bw scs rb rbo tail,
    In g1 ["UL"; "DL"] /\ In g3 NR5G.modulations
    /\ digit_string bw /\ digit_string scs /\ digit_string rb /\ digit_string rbo
    /\ g2 = bw ++ "MHz" /\ g4 = scs ++ "kHz" /\ g5 = rb ++ "RB" /\ g6 = rbo ++ "RBO"
    /\ name = "5GNR_" ++ g1 ++ "_" ++ bw ++ "MHz" ++ "_" ++ g3 ++ "_" ++ scs ++ "kHz"
              ++ "_" ++ rb ++ "RB" ++ "_" ++ rbo ++ "RBO" ++ ("." ++ ext) ++ tail
    /\ (tail = "" \/ tail = newline).
Proof.
  unfold NR5G.match_file_name. intros H.
  repeat match type of H with
         | (?m ≫= _) = Some _ =>
             let E := fresh "E" in
             destruct m as [?x|] eqn:E; cbn [mbind option_bind] in H; [|discriminate H]
         | (let '(_, _) := ?p in _) = Some _ => destruct p
         | _ = _ => progress cbn [mbind option_bind] in H
         end.
  destruct (NR5G.at_end _) eqn:Hend in H; [|done]. injection H as <- <- <- <- <- <-.
  repeat match goal with
         | E : strip_prefix _ _ = Some _ |- _ => apply strip_prefix_Some in E
         | E : NR5G.alternation _ _ = Some _ |- _ => apply alternation_Some in E as [? E]
         | E : NR5G.digits_unit _ _ = Some _ |- _ =>
             apply digits_unit_Some in E as (? & ? & ? & E)
         end.
  subst. do 5 eexists.
  do 2 (split; [eassumption|]). do 4 (split; [shelve|]). do 4 (split; [reflexivity|]).
  split.
  - rewrite ?append_assoc_string. reflexivity.
  - unfold NR5G.at_end in Hend.
    apply orb_prop in Hend as [Ht|Ht]; apply String.eqb_eq in Ht; auto.
  Unshelve. all: eassumption.
Qed.


Lemma matched_name ext x g1 g2 g3 g4 g5 g6 :
  NR5G.match_file_name ext (strip x) = Some (g1, g2, g3, g4, g5, g6) ->
  exists bw scs rb rbo,
    In g1 ["UL"; "DL"] /\ In g3 NR5G.modulations
    /\ digit_string bw /\ digit_string scs /\ digit_string rb /\ digit_string rbo
    /\ g2 = bw ++ "MHz" /\ g4 = scs ++ "kHz" /\ g5 = rb ++ "RB" /\ g6 = rbo ++ "RBO"
    /\ strip x = "5GNR_" ++ g1 ++ "_" ++ bw ++ "MHz" ++ "_" ++ g3 ++ "_" ++ scs ++ "kHz"
                 ++ "_" ++ rb ++ "RB" ++ "_" ++ rbo ++ "RBO" ++ ("." ++ ext).
Proof.
  intros H. apply match_file_name_Some in H
    as (bw & scs & rb & rbo & tail & H1 & H3 & Hbw & Hscs & Hrb & Hrbo
        & E2 & E4 & E5 & E6 & Hname & Htail).
  subst g2 g4 g5 g6.
  exists bw, scs, rb, rbo. repeat (split; [done|]).
  destruct Htail as [-> | ->].
  - by rewrite Hname, append_empty_r.
  - exfalso. revert Hname. rewrite <- !append_assoc_string. apply strip_no_newline.
Qed.

(** X4. A driver object is only built from file names of the grammar: when
    [__init__] returns for a non-empty waveform path, the stripped base
    name of that path is [5GNR_<UL|DL>_<N>MHz_<MOD>_<N>kHz_<N>RB_<N>RBO.wv],
    the attributes of the object are the fields that name encodes (FDD for
    UL, TDD for DL), a non-empty set-up path has a base name of the same
    grammar ending in [.dfl], and frequency, power and both paths are
    stored as given. *)
Theorem init_reads_file_names freq pwr wf sf d :
  NR5G.init freq pwr (Some wf) sf = inr d -> wf <> "" ->
  (exists ld bw md scs rb rbo,
     strip (basename wf) = waveform_name ld bw md scs rb rbo
     /\ In ld ["UL"; "DL"] /\ In md NR5G.modulations
     /\ digit_string bw /\ digit_string scs /\ digit_string rb /\ digit_string rbo
     /\ NR5G.ldir d = ld /\ NR5G.bw d = decimal bw /\ NR5G.mod_ d = md
     /\ NR5G.scs d = decimal scs /\ NR5G.rb d = decimal rb
     /\ NR5G.rbo d = decimal rbo
     /\ NR5G.dupl d = (if String.eqb ld "UL" then "FDD" else "TDD"))
  /\ (forall s, sf = Some s -> s <> "" ->
        exists ld bw md scs rb rbo,
          strip (basename s) = setup_name ld bw md scs rb rbo
          /\ In ld ["UL"; "DL"] /\ In md NR5G.modulations
          /\ digit_string bw /\ digit_string scs /\ digit_string rb /\ digit_string rbo)
  /\ NR5G.freq d = freq /\ NR5G.pwr d = pwr
  /\ NR5G.waveform_file d = Some wf /\ NR5G.setup_file d = sf.
Proof.
  unfold NR5G.init, NR5G._validate_file_names. intros H Hwf.
  destruct wf as [|c wf]; [done|]. cbn [truthy] in H.
  destruct (NR5G.match_file_name "wv" _) as [[[[[[g1 g2] g3] g4] g5] g6]|] eqn:Ew in H;
    [|done].
  pose proof Ew as Ew'.
  apply matched_name in Ew' as (bw & scs & rb & rbo & H1 & H3 & Hbw & Hscs & Hrb & Hrbo
                                & E2 & E4 & E5 & E6 & Hname).
  subst g2 g4 g5 g6. split; [|split].
  - exists g1, bw, g3, scs, rb, rbo. split; [exact Hname|]. do 6 (split; [done|]).
    revert H. unfold NR5G._extract_waveform_params. rewrite Ew.
    rewrite !replace_unit by (done || apply Hbw || apply Hscs || apply Hrb || apply Hrbo).
    rewrite !int_of_digit_string by done.
    destruct (match sf with Some _ => _ | None => _ end); [done|].
    by intros [= <-].
  - intros s -> Hs. destruct s as [|c' s]; [done|]. cbn [truthy] in H.
    destruct (NR5G.match_file_name "dfl" _) as [[[[[[h1 h2] h3] h4] h5] h6]|] eqn:Es in H;
      [|done].
    apply matched_name in Es as (bw' & scs' & rb' & rbo' & ? & ? & ? & ? & ? & ? & _ & _ & _
                                 & _ & Hs').
    by exists h1, bw', h3, scs', rb', rbo'.
  - destruct (match sf with Some _ => _ | None => _ end); [done|].
    by injection H as <-.
Qed.

Lemma init_reads_file_names_witness :
  let d := nr5g_driver 6.123 (-20) (Some waveform_A) (Some setup_A) in
  (exists ld bw md scs rb rbo,
     strip (basename waveform_A) = waveform_name ld bw md scs rb rbo
     /\ In ld ["UL"; "DL"] /\ In md NR5G.modulations
     /\ digit_string bw /\ digit_string scs /\ digit_string rb /\ digit_string rbo
     /\ NR5G.ldir d = ld /\ NR5G.bw d = decimal bw /\ NR5G.mod_ d = md
     /\ NR5G.scs d = decimal scs /\ NR5G.rb d = decimal rb
     /\ NR5G.rbo d = decimal rbo
     /\ NR5G.dupl d = (if String.eqb ld "UL" then "FDD" else "TDD"))
  /\ (forall s, Some setup_A = Some s -> s <> "" ->
        exists ld bw md scs rb rbo,
          strip (basename s) = setup_name ld bw md scs rb rbo
          /\ In ld ["UL"; "DL"] /\ In md NR5G.modulations
          /\ digit_string bw /\ digit_string scs /\ digit_string rb /\ digit_string rbo)
  /\ NR5G.freq d = (6.123 * 1e9)%float /\ NR5G.pwr d = (-20)%float
  /\ NR5G.waveform_file d = Some waveform_A /\ NR5G.setup_file d = Some setup_A.
Proof.
  apply (init_reads_file_names (6.123 * 1e9) (-20) waveform_A (Some setup_A));
    [vm_compute; reflexivity|discriminate].
Defined.

(** ** Guards and frame of the NR5G driver methods *)

(** X5. The guards of the driver methods raise a [ValueError] before any
    line is sent and leave the attributes alone: [VSG_Config] without
    waveform file, [VSA_Config] with a frequency that is not positive or
    without set-up file, [VSx_freq] with a frequency that is not
    positive. *)
Theorem invalid_settings_raise_before_any_command w d :
  (truthy (NR5G.waveform_file (self d)) = false ->
   exists d', NR5G.VSG_Config w d = (inl (Exn ValueError "No waveform file provided"), d')
              /\ ops d' = ops d /\ self d' = self d)
  /\ (forall freq_arg,
        (match freq_arg with Some f => f | None => NR5G.freq (self d) end <=? 0)%float = true ->
        exists d', NR5G.VSA_Config freq_arg w d = (inl (Exn ValueError "Invalid frequency"), d')
                   /\ ops d' = ops d /\ self d' = self d)
  /\ (forall freq_arg,
        truthy (NR5G.setup_file (self d)) = false ->
        exists e d', NR5G.VSA_Config freq_arg w d = (inl e, d')
                     /\ is_ValueError e = true /\ ops d' = ops d /\ self d' = self d)
  /\ (forall f, (f <=? 0)%float = true ->
        exists d', NR5G.VSx_freq f w d = (inl (Exn ValueError "Invalid frequency"), d')
                   /\ ops d' = ops d /\ self d' = self d).
Proof.
  repeat split.
  - intros H. unfold NR5G.VSG_Config. dev_cbv.
    destruct (NR5G.waveform_file (self d)) as [[|c path]|]; try done; dev_cbv; by eexists.
  - intros freq_arg H. unfold NR5G.VSA_Config. dev_cbv. rewrite H. dev_cbv. by eexists.
  - intros freq_arg H. unfold NR5G.VSA_Config. dev_cbv.
    destruct (_ <=? 0)%float; dev_cbv; [by do 2 eexists|].
    destruct (NR5G.setup_file (self d)) as [[|c path]|]; try done; dev_cbv; by do 2 eexists.
  - intros f H. unfold NR5G.VSx_freq. dev_cbv. rewrite H. dev_cbv. by eexists.
Qed.

Lemma invalid_settings_raise_before_any_command_witness :
  let d := Device 0 0 [] (nr5g_driver 6.123 (-20) None None) in
  (exists d', NR5G.VSG_Config quiet_world d
              = (inl (Exn ValueError "No waveform file provided"), d')
              /\ ops d' = ops d /\ self d' = self d)
  /\ (exists d', NR5G.VSx_freq (-1) quiet_world d
                 = (inl (Exn ValueError "Invalid frequency"), d')
                 /\ ops d' = ops d /\ self d' = self d).
Proof.
  pose proof (invalid_settings_raise_before_any_command quiet_world
                (Device 0 0 [] (nr5g_driver 6.123 (-20) None None))) as (H1 & _ & _ & H4).
  split; [apply H1; reflexivity|apply H4; reflexivity].
Defined.

Lemma VSA_level_spec : method_spec ["VSA_level"] NR5G.VSA_level.
Proof. split; [apply method_timer_adds_call; preserves_tac | static_tac]. Qed.

Ltac attr_side :=
  intros; cbn; first [done | unfold NR5G.set_pwr, NR5G.set_freq; cbn; reflexivity].

Ltac attr_tac :=
  try (apply preserves_method_timer; [attr_side | attr_side |]);
  repeat first
    [ apply preserves_write; attr_side
    | apply preserves_query; attr_side
    | apply preserves_set_self; attr_side
    | preserves_step ].

(** The power attribute after [VSG_pwr]: the new power once the line went
    out, the old one when the socket failed. *)
Lemma VSG_pwr_pwr p w d :
  NR5G.pwr (self (snd (NR5G.VSG_pwr p w d)))
  = match fst (NR5G.VSG_pwr p w d) with inr _ => p | inl _ => NR5G.pwr (self d) end.
Proof. unfold NR5G.VSG_pwr. dev_cbv. by destruct (socket w VSG (ops d) _). Qed.

Lemma VSx_freq_freq f w d :
  NR5G.freq (self (snd (NR5G.VSx_freq f w d)))
  = match fst (NR5G.VSx_freq f w d) with inr _ => f | inl _ => NR5G.freq (self d) end.
Proof.
  unfold NR5G.VSx_freq. dev_cbv. destruct (f <=? 0)%float; dev_cbv; [done|].
  destruct (socket w VSA _ _); dev_cbv; [done|].
  by destruct (socket w VSG _ _).
Qed.


Lemma VSG_Config_pwr : preserves (fun s => NR5G.pwr (self s)) NR5G.VSG_Config.
Proof.
  intros w d. unfold NR5G.VSG_Config, NR5G.VSG_pwr. dev_cbv.
  destruct (NR5G.waveform_file (self d)) as [[|c path]|]; dev_cbv; try done.
  repeat match goal with
         | |- context [socket ?w ?r ?n ?c] =>
             destruct (socket w r n c); dev_cbv; [reflexivity|]
         end.
  reflexivity.
Qed.

Lemma run_method_static m : preserves (fun s => static (self s)) (run_method m).
Proof.
  assert (forall A (x : NR5G.Dev A),
            preserves (fun s => static (self s)) x ->
            preserves (fun s => static (self s)) (x;; mret tt)) as Hthen.
  { intros A x Hx. apply preserves_bind; [done|]. intros. apply preserves_ret. }
  destruct m; cbn [run_method].
  - apply Hthen, (proj2 VSG_Config_spec).
  - apply Hthen, (proj2 (VSA_Config_spec freq)).
  - apply Hthen, (proj2 (VSx_freq_spec freq)).
  - apply (proj2 (VSG_pwr_spec pwr)).
  - apply Hthen, (proj2 VSA_sweep_spec).
  - apply Hthen, (proj2 VSA_level_spec).
  - apply Hthen, (proj2 VSA_get_info_spec).
  - apply Hthen, (proj2 VSA_get_EVM_spec).
  - apply Hthen, (proj2 VSA_get_ACLR_spec).
Qed.

Lemma run_method_freq m :
  (forall f, m <> call_VSx_freq f) ->
  preserves (fun s => NR5G.freq (self s)) (run_method m).
Proof.
  intros H. destruct m; cbn [run_method]; try (by destruct (H freq));
    try unfold NR5G.VSG_pwr;
    (apply preserves_bind; [|intros; apply preserves_ret]) || idtac; attr_tac.
Qed.

Lemma run_method_pwr m :
  (forall p, m <> call_VSG_pwr p) ->
  preserves (fun s => NR5G.pwr (self s)) (run_method m).
Proof.
  intros H. destruct m; cbn [run_method]; try (by destruct (H pwr));
    (apply preserves_bind; [|intros; apply preserves_ret]);
    first [apply VSG_Config_pwr | attr_tac].
Qed.

Lemma run_methods_preserves {X} (f : device NR5G.std_insr_driver -> X) ms :
  Forall (fun m => preserves f (run_method m)) ms -> preserves f (run_methods ms).
Proof.
  induction 1 as [|m ms Hm _ IH]; cbn [run_methods]; [apply preserves_ret|].
  apply preserves_bind; [done|]. by intros [].
Qed.

(** X6. Whatever sequence of driver methods a client calls and whatever
    the instruments do, the attributes read from the file names and the two
    paths stay as they were; the frequency attribute can only change in a
    call of [VSx_freq] and the power attribute only in a call of
    [VSG_pwr]. In particular [VSA_Config] called with a frequency does not
    record that frequency. *)
Theorem driver_attributes_frame ms w d :
  let d' := snd (run_methods ms w d) in
  static (self d') = static (self d)
  /\ ((forall f, ~ In (call_VSx_freq f) ms) -> NR5G.freq (self d') = NR5G.freq (self d))
  /\ ((forall p, ~ In (call_VSG_pwr p) ms) -> NR5G.pwr (self d') = NR5G.pwr (self d)).
Proof.
  split; [|split].
  - apply (run_methods_preserves (fun s => static (self s))).
    apply List.Forall_forall. intros m _. apply run_method_static.
  - intros H. apply (run_methods_preserves (fun s => NR5G.freq (self s))).
    apply List.Forall_forall. intros m Hm. apply run_method_freq. intros f ->; exact (H f Hm).
  - intros H. apply (run_methods_preserves (fun s => NR5G.pwr (self s))).
    apply List.Forall_forall. intros m Hm. apply run_method_pwr. intros p ->; exact (H p Hm).
Qed.

Lemma driver_attributes_frame_witness :
  let ms := [call_VSG_Config; call_VSA_Config (Some 6.223e9%float); call_VSA_get_EVM;
             call_VSA_get_ACLR] in
  let d := instr before_A in
  let d' := snd (run_methods ms quiet_world d) in
  static (self d') = static (self d)
  /\ NR5G.freq (self d') = NR5G.freq (self d)
  /\ NR5G.pwr (self d') = NR5G.pwr (self d).
Proof.
  intros ms d d'.
  destruct (driver_attributes_frame ms quiet_world d) as (Hs & Hf & Hp).
  split; [exact Hs|]. split; [apply Hf|apply Hp]; intros x; cbn; intuition discriminate.
Defined.

(** ** The frequency and configuration a test set leaves tracked *)

Lemma VSG_Config_freq : preserves (fun s => NR5G.freq (self s)) NR5G.VSG_Config.
Proof. attr_tac. Qed.
Lemma VSA_Config_freq f : preserves (fun s => NR5G.freq (self s)) (NR5G.VSA_Config f).
Proof. attr_tac. Qed.
Lemma VSG_pwr_freq p : preserves (fun s => NR5G.freq (self s)) (NR5G.VSG_pwr p).
Proof. unfold NR5G.VSG_pwr. attr_tac. Qed.
Lemma VSA_sweep_freq : preserves (fun s => NR5G.freq (self s)) NR5G.VSA_sweep.
Proof. attr_tac. Qed.
Lemma VSA_level_freq : preserves (fun s => NR5G.freq (self s)) NR5G.VSA_level.
Proof. attr_tac. Qed.
Lemma VSA_get_info_freq : preserves (fun s => NR5G.freq (self s)) NR5G.VSA_get_info.
Proof. attr_tac. Qed.
Lemma VSA_get_EVM_freq : preserves (fun s => NR5G.freq (self s)) NR5G.VSA_get_EVM.
Proof. attr_tac. Qed.
Lemma VSA_get_ACLR_freq : preserves (fun s => NR5G.freq (self s)) NR5G.VSA_get_ACLR.
Proof. attr_tac. Qed.

Ltac nr5g_freq_fact m w d :=
  lazymatch m with
  | NR5G.VSG_Config => constr:(VSG_Config_freq w d)
  | NR5G.VSA_Config ?f => constr:(VSA_Config_freq f w d)
  | NR5G.VSx_freq ?f => constr:(VSx_freq_freq f w d)
  | NR5G.VSG_pwr ?p => constr:(VSG_pwr_freq p w d)
  | NR5G.VSA_get_info => constr:(VSA_get_info_freq w d)
  | NR5G.VSA_sweep => constr:(VSA_sweep_freq w d)
  | NR5G.VSA_get_EVM => constr:(VSA_get_EVM_freq w d)
  | NR5G.VSA_get_ACLR => constr:(VSA_get_ACLR_freq w d)
  end.

(** A step of a run, recording what the call does to the frequency
    attribute. *)
Ltac step_call_freq :=
  match goal with
  | |- context [call ?m ?w ?s] =>
      let fact := nr5g_freq_fact m w (instr s) in
      let Hq := fresh "Hq" in
      pose proof fact as Hq;
      rewrite (call_unfold m w s);
      destruct (m w (instr s)) as [[?e|?a] ?d] eqn:?E;
      cbn [fst snd instr results previous_config previous_freq] in Hq;
      [|try match goal with p : (_ * _)%type |- _ => destruct p end];
      run_cbn
  end.

Ltac freq_chain :=
  repeat match goal with H : NR5G.freq _ = _ |- _ => rewrite H; clear H end.

Lemma run_nr5g_tracking tc ts w s :
  let freq := (center_frequency_ghz tc * 1e9)%float in
  let current := Config (waveform_file tc) (setup_file tc) in
  let reconf := config_changed (previous_config s) current in
  let s' := snd (run_nr5g_measurement tc ts w s) in
  ((exists rec, results s' = (results s ++ [rec])%list) ->
   previous_config s' = Some current
   /\ freq_changed (previous_freq s') freq = false)
  /\ (reconf = false ->
      previous_config s' = previous_config s
      /\ (previous_freq s = Some (NR5G.freq (self (instr s))) ->
          previous_freq s' = Some (NR5G.freq (self (instr s')))))
  /\ (reconf = true ->
      NR5G.freq (self (instr s')) = NR5G.freq (self (instr s))
      /\ (previous_config s' = Some current /\ previous_freq s' = Some freq
          \/ previous_config s' = previous_config s
             /\ previous_freq s' = previous_freq s
             /\ results s' = results s
             /\ ((exists e d, NR5G.VSG_Config w (instr s) = (inl e, d))
                 \/ exists d e d', NR5G.VSA_Config (Some freq) w d = (inl e, d')))).
Proof.
  intros freq current reconf s'. pose proof (freq_changed_same freq) as Hff.
  assert (reconf = false -> previous_config s = Some current) as Hsame.
  { unfold reconf, config_changed. rewrite bool_decide_eq_false. intros H.
    by destruct (decide (previous_config s = Some current)). }
  assert (forall l (r : result), l <> (l ++ [r])%list) as Hneq.
  { intros l r H. apply (f_equal length) in H. rewrite length_app in H. cbn in H. lia. }
  subst s'. unfold run_nr5g_measurement.
  fold freq. run_cbn. fold current reconf.
  destruct (measure_aclr tc) eqn:Ha; (destruct reconf eqn:Hr; run_cbn;
    [ step_call_freq; [|step_call_freq; [|rewrite Hff; run_cbn]]
    | destruct (freq_changed (previous_freq s) freq) eqn:Hf; run_cbn]).
  all: repeat (step_call_freq; [shelve|]).
  all: try match goal with
      | |- context [aclr_fields ?x] => destruct (aclr_fields x) eqn:Haclr; run_cbn
      end.
  Unshelve.
  all: split; [intros [rec Hrec]; first [by destruct (Hneq _ _ Hrec) | split; auto]|].
  all: split; [intros Hcase; try discriminate Hcase|intros Hcase; try discriminate Hcase].
  all: try (split; [reflexivity|]; intros Hinv; rewrite ?Hinv; f_equal; freq_chain;
            try reflexivity).
  all: try (split; [freq_chain; reflexivity|]).
  all: first [ left; split; reflexivity
             | right; do 3 (split; [reflexivity|]); first [left; by eauto | right; by eauto] ].
Qed.

(** X7. After a test set that appended its record, a test set of the same
    test entry enters none of [VSG_Config], [VSA_Config] and [VSx_freq],
    whatever the instruments do meanwhile, and its record, if it appends
    one, times the skipped retune at 0.0. *)
Theorem repeated_test_set_skips_setup tc ts w s rec ts2 w2 :
  let s' := snd (run_nr5g_measurement tc ts w s) in
  let s'' := snd (run_nr5g_measurement tc ts2 w2 s') in
  results s' = (results s ++ [rec])%list ->
  exists new,
    calls (trace (instr s'')) = (calls (trace (instr s')) ++ new)%list
    /\ ~ In "VSG_Config" new /\ ~ In "VSA_Config" new /\ ~ In "VSx_freq" new
    /\ forall rec2, results s'' = (results s' ++ [EvmRecord rec2])%list ->
                    timings rec2 !! "VSx_freq" = Some 0%float.
Proof.
  intros s' s'' Hrec.
  destruct (run_nr5g_tracking tc ts w s) as [Htrack _].
  destruct Htrack as [Hc Hf]; [by exists rec|]. fold s' in Hc, Hf.
  assert (config_changed (previous_config s') (Config (waveform_file tc) (setup_file tc))
          = false) as Hr.
  { rewrite Hc. unfold config_changed. by rewrite bool_decide_eq_false; intros []. }
  destruct (run_nr5g_spec tc ts2 w2 s') as (new & Hcalls & Hpre & _ & _ & _ & Hout).
  rewrite Hr, Hf in Hpre, Hout. exists new. split; [done|].
  assert (forall x, In x new -> In x (expected_calls false false (measure_aclr tc))) as Hin.
  { intros x. apply prefix_In, Hpre. }
  repeat split.
  1-3: intros H%Hin; revert H; unfold expected_calls; destruct (measure_aclr tc); cbn;
    intuition discriminate.
  intros rec2 Hrec2. destruct Hout as [[Hnone _]|(rec' & _ & _ & _ & _ & Hrec' & _ & _ & _
                                                  & _ & _ & _ & _ & _ & Hskip & _)].
  - fold s'' in Hnone. rewrite Hnone in Hrec2.
    apply (f_equal length) in Hrec2. rewrite length_app in Hrec2. cbn in Hrec2. lia.
  - fold s'' in Hrec'. rewrite Hrec2 in Hrec'. apply app_inj_tail in Hrec' as [_ [= <-]].
    by apply Hskip.
Qed.

Lemma repeated_test_set_skips_setup_witness :
  exists new,
    calls (trace (instr (snd (run_nr5g_measurement test_A 2 na_world
                                (snd (run_nr5g_measurement test_A 1 quiet_world
                                        (fresh_state (nr5g_driver 6.123 (-20)
                                                        (Some waveform_A) (Some setup_A)))))))))
    = (calls (trace (instr (snd (run_nr5g_measurement test_A 1 quiet_world
                                   (fresh_state (nr5g_driver 6.123 (-20)
                                                   (Some waveform_A) (Some setup_A)))))))
       ++ new)%list
    /\ ~ In "VSG_Config" new /\ ~ In "VSA_Config" new /\ ~ In "VSx_freq" new
    /\ forall rec2,
         results (snd (run_nr5g_measurement test_A 2 na_world
                         (snd (run_nr5g_measurement test_A 1 quiet_world
                                 (fresh_state (nr5g_driver 6.123 (-20)
                                                 (Some waveform_A) (Some setup_A)))))))
         = (results (snd (run_nr5g_measurement test_A 1 quiet_world
                            (fresh_state (nr5g_driver 6.123 (-20)
                                            (Some waveform_A) (Some setup_A)))))
            ++ [EvmRecord rec2])%list ->
         timings rec2 !! "VSx_freq" = Some 0%float.
Proof.
  eapply (repeated_test_set_skips_setup test_A 1 quiet_world
            (fresh_state (nr5g_driver 6.123 (-20) (Some waveform_A) (Some setup_A)))
            _ 2 na_world).
  vm_compute. reflexivity.
Defined.

(** X8. The tracked frequency follows the driver: if the driver object of
    a reconfiguring test set was built for the frequency of the test entry,
    or the tracked frequency of a test set that does not reconfigure is the
    driver's frequency attribute, then after the test set the tracked
    frequency is again the driver's attribute, unless the reconfiguration
    itself failed, which leaves results and tracking as they were. *)
Theorem frequency_tracking_invariant tc ts w s :
  let freq := (center_frequency_ghz tc * 1e9)%float in
  let current := Config (waveform_file tc) (setup_file tc) in
  let reconf := config_changed (previous_config s) current in
  let s' := snd (run_nr5g_measurement tc ts w s) in
  (if reconf then NR5G.freq (self (instr s)) = freq
   else previous_freq s = Some (NR5G.freq (self (instr s)))) ->
  previous_freq s' = Some (NR5G.freq (self (instr s')))
  \/ reconf = true /\ results s' = results s /\ previous_freq s' = previous_freq s
     /\ previous_config s' = previous_config s.
Proof.
  intros freq current reconf s' H.
  destruct (run_nr5g_tracking tc ts w s) as (_ & Hno & Hyes).
  fold freq current reconf s' in Hno, Hyes. destruct reconf.
  - destruct (Hyes eq_refl) as [Hq [[_ Hf]|(Hc & Hf & Hres & _)]].
    + left. by rewrite Hf, Hq, H.
    + by right.
  - left. by apply Hno.
Qed.

Lemma frequency_tracking_invariant_witness :
  let s' := snd (run_nr5g_measurement test_B 2 quiet_world before_B) in
  previous_freq s' = Some (NR5G.freq (self (instr s')))
  \/ config_changed (previous_config before_B)
       (Config (waveform_file test_B) (setup_file test_B)) = true
     /\ results s' = results before_B /\ previous_freq s' = previous_freq before_B
     /\ previous_config s' = previous_config before_B.
Proof.
  apply (frequency_tracking_invariant test_B 2 quiet_world before_B).
  vm_compute. reflexivity.
Defined.

(** X9. A test set that has to reconfigure either records the new
    configuration and frequency as tracked, or leaves the tracking and the
    results untouched because [VSG_Config] or [VSA_Config] raised, so that
    the next test set of the entry reconfigures again. *)
Theorem reconfiguration_is_tracked_or_retried tc ts w s :
  let freq := (center_frequency_ghz tc * 1e9)%float in
  let current := Config (waveform_file tc) (setup_file tc) in
  let s' := snd (run_nr5g_measurement tc ts w s) in
  config_changed (previous_config s) current = true ->
  previous_config s' = Some current /\ previous_freq s' = Some freq
  \/ config_changed (previous_config s') current = true
     /\ previous_freq s' = previous_freq s
     /\ results s' = results s
     /\ ((exists e d, NR5G.VSG_Config w (instr s) = (inl e, d))
         \/ exists d e d', NR5G.VSA_Config (Some freq) w d = (inl e, d')).
Proof.
  intros freq current s' H.
  destruct (run_nr5g_tracking tc ts w s) as (_ & _ & Hyes).
  fold freq current s' in Hyes.
  destruct (Hyes H) as [_ [?|(Hc & Hf & Hres & Hwhy)]]; [by left|right].
  by rewrite Hc.
Qed.

Lemma reconfiguration_is_tracked_or_retried_witness :
  let freq := (center_frequency_ghz test_A * 1e9)%float in
  let current := Config (waveform_file test_A) (setup_file test_A) in
  let w := failing_world VSG in
  let s' := snd (run_nr5g_measurement test_A 1 w before_A) in
  previous_config s' = Some current /\ previous_freq s' = Some freq
  \/ config_changed (previous_config s') current = true
     /\ previous_freq s' = previous_freq before_A
     /\ results s' = results before_A
     /\ ((exists e d, NR5G.VSG_Config w (instr before_A) = (inl e, d))
         \/ exists d e d', NR5G.VSA_Config (Some freq) w d = (inl e, d')).
Proof.
  apply (reconfiguration_is_tracked_or_retried test_A 1 (failing_world VSG) before_A).
  reflexivity.
Defined.

(** ** The frequencies a test set tunes the instruments to *)

Lemma generator_frequencies_snoc t e :
  generator_frequencies (t ++ [e])
  = (generator_frequencies t
     ++ match generator_frequency e with Some f => [f] | None => [] end)%list.
Proof.
  unfold generator_frequencies. rewrite omap_app. cbn.
  by destruct (generator_frequency e).
Qed.

Lemma analyzer_frequencies_snoc t e :
  analyzer_frequencies (t ++ [e])
  = (analyzer_frequencies t
     ++ match analyzer_frequency e with Some f => [f] | None => [] end)%list.
Proof.
  unfold analyzer_frequencies. rewrite omap_app. cbn.
  by destruct (analyzer_frequency e).
Qed.


Ltac tunes_end :=
  cbn [fst snd trace];
  rewrite ?generator_frequencies_snoc, ?analyzer_frequencies_snoc;
  cbn [generator_frequency analyzer_frequency String.eqb Ascii.eqb Bool.eqb andb];
  rewrite <- ?app_assoc, ?app_nil_r; first [exact I | split; reflexivity].

Lemma VSG_Config_tunes w d :
  responsive w -> tunes NR5G.VSG_Config w d [NR5G.freq (self d)] [].
Proof.
  intros Hw. unfold tunes, NR5G.VSG_Config, NR5G.VSG_pwr. dev_cbv.
  destruct (NR5G.waveform_file (self d)) as [[|c path]|]; dev_cbv; try exact I.
  answer Hw. tunes_end.
Qed.

Lemma VSA_Config_tunes f w d :
  responsive w ->
  tunes (NR5G.VSA_Config f) w d []
    [match f with Some f => f | None => NR5G.freq (self d) end].
Proof.
  intros Hw. unfold tunes, NR5G.VSA_Config. dev_cbv.
  destruct (_ <=? 0)%float; dev_cbv; [exact I|].
  destruct (NR5G.setup_file (self d)) as [[|c path]|]; dev_cbv; try exact I.
  answer Hw. tunes_end.
Qed.

Lemma VSx_freq_tunes f w d : responsive w -> tunes (NR5G.VSx_freq f) w d [f] [f].
Proof.
  intros Hw. unfold tunes, NR5G.VSx_freq. dev_cbv.
  destruct (_ <=? 0)%float; dev_cbv; [exact I|]. answer Hw. tunes_end.
Qed.

Lemma VSG_pwr_tunes p w d : responsive w -> tunes (NR5G.VSG_pwr p) w d [] [].
Proof. intros Hw. unfold tunes, NR5G.VSG_pwr. dev_cbv. answer Hw. tunes_end. Qed.

Lemma VSA_get_info_tunes w d : responsive w -> tunes NR5G.VSA_get_info w d [] [].
Proof. intros Hw. unfold tunes, NR5G.VSA_get_info. dev_cbv. tunes_end. Qed.

Lemma VSA_sweep_tunes w d : responsive w -> tunes NR5G.VSA_sweep w d [] [].
Proof. intros Hw. unfold tunes, NR5G.VSA_sweep. dev_cbv. tunes_end. Qed.

Lemma VSA_get_EVM_tunes w d : responsive w -> tunes NR5G.VSA_get_EVM w d [] [].
Proof.
  intros Hw. unfold tunes, NR5G.VSA_get_EVM. dev_cbv. answer Hw.
  destruct (float_of_str _) as [e|pep]; dev_cbv.
  { destruct (is_ValueError e); dev_cbv; tunes_end. }
  answer Hw.
  destruct (float_of_str _) as [e|v]; dev_cbv; [|tunes_end].
  destruct (is_ValueError e); dev_cbv; tunes_end.
Qed.

Lemma VSA_get_ACLR_tunes w d :
  responsive w -> tunes NR5G.VSA_get_ACLR w d [] [NR5G.freq (self d)].
Proof. intros Hw. unfold tunes, NR5G.VSA_get_ACLR. dev_cbv. answer Hw. tunes_end. Qed.

Ltac nr5g_tunes_fact m w d Hw :=
  lazymatch m with
  | NR5G.VSG_Config => constr:(VSG_Config_tunes w d Hw)
  | NR5G.VSA_Config ?f => constr:(VSA_Config_tunes f w d Hw)
  | NR5G.VSx_freq ?f => constr:(VSx_freq_tunes f w d Hw)
  | NR5G.VSG_pwr ?p => constr:(VSG_pwr_tunes p w d Hw)
  | NR5G.VSA_get_info => constr:(VSA_get_info_tunes w d Hw)
  | NR5G.VSA_sweep => constr:(VSA_sweep_tunes w d Hw)
  | NR5G.VSA_get_EVM => constr:(VSA_get_EVM_tunes w d Hw)
  | NR5G.VSA_get_ACLR => constr:(VSA_get_ACLR_tunes w d Hw)
  end.

Ltac step_call_tunes Hw :=
  match goal with
  | |- context [call ?m ?w ?s] =>
      let tfact := nr5g_tunes_fact m w (instr s) Hw in
      let qfact := nr5g_freq_fact m w (instr s) in
      let Ht := fresh "Ht" in
      let Hq := fresh "Hq" in
      pose proof tfact as Ht; unfold tunes in Ht;
      pose proof qfact as Hq;
      rewrite (call_unfold m w s);
      destruct (m w (instr s)) as [[?e|?a] ?d] eqn:?E;
      cbn [fst snd instr results previous_config previous_freq] in Ht, Hq;
      [|destruct Ht as [?Hg ?Ha];
        try match goal with p : (_ * _)%type |- _ => destruct p end];
      run_cbn
  end.

Ltac tunes_chain :=
  repeat match goal with
         | H : generator_frequencies _ = _ |- _ => rewrite H; clear H
         | H : analyzer_frequencies _ = _ |- _ => rewrite H; clear H
         end;
  rewrite <- ?app_assoc, ?app_nil_r; cbn [app]; freq_chain; reflexivity.

(** X10. The frequencies a test set that appends its record tunes the
    instruments to, when every line is answered. A retune sets both
    instruments to the test frequency. A reconfiguration sets the analyzer
    to the test frequency but the generator to the driver's frequency
    attribute, and no retune follows; the ACLR measurement then tunes the
    analyzer to the attribute again. So the record carries the test
    frequency although, after a reconfiguration on a driver built for
    another frequency, neither the generator nor the ACLR measurement
    used it. *)
Theorem frequencies_tuned_by_test_set tc ts w s rec :
  let freq := (center_frequency_ghz tc * 1e9)%float in
  let current := Config (waveform_file tc) (setup_file tc) in
  let reconf := config_changed (previous_config s) current in
  let retune := if reconf then false else freq_changed (previous_freq s) freq in
  let s' := snd (run_nr5g_measurement tc ts w s) in
  let attribute := NR5G.freq (self (instr s)) in
  responsive w ->
  results s' = (results s ++ [EvmRecord rec])%list ->
  center_frequency_hz rec = freq
  /\ generator_frequencies (trace (instr s'))
     = (generator_frequencies (trace (instr s))
        ++ if reconf then [attribute] else if retune then [freq] else [])%list
  /\ analyzer_frequencies (trace (instr s'))
     = (analyzer_frequencies (trace (instr s))
        ++ (if reconf || retune then [freq] else [])
        ++ if measure_aclr tc then [if retune then freq else attribute] else [])%list.
Proof.
  intros freq current reconf retune s' attribute Hw.
  pose proof (freq_changed_same freq) as Hff.
  assert (forall l (r : result), l <> (l ++ [r])%list) as Hneq.
  { intros l r H. apply (f_equal length) in H. rewrite length_app in H. cbn in H. lia. }
  subst s' attribute. unfold run_nr5g_measurement.
  fold freq. run_cbn. fold current reconf.
  destruct (measure_aclr tc) eqn:Hm; (destruct reconf eqn:Hr; run_cbn;
    [ step_call_tunes Hw; [|step_call_tunes Hw; [|rewrite Hff; run_cbn]]
    | subst retune; destruct (freq_changed (previous_freq s) freq) eqn:Hf; run_cbn]).
  all: repeat (step_call_tunes Hw; [shelve|]).
  all: try match goal with
      | |- context [aclr_fields ?x] => destruct (aclr_fields x) eqn:Haclr; run_cbn
      end.
  Unshelve.
  all: intros Hrec; try (by destruct (Hneq _ _ Hrec)).
  all: apply app_inj_tail in Hrec as [_ [= <-]].
  all: split; [reflexivity|]; cbn [orb]; split; tunes_chain.
Qed.

Lemma frequencies_tuned_by_test_set_witness :
  let tc := test_A_moved in
  let s := before_A in
  let freq := (center_frequency_ghz tc * 1e9)%float in
  let current := Config (waveform_file tc) (setup_file tc) in
  let reconf := config_changed (previous_config s) current in
  let retune := if reconf then false else freq_changed (previous_freq s) freq in
  let s' := snd (run_nr5g_measurement tc 1 quiet_world s) in
  let attribute := NR5G.freq (self (instr s)) in
  exists rec,
    results s' = (results s ++ [EvmRecord rec])%list
    /\ center_frequency_hz rec = freq
    /\ generator_frequencies (trace (instr s'))
       = (generator_frequencies (trace (instr s))
          ++ if reconf then [attribute] else if retune then [freq] else [])%list
    /\ analyzer_frequencies (trace (instr s'))
       = (analyzer_frequencies (trace (instr s))
          ++ (if reconf || retune then [freq] else [])
          ++ if measure_aclr tc then [if retune then freq else attribute] else [])%list.
Proof.
  intros tc s freq current reconf retune s' attribute.
  eexists. split; [vm_compute; reflexivity|].
  eapply (frequencies_tuned_by_test_set test_A_moved 1 quiet_world before_A).
  - intros r n c. eexists. reflexivity.
  - vm_compute. reflexivity.
Defined.

(** ** How a test set of the NR5G runner ends *)

(** The ACLR fields are all absent or all present. *)
Lemma aclr_fields_shape a l :
  aclr_fields a = inr l ->
  l = [None; None; None; None; None]
  \/ exists v1 v2 v3 v4 v5, l = [Some v1; Some v2; Some v3; Some v4; Some v5].
Proof.
  unfold aclr_fields. destruct a as [|c a]; [intros [= <-]; by left|].
  destruct (split "," (String c a)) as [|p1 [|p2 [|p3 [|p4 [|p5 [|p6 ps]]]]]];
    try (intros [= <-]; by left).
  destruct (float_of_str p1), (float_of_str p2), (float_of_str p3), (float_of_str p4),
    (float_of_str p5); try done.
  intros [= <-]. right. by do 5 eexists.
Qed.

Ltac never_raised :=
  exfalso;
  let H := fresh "Hnever" in
  match goal with
  | E : NR5G.VSA_get_info ?w ?d = (inl _, _) |- _ =>
      destruct (VSA_get_info_never_raises w d) as [? H]; rewrite E in H
  | E : NR5G.VSA_sweep ?w ?d = (inl _, _) |- _ =>
      destruct (VSA_sweep_never_raises w d) as [? H]; rewrite E in H
  | E : NR5G.VSA_get_EVM ?w ?d = (inl _, _) |- _ =>
      destruct (VSA_get_EVM_total w d) as [? H]; rewrite E in H
  | E : NR5G.VSA_get_ACLR ?w ?d = (inl _, _) |- _ =>
      destruct (VSA_get_ACLR_never_raises w d) as [? H]; rewrite E in H
  end; cbn in H; discriminate.

Lemma run_nr5g_outcomes tc ts w s :
  let freq := (center_frequency_ghz tc * 1e9)%float in
  let reconf :=
    config_changed (previous_config s) (Config (waveform_file tc) (setup_file tc)) in
  let retune := if reconf then false else freq_changed (previous_freq s) freq in
  let s' := snd (run_nr5g_measurement tc ts w s) in
  exists new,
    calls (trace (instr s')) = (calls (trace (instr s)) ++ new)%list
    /\ (results s' = results s /\ ~ In "VSA_get_info" new
        /\ setup_raised w tc (instr s)
        \/ results s' = results s
           /\ measure_aclr tc = true
           /\ new = expected_calls reconf retune true
           /\ (exists d a t d' e,
                 NR5G.VSA_get_ACLR w d = (inr (a, t), d') /\ aclr_fields a = inl e)
        \/ exists rec,
             results s' = (results s ++ [EvmRecord rec])%list
             /\ new = expected_calls reconf retune (measure_aclr tc)
             /\ if measure_aclr tc then
                  exists d a t d',
                    NR5G.VSA_get_ACLR w d = (inr (a, t), d')
                    /\ aclr_fields a
                       = inr [ch_pwr rec; acp_lower rec; acp_upper rec;
                              alt_lower rec; alt_upper rec]
                    /\ timings rec !! "VSA_get_ACLR" = Some t
                else
                  [ch_pwr rec; acp_lower rec; acp_upper rec; alt_lower rec; alt_upper rec]
                  = [None; None; None; None; None]
                  /\ timings rec !! "VSA_get_ACLR" = Some 0%float).
Proof.
  intros freq reconf retune s'. pose proof (freq_changed_same freq) as Hff.
  subst s'. unfold run_nr5g_measurement.
  fold freq. run_cbn. fold reconf.
  destruct (measure_aclr tc) eqn:Ha; (destruct reconf eqn:Hr; run_cbn;
    [ step_call; [|step_call; [|rewrite Hff; run_cbn]]
    | subst retune; destruct (freq_changed (previous_freq s) freq) eqn:Hf; run_cbn]).
  all: repeat (step_call; [shelve|]).
  all: try match goal with
      | |- context [aclr_fields ?x] => destruct (aclr_fields x) eqn:Haclr; run_cbn
      end.
  Unshelve.
  all: eexists; split; [calls_chain|].
  all: first
    [ left; split; [reflexivity|]; split; [cbn; solve [intuition discriminate]|];
      first [ eapply setup_VSG_Config; [|eassumption]; static_chain
            | eapply setup_VSA_Config; [|eassumption]; static_chain
            | eapply setup_VSx_freq; eassumption
            | eapply setup_VSG_pwr; eassumption ]
    | never_raised
    | right; left; split; [reflexivity|]; split; [reflexivity|]; split; [reflexivity|];
      do 5 eexists; split; eassumption
    | right; right; eexists; split; [reflexivity|]; split; [reflexivity|] ].
  all: cbn [ch_pwr acp_lower acp_upper alt_lower alt_upper timings].
  all: try (split; [reflexivity|by simplify_map_eq]).
  all: do 4 eexists; split; [eassumption|]; split; [|by simplify_map_eq].
  all: destruct (aclr_fields_shape _ _ Haclr) as [->|(?&?&?&?&?&->)]; exact Haclr.
Qed.

Lemma VSA_get_ACLR_returns w d :
  responsive w ->
  exists n r t d',
    socket w VSA n aclr_query = Replies r
    /\ NR5G.VSA_get_ACLR w d = (inr (strip (strip r), t), d').
Proof.
  intros Hw. unfold NR5G.VSA_get_ACLR. dev_cbv.
  repeat match goal with
         | |- context [socket ?w ?r ?n ?c] =>
             let E := fresh "E" in
             destruct (socket w r n c) as [?e|?t] eqn:E; dev_cbv;
             [destruct (Hw r n c) as [? ?Hx]; congruence|]
         end.
  do 4 eexists. split; [eassumption|reflexivity].
Qed.

(** X11. When every line is answered, the driver has its files, the
    frequency is positive and ACLR is measured, an ACLR read-back that does
    not convert (five parts, one of them not a number) makes the test set
    append nothing, although [VSA_get_EVM] and [VSA_get_ACLR] both ran. *)
Theorem malformed_aclr_drops_record tc ts w s :
  let s' := snd (run_nr5g_measurement tc ts w s) in
  responsive w ->
  truthy (NR5G.waveform_file (self (instr s))) = true ->
  truthy (NR5G.setup_file (self (instr s))) = true ->
  (center_frequency_ghz tc * 1e9 <=? 0)%float = false ->
  measure_aclr tc = true ->
  (forall n r, socket w VSA n aclr_query = Replies r ->
               exists e, aclr_fields (strip (strip r)) = inl e) ->
  results s' = results s
  /\ exists new,
       calls (trace (instr s')) = (calls (trace (instr s)) ++ new)%list
       /\ In "VSA_get_EVM" new /\ In "VSA_get_ACLR" new.
Proof.
  intros s' Hw Hwf Hsf Hfreq Ha Hbad.
  assert (forall d a t d', NR5G.VSA_get_ACLR w d = (inr (a, t), d') ->
                           forall l, aclr_fields a <> inr l) as Hnot.
  { intros d a t d' E l Hl.
    destruct (VSA_get_ACLR_returns w d Hw) as (n & r & t0 & d0 & Hr & E0).
    rewrite E0 in E. injection E as <- _ _.
    destruct (Hbad n r Hr) as [e He]. by rewrite He in Hl. }
  destruct (run_nr5g_outcomes tc ts w s)
    as (new & Hcalls & [(_ & _ & Hraised)|[(Hres & _ & Hnew & _)|(rec & _ & _ & Hrec)]]).
  - exfalso. destruct Hraised as [d x d' Hs E|d x d' Hs E|d x d' E|d x d' E].
    + destruct (VSG_Config_returns w d Hw) as (? & ? & H); [|by rewrite H in E].
      by rewrite (static_waveform_file _ _ Hs).
    + destruct (VSA_Config_returns w d (center_frequency_ghz tc * 1e9) Hw)
        as (? & ? & H); [|done|by rewrite H in E].
      by rewrite (static_setup_file _ _ Hs).
    + destruct (VSx_freq_returns w d _ Hw Hfreq) as (? & ? & H). by rewrite H in E.
    + destruct (VSG_pwr_returns w d (power_dbm tc) Hw) as (? & H). by rewrite H in E.
  - split; [done|]. exists new. split; [done|]. rewrite Hnew. unfold expected_calls.
    rewrite !in_app_iff. cbn. tauto.
  - exfalso. rewrite Ha in Hrec. destruct Hrec as (d & a & t & d' & E & Hl & _).
    by apply (Hnot _ _ _ _ E) in Hl.
Qed.

Lemma malformed_aclr_drops_record_witness :
  let s' := snd (run_nr5g_measurement test_A 1 (aclr_world "-10.5,-45.1,x,-50.2,-51")
                   before_A) in
  results s' = results before_A
  /\ exists new,
       calls (trace (instr s')) = (calls (trace (instr before_A)) ++ new)%list
       /\ In "VSA_get_EVM" new /\ In "VSA_get_ACLR" new.
Proof.
  apply (malformed_aclr_drops_record test_A 1 (aclr_world "-10.5,-45.1,x,-50.2,-51")
           before_A).
  - intros r n c. eexists. reflexivity.
  - reflexivity.
  - reflexivity.
  - reflexivity.
  - reflexivity.
  - intros n r [= <-]. eexists. vm_compute. reflexivity.
Defined.

Lemma aclr_fields_parts a l :
  aclr_fields a = inr l ->
  (a = "" \/ length (split "," a) <> 5) /\ l = [None; None; None; None; None]
  \/ exists v1 v2 v3 v4 v5,
       map float_of_str (split "," a) = [inr v1; inr v2; inr v3; inr v4; inr v5]
       /\ l = [Some v1; Some v2; Some v3; Some v4; Some v5].
Proof.
  unfold aclr_fields. destruct a as [|c a]; [intros [= <-]; left; auto|].
  destruct (split "," (String c a)) as [|p1 [|p2 [|p3 [|p4 [|p5 [|p6 ps]]]]]];
    try (intros [= <-]; left; split; [right; cbn; lia|reflexivity]).
  cbn [map].
  destruct (float_of_str p1), (float_of_str p2), (float_of_str p3), (float_of_str p4),
    (float_of_str p5); try done.
  intros [= <-]. right. by do 5 eexists.
Qed.

(** X12. The ACLR fields of an appended record are all absent or all
    present: absent (with a timing of 0.0) when ACLR is not measured, absent
    when the read-back is empty or has not exactly five comma-separated
    parts, and otherwise the five parts converted, in order. *)
Theorem aclr_fields_of_record tc ts w s rec :
  let s' := snd (run_nr5g_measurement tc ts w s) in
  let fields := [ch_pwr rec; acp_lower rec; acp_upper rec; alt_lower rec; alt_upper rec] in
  results s' = (results s ++ [EvmRecord rec])%list ->
  measure_aclr tc = false
  /\ fields = [None; None; None; None; None]
  /\ timings rec !! "VSA_get_ACLR" = Some 0%float
  \/ measure_aclr tc = true
     /\ exists d a t d',
          NR5G.VSA_get_ACLR w d = (inr (a, t), d')
          /\ timings rec !! "VSA_get_ACLR" = Some t
          /\ ((a = "" \/ length (split "," a) <> 5)
              /\ fields = [None; None; None; None; None]
              \/ exists v1 v2 v3 v4 v5,
                   map float_of_str (split "," a)
                   = [inr v1; inr v2; inr v3; inr v4; inr v5]
                   /\ fields = [Some v1; Some v2; Some v3; Some v4; Some v5]).
Proof.
  intros s' fields Hrec.
  destruct (run_nr5g_outcomes tc ts w s)
    as (new & _ & [(Hnone & _)|[(Hnone & _)|(rec' & Hrec' & _ & Hfields)]]).
  1,2: fold s' in Hnone; rewrite Hnone in Hrec; apply (f_equal length) in Hrec;
    rewrite length_app in Hrec; cbn in Hrec; lia.
  fold s' in Hrec'. rewrite Hrec in Hrec'. apply app_inj_tail in Hrec' as [_ [= <-]].
  destruct (measure_aclr tc).
  - right. split; [done|]. destruct Hfields as (d & a & t & d' & E & Hl & Ht).
    exists d, a, t, d'. do 2 (split; [done|]).
    destruct (aclr_fields_parts _ _ Hl) as [[? ?]|(v1 & v2 & v3 & v4 & v5 & ? & ?)];
      [left|right; exists v1, v2, v3, v4, v5]; done.
  - left. by destruct Hfields.
Qed.

Lemma aclr_fields_of_record_witness :
  let w := aclr_world "-10.5,-45.1,-44.9,-50.2,-51" in
  let s' := snd (run_nr5g_measurement test_A 1 w before_A) in
  exists rec,
    results s' = (results before_A ++ [EvmRecord rec])%list
    /\ (measure_aclr test_A = false
        /\ [ch_pwr rec; acp_lower rec; acp_upper rec; alt_lower rec; alt_upper rec]
           = [None; None; None; None; None]
        /\ timings rec !! "VSA_get_ACLR" = Some 0%float
        \/ measure_aclr test_A = true
           /\ exists d a t d',
                NR5G.VSA_get_ACLR w d = (inr (a, t), d')
                /\ timings rec !! "VSA_get_ACLR" = Some t
                /\ ((a = "" \/ length (split "," a) <> 5)
                    /\ [ch_pwr rec; acp_lower rec; acp_upper rec; alt_lower rec;
                        alt_upper rec]
                       = [None; None; None; None; None]
                    \/ exists v1 v2 v3 v4 v5,
                         map float_of_str (split "," a)
                         = [inr v1; inr v2; inr v3; inr v4; inr v5]
                         /\ [ch_pwr rec; acp_lower rec; acp_upper rec; alt_lower rec;
                             alt_upper rec]
                            = [Some v1; Some v2; Some v3; Some v4; Some v5])).
Proof.
  intros w s'. eexists. split; [vm_compute; reflexivity|].
  eapply (aclr_fields_of_record test_A 1 w before_A). vm_compute. reflexivity.
Defined.

(** ** The record of an STN test set *)

Lemma str_int_inj n m : str_int n = str_int m -> n = m.
Proof.
  unfold str_int. intros H. apply to_int_inj.
  assert (forall z, NilZero.int_of_string (NilZero.string_of_int (Z.to_int z))
                    = Some (Z.to_int z)) as Hisi.
  { intros z. apply NilZero.isi; intros Hz; pose proof (f_equal Z.of_int Hz) as Hz';
      rewrite of_to in Hz'; cbn in Hz'; subst z; vm_compute in Hz; discriminate Hz. }
  apply (f_equal NilZero.int_of_string) in H. rewrite !Hisi in H. by injection H.
Qed.

Lemma marker_key_inj i j : marker_key i = marker_key j -> i = j.
Proof.
  unfold marker_key. intros H. cbn in H. injection H as H.
  apply str_int_inj in H. lia.
Qed.

Lemma marker_key_not_config i : marker_key i <> "VSA_Config".
Proof. unfold marker_key. cbn. discriminate. Qed.

#[local] Arguments marker_key : simpl never.

Lemma stn_loop_spec remaining : forall i l w s,
  exists l' s' new,
    stn_loop remaining i l w s = (inr l', s')
    /\ results s' = results s
    /\ loc_meas l' = (loc_meas l ++ new)%list
    /\ length new = remaining
    /\ Forall (marker_outcome w) new
    /\ loc_total_test_time l'
       = fold_left PrimFloat.add (successful_times new) (loc_total_test_time l)
    /\ (forall k m, new !! k = Some m ->
                    loc_timings l' !! marker_key (i + k) = Some (snd m))
    /\ (forall key, (forall k, key <> marker_key (i + k)) ->
                    loc_timings l' !! key = loc_timings l !! key).
Proof.
  induction remaining as [|n IH]; intros i l w s.
  { exists l, s, []. rewrite app_nil_r. by repeat split. }
  cbn [stn_loop]. cbv beta iota zeta delta [mbind M_bind bind mret M_ret ret try_except].
  rewrite (call_unfold STN.get_VSA_sweep_noise_mkr w s).
  destruct (STN.get_VSA_sweep_noise_mkr w (instr s)) as [[e|[marker dt]] d1] eqn:E;
    cbn [fst snd].
  all: match goal with
       | |- context [stn_loop _ ?j ?l1 ?w1 ?s2] =>
           destruct (IH j l1 w1 s2)
             as (l' & s' & new & -> & Hr & Hm & Hlen & Hzero & Htot & Hkeys & Hframe)
       end.
  all: cbn [loc_meas loc_timings loc_total_test_time] in Hm, Htot, Hframe.
  all: eexists l', s', (_ :: new).
  all: split; [reflexivity|]; split; [by rewrite Hr; destruct s|].
  all: split; [by rewrite Hm, <- app_assoc|]; split; [by cbn; rewrite Hlen|].
  all: split; [constructor; [unfold marker_outcome; cbn; by eauto 6|exact Hzero]|].
  all: split; [exact Htot|]; split.
  1,3: intros [|k] m; cbn;
    [ intros [= <-]; rewrite Nat.add_0_r, Hframe;
      [by simplify_map_eq|intros k Hk; apply marker_key_inj in Hk; lia]
    | intros Hk; rewrite <- Nat.add_succ_comm; by apply Hkeys ].
  all: intros key Hkey; rewrite Hframe;
    [ apply lookup_insert_ne; intros Hk; apply (Hkey 0); by rewrite Nat.add_0_r
    | intros k Hk; apply (Hkey (S k)); by rewrite <- Nat.add_succ_comm ].
Qed.

(** X13. The record a test set of [run_stn_measurement] appends. When
    [VSA_Config] raised it is the placeholder: no markers, no statistics,
    no timings, total time 0.0 and the message of the exception. Otherwise
    it holds one marker entry per iteration, each the outcome of a call of
    [get_VSA_sweep_noise_mkr] (a failed call is kept as an entry without
    marker and with time 0.0), a timing per iteration, a total time that
    adds the configuration time and the times of the successful
    iterations in order, statistics exactly when at least two markers were
    read, and the error [No successful measurements] exactly when none
    was. *)
Theorem stn_record_shape freq ts swp_time iterations w s :
  let s' := snd (run_stn_measurement freq ts swp_time iterations w s) in
  exists rec,
    results s' = (results s ++ [StnRecord rec])%list
    /\ stn_test_set rec = ts /\ stn_center_frequency_hz rec = freq
    /\ Main.iterations rec = iterations
    /\ ((exists e d,
           STN.VSA_Config w (instr s) = (inl e, d)
           /\ markers rec = [] /\ stats rec = None /\ stn_timings rec = ∅
           /\ total_test_time rec = 0%float /\ stn_error rec = Some (exn_msg e))
        \/ exists t d,
             STN.VSA_Config w (instr s) = (inr (tt, t), d)
             /\ length (markers rec) = iterations
             /\ Forall (marker_outcome w) (markers rec)
             /\ stn_timings rec !! "VSA_Config" = Some t
             /\ (forall k m, markers rec !! k = Some m ->
                             stn_timings rec !! marker_key k = Some (snd m))
             /\ total_test_time rec
                = fold_left PrimFloat.add (successful_times (markers rec)) (0 + t)%float
             /\ (stats rec = None /\ length (valid_markers (markers rec)) < 2
                 \/ exists report,
                      STN.get_Array_stats (valid_markers (markers rec)) = inr report
                      /\ stats rec = Some report
                      /\ 2 <= length (valid_markers (markers rec)))
             /\ (stn_error rec = Some "No successful measurements"
                 <-> valid_markers (markers rec) = [])
             /\ (stn_error rec = None <-> valid_markers (markers rec) <> [])).
Proof.
  cbv zeta. unfold run_stn_measurement.
  cbv beta iota zeta delta [mbind M_bind bind mret M_ret ret try_except eval results_append modify].
  rewrite (call_unfold STN.VSA_Config w s).
  destruct (STN.VSA_Config w (instr s)) as [[e|[[] t]] d] eqn:E; cbn [fst snd].
  { eexists. split; [reflexivity|]. do 3 (split; [reflexivity|]). left. by exists e, d. }
  match goal with
  | |- context [stn_loop _ ?j ?l1 ?w1 ?s2] =>
      destruct (stn_loop_spec iterations j l1 w1 s2)
        as (l' & s' & new & -> & Hr & Hm & Hlen & Hzero & Htot & Hkeys & Hframe)
  end.
  cbn [loc_meas loc_timings loc_total_test_time app results set_instr] in Hr, Hm, Htot, Hframe.
  rewrite Hm. clear Hm.
  assert (forall key, key = "VSA_Config" -> loc_timings l' !! key = Some t) as Hcfg.
  { intros key ->. rewrite Hframe; [by simplify_map_eq|].
    intros k Hk. by apply (marker_key_not_config k). }
  destruct (valid_markers new) as [|m1 [|m2 ms]] eqn:Hv; cbn [length Nat.leb].
  all: cbn [STN.get_Array_stats fst snd results].
  all: eexists; split; [rewrite Hr; reflexivity|].
  all: do 3 (split; [reflexivity|]); right; exists t, d.
  all: cbn [markers stats stn_timings total_test_time stn_error].
  all: rewrite ?Hv; cbn [length Nat.leb STN.get_Array_stats].
  all: split; [reflexivity|]; split; [exact Hlen|]; split; [exact Hzero|].
  all: split; [by apply Hcfg|]; split; [exact Hkeys|]; split; [exact Htot|].
  all: split; [first [left; split; [reflexivity|cbn; lia]
                     | right; eexists; split; [reflexivity|]; split; [reflexivity|cbn; lia]]|].
  all: split; split; done.
Qed.

(** ** The record of a SpurSearch test set *)

Lemma get_results_total : never_raises Spur.get_results.
Proof.
  apply never_raises_method_timer, never_raises_try. intros e. apply never_raises_ret.
Qed.

Lemma run_spur_outcomes input rbw lim p ts w s :
  (forall a b c, input <> FreqRange a b c) ->
  let fundamental_ghz :=
    match input with Scalar f => f | _ => Spur.fundamental_ghz (self (instr s)) end in
  let rbw_mhz := Spur.or_default rbw 0.01 in
  let spur_limit_dbm := Spur.or_default lim (-95) in
  let pwr := Spur.or_default p (-70) in
  exists rec s',
    run_spur_search_measurement (SpurTestConfig input rbw lim p) ts w s
    = (inr (ts + 1)%Z, s')
    /\ results s' = (results s ++ [SpurRecord rec])%list
    /\ spur_test_set rec = ts
    /\ rbw_hz rec = (rbw_mhz * 1e6)%float
    /\ spur_limit rec = spur_limit_dbm
    /\ spur_power_dbm rec = pwr
    /\ ((exists e,
           spur_step_raised w fundamental_ghz rbw_mhz spur_limit_dbm pwr e
           /\ fundamental_frequency_hz rec = None
           /\ spurs rec = []
           /\ spur_error rec = Some (exn_msg e)
           /\ spur_timings rec !! "measure" = None
           /\ spur_timings rec !! "get_results" = None)
        \/ fundamental_frequency_hz rec = Some (fundamental_ghz * 1e9)%float
           /\ (exists d t d',
                 Spur.get_results w d = (inr (spurs rec, t), d')
                 /\ spur_timings rec !! "get_results" = Some t)
           /\ spur_error rec
              = match spurs rec with [] => Some "No spurs detected" | _ => None end
           /\ dom (spur_timings rec)
              = list_to_set ["VSG_config"; "VSA_config"; "measure"; "get_results"]).
Proof.
  intros Hin fundamental_ghz rbw_mhz spur_limit_dbm pwr.
  unfold run_spur_search_measurement, with_local.
  cbv beta iota zeta delta
    [mbind M_bind bind mret M_ret ret try_except eval results_append modify get
     global zoom set_local get_local raise fst snd
     Main.fundamental_frequency_ghz Main.rbw_mhz Main.spur_limit_dbm spur_power].
  fold rbw_mhz spur_limit_dbm pwr.
  destruct input as [f|l|a b c]; [| |by destruct (Hin a b c)].
  all: subst fundamental_ghz; cbn [instr self].
  all: repeat match goal with
         | |- context [call ?m ?w1 ?s1] =>
             let H := fresh "Hc" in
             pose proof (call_results m w1 s1) as H;
             rewrite (call_unfold m w1 s1) in H |- *;
             destruct (m w1 (instr s1)) as [[?e|[? ?]] ?s] eqn:?E;
             cbn [fst snd instr results set_instr] in H |- *
         end.
  all: try match goal with
       | E : Spur.get_results ?w ?d = (inl _, _) |- _ =>
           exfalso; destruct (get_results_total w d) as [? Hn]; rewrite E in Hn;
           cbn in Hn; discriminate
       end.
  all: do 2 eexists; split; [reflexivity|]; cbn [results].
  all: split; [repeat match goal with H : results _ = _ |- _ => rewrite H end; reflexivity|].
  all: cbn [spur_test_set rbw_hz spur_limit spur_power_dbm fundamental_frequency_hz spurs
            spur_error spur_timings].
  all: do 4 (split; [reflexivity|]).
  all: first
    [ left; eexists; split;
      [ first [ eapply spur_VSG_config_raised; eassumption
              | eapply spur_VSA_config_raised; eassumption
              | eapply spur_measure_raised; eassumption ] |];
      do 3 (split; [reflexivity|]); split; by simplify_map_eq
    | right; split; [reflexivity|]; split;
      [do 3 eexists; split; [eassumption|by simplify_map_eq]|];
      split; [reflexivity|];
      rewrite !dom_insert_L, dom_empty_L; cbn [list_to_set foldr]; set_solver ].
Qed.

(** ** The report rows of the records *)

Lemma run_nr5g_setup_timings tc ts w s rec :
  let freq := (center_frequency_ghz tc * 1e9)%float in
  let reconf :=
    config_changed (previous_config s) (Config (waveform_file tc) (setup_file tc)) in
  let s' := snd (run_nr5g_measurement tc ts w s) in
  results s' = (results s ++ [EvmRecord rec])%list ->
  center_frequency_hz rec = freq
  /\ timings rec !! "VSG_config" = None /\ timings rec !! "VSA_config" = None
  /\ if reconf then
       is_Some (timings rec !! "VSG_Config") /\ is_Some (timings rec !! "VSA_Config")
     else timings rec !! "VSG_Config" = None /\ timings rec !! "VSA_Config" = None.
Proof.
  intros freq reconf s'. pose proof (freq_changed_same freq) as Hff.
  assert (forall l (r : result), l <> (l ++ [r])%list) as Hneq.
  { intros l r H. apply (f_equal length) in H. rewrite length_app in H. cbn in H. lia. }
  subst s'. unfold run_nr5g_measurement.
  fold freq. run_cbn. fold reconf.
  destruct (measure_aclr tc) eqn:Ha; (destruct reconf eqn:Hr; run_cbn;
    [ step_call; [|step_call; [|rewrite Hff; run_cbn]]
    | destruct (freq_changed (previous_freq s) freq) eqn:Hf; run_cbn]).
  all: repeat (step_call; [shelve|]).
  all: try match goal with
      | |- context [aclr_fields ?x] => destruct (aclr_fields x) eqn:Haclr; run_cbn
      end.
  Unshelve.
  all: intros Hrec; try (by destruct (Hneq _ _ Hrec)).
  all: apply app_inj_tail in Hrec as [_ [= <-]]; cbn [timings center_frequency_hz].
  all: split; [reflexivity|]; simplify_map_eq; by eauto.
Qed.

(** X14. The report row of an NR5G record can always be built: it shows
    the test frequency in GHz and no error, and the set-up times of a test
    set that skipped the reconfiguration read the integer 0, the default of
    the keys the record does not hold; after a reconfiguration they are the
    measured times. *)
Theorem report_row_of_nr5g_record tc ts w s rec :
  let freq := (center_frequency_ghz tc * 1e9)%float in
  let reconf :=
    config_changed (previous_config s) (Config (waveform_file tc) (setup_file tc)) in
  let s' := snd (run_nr5g_measurement tc ts w s) in
  results s' = (results s ++ [EvmRecord rec])%list ->
  exists row,
    Report.base_row (EvmRecord rec) = inr row
    /\ Report.lookup "Center Frequency (GHz)" row = Some (Report.flt (freq / 1e9))
    /\ Report.lookup "Error" row = Some Report.none
    /\ (reconf = false ->
        Report.lookup "VSG_Config Time (s)" row = Some (Report.int 0)
        /\ Report.lookup "VSA_Config Time (s)" row = Some (Report.int 0))
    /\ (reconf = true ->
        exists t1 t2,
          Report.lookup "VSG_Config Time (s)" row = Some (Report.flt t1)
          /\ Report.lookup "VSA_Config Time (s)" row = Some (Report.flt t2)).
Proof.
  intros freq reconf s' Hrec.
  destruct (run_nr5g_setup_timings tc ts w s rec Hrec) as (Hfreq & Hg & Ha & Hcfg).
  fold freq reconf in Hfreq, Hcfg.
  eexists. split; [reflexivity|]. cbn [Report.lookup String.eqb Ascii.eqb Bool.eqb].
  rewrite Hfreq. do 2 (split; [reflexivity|]).
  unfold Report.timing. cbn [Report.record_timings]. rewrite Hg, Ha.
  split; intros Hr; rewrite Hr in Hcfg.
  - by destruct Hcfg as [-> ->].
  - destruct Hcfg as [[t1 ->] [t2 ->]]. by eauto.
Qed.

Lemma report_row_of_nr5g_record_witness :
  let tc := test_A in
  let freq := (center_frequency_ghz tc * 1e9)%float in
  let reconf :=
    config_changed (previous_config after_A) (Config (waveform_file tc) (setup_file tc)) in
  let s' := snd (run_nr5g_measurement tc 2 quiet_world after_A) in
  exists rec,
    results s' = (results after_A ++ [EvmRecord rec])%list
    /\ exists row,
         Report.base_row (EvmRecord rec) = inr row
         /\ Report.lookup "Center Frequency (GHz)" row = Some (Report.flt (freq / 1e9))
         /\ Report.lookup "Error" row = Some Report.none
         /\ (reconf = false ->
             Report.lookup "VSG_Config Time (s)" row = Some (Report.int 0)
             /\ Report.lookup "VSA_Config Time (s)" row = Some (Report.int 0))
         /\ (reconf = true ->
             exists t1 t2,
               Report.lookup "VSG_Config Time (s)" row = Some (Report.flt t1)
               /\ Report.lookup "VSA_Config Time (s)" row = Some (Report.flt t2)).
Proof.
  intros tc freq reconf s'.
  eexists. split; [vm_compute; reflexivity|].
  eapply (report_row_of_nr5g_record test_A 2 quiet_world after_A). vm_compute. reflexivity.
Defined.

(** X15. The report row of the record a SpurSearch test set appends (for a
    frequency entry that is not a range). When a step of the test set
    raised, the record is the placeholder without fundamental frequency and
    its row cannot be built: dividing [None] by 1e9 raises a [TypeError].
    Otherwise the row shows the fundamental in GHz and flags a test set
    without spurs. *)
Theorem report_row_of_spur_record input rbw lim p ts w s :
  (forall a b c, input <> FreqRange a b c) ->
  let fundamental_ghz :=
    match input with Scalar f => f | _ => Spur.fundamental_ghz (self (instr s)) end in
  exists rec s',
    run_spur_search_measurement (SpurTestConfig input rbw lim p) ts w s
    = (inr (ts + 1)%Z, s')
    /\ results s' = (results s ++ [SpurRecord rec])%list
    /\ ((exists e,
           spur_step_raised w fundamental_ghz (Spur.or_default rbw 0.01)
             (Spur.or_default lim (-95)) (Spur.or_default p (-70)) e
           /\ error (SpurRecord rec) = Some (exn_msg e)
           /\ Report.base_row (SpurRecord rec)
              = inl (Exn TypeError
                       "unsupported operand type(s) for /: 'NoneType' and 'float'"))
        \/ exists row,
             Report.base_row (SpurRecord rec) = inr row
             /\ Report.lookup "Center Frequency (GHz)" row
                = Some (Report.flt (fundamental_ghz * 1e9 / 1e9))
             /\ Report.lookup "Error" row
                = Some (match spurs rec with
                        | [] => Report.str "No spurs detected"
                        | _ => Report.none
                        end)).
Proof.
  intros Hin fundamental_ghz.
  destruct (run_spur_outcomes input rbw lim p ts w s Hin)
    as (rec & s' & Hrun & Hres & _ & _ & _ & _ & Hout).
  exists rec, s'. do 2 (split; [done|]).
  destruct Hout as [(e & Hraised & Hf & _ & He & _)|(Hf & _ & He & _)].
  - left. exists e. split; [done|]. split; [exact He|].
    unfold Report.base_row, Report.get_default. cbn [Report.entries app Report.lookup
      String.eqb Ascii.eqb Bool.eqb]. rewrite Hf, He. reflexivity.
  - right. unfold Report.base_row, Report.get, Report.get_default.
    cbn [Report.entries]. rewrite Hf, He.
    destruct (spurs rec);
      cbn [app Report.lookup String.eqb Ascii.eqb Bool.eqb Report.opt Report.truediv
           Report.truth];
      destruct (negb (rbw_hz rec =? 0)%float); cbn [Report.truediv];
      (eexists; split; [reflexivity|]);
      cbn [Report.lookup String.eqb Ascii.eqb Bool.eqb]; split; reflexivity.
Qed.

Lemma report_row_of_spur_record_witness :
  let w := failing_world VSG in
  let s := fresh_state (self (spur_device 2.44)) in
  exists rec s',
    run_spur_search_measurement (SpurTestConfig (Scalar 2.44) None None None) 1 w s
    = (inr 2%Z, s')
    /\ results s' = (results s ++ [SpurRecord rec])%list
    /\ ((exists e,
           spur_step_raised w 2.44 (Spur.or_default None 0.01)
             (Spur.or_default None (-95)) (Spur.or_default None (-70)) e
           /\ error (SpurRecord rec) = Some (exn_msg e)
           /\ Report.base_row (SpurRecord rec)
              = inl (Exn TypeError
                       "unsupported operand type(s) for /: 'NoneType' and 'float'"))
        \/ exists row,
             Report.base_row (SpurRecord rec) = inr row
             /\ Report.lookup "Center Frequency (GHz)" row
                = Some (Report.flt (2.44 * 1e9 / 1e9))
             /\ Report.lookup "Error" row
                = Some (match spurs rec with
                        | [] => Report.str "No spurs detected"
                        | _ => Report.none
                        end)).
Proof.
  apply (report_row_of_spur_record (Scalar 2.44) None None None 1 (failing_world VSG)
           (fresh_state (self (spur_device 2.44)))).
  discriminate.
Defined.

(** ** [std_config] *)

Lemma set_freq_same d : NR5G.set_freq (NR5G.freq d) d = d.
Proof. by destruct d. Qed.

Lemma set_pwr_same d : NR5G.set_pwr (NR5G.pwr d) d = d.
Proof. by destruct d. Qed.

(** X16. [std_config] on an NR5G driver. Without waveform file it raises
    before any line is sent. With a frequency attribute that is not
    positive it raises [Invalid frequency] only after the generator was
    configured and its output switched on, and before the analyzer was
    tuned. With both files, a positive frequency and answering instruments
    it returns, enters [VSG_Config], [VSA_Config], [VSx_freq] and
    [VSA_sweep] in this order, tunes each instrument twice to the
    frequency attribute and leaves the attributes as they were. *)
Theorem std_config_outcomes w d :
  (truthy (NR5G.waveform_file (self d)) = false ->
   exists d', Utils.std_config w d
              = (inl (Exn ValueError "No waveform file provided"), d')
              /\ ops d' = ops d /\ self d' = self d)
  /\ (responsive w -> truthy (NR5G.waveform_file (self d)) = true ->
      (NR5G.freq (self d) <=? 0)%float = true ->
      exists d', Utils.std_config w d = (inl (Exn ValueError "Invalid frequency"), d')
                 /\ calls (trace d') = (calls (trace d) ++ ["VSG_Config"; "VSA_Config"])%list
                 /\ In (Write VSG [Txt ":OUTP1:STAT 1"]) (trace d')
                 /\ analyzer_frequencies (trace d') = analyzer_frequencies (trace d))
  /\ (responsive w -> truthy (NR5G.waveform_file (self d)) = true ->
      truthy (NR5G.setup_file (self d)) = true ->
      (NR5G.freq (self d) <=? 0)%float = false ->
      exists d', Utils.std_config w d = (inr tt, d')
                 /\ self d' = self d
                 /\ calls (trace d')
                    = (calls (trace d)
                       ++ ["VSG_Config"; "VSA_Config"; "VSx_freq"; "VSA_sweep"])%list
                 /\ generator_frequencies (trace d')
                    = (generator_frequencies (trace d)
                       ++ [NR5G.freq (self d); NR5G.freq (self d)])%list
                 /\ analyzer_frequencies (trace d')
                    = (analyzer_frequencies (trace d)
                       ++ [NR5G.freq (self d); NR5G.freq (self d)])%list).
Proof.
  unfold Utils.std_config, NR5G.VSG_Config, NR5G.VSA_Config, NR5G.VSx_freq, NR5G.VSA_sweep,
    NR5G.VSG_pwr, clear_error.
  split; [|split].
  - intros Hwf. dev_cbv.
    destruct (NR5G.waveform_file (self d)) as [[|c path]|]; try done; dev_cbv; by eexists.
  - intros Hw Hwf Hf. dev_cbv.
    destruct (NR5G.waveform_file (self d)) as [[|c path]|]; try done. dev_cbv.
    answer Hw. rewrite ?set_pwr_same, ?set_freq_same. rewrite Hf. dev_cbv.
    eexists. split; [reflexivity|]. cbn [trace].
    rewrite ?generator_frequencies_snoc, ?analyzer_frequencies_snoc, !calls_app.
    cbn [generator_frequency analyzer_frequency String.eqb Ascii.eqb Bool.eqb andb].
    rewrite ?app_nil_r, !in_app_iff. cbn. split; [by rewrite <- !app_assoc|]. split; [|done].
    tauto.
  - intros Hw Hwf Hsf Hf. dev_cbv.
    destruct (NR5G.waveform_file (self d)) as [[|c path]|]; try done. dev_cbv.
    answer Hw. rewrite ?set_pwr_same, ?set_freq_same. rewrite Hf. dev_cbv.
    destruct (NR5G.setup_file (self d)) as [[|c' path']|] eqn:Es; try done. dev_cbv.
    answer Hw. rewrite ?set_pwr_same, ?set_freq_same. rewrite Hf. dev_cbv. answer Hw.
    rewrite ?set_pwr_same, ?set_freq_same.
    eexists. split; [reflexivity|]. cbn [trace self].
    rewrite ?generator_frequencies_snoc, ?analyzer_frequencies_snoc, !calls_app.
    cbn [generator_frequency analyzer_frequency String.eqb Ascii.eqb Bool.eqb andb].
    rewrite ?app_nil_r. cbn. by rewrite <- !app_assoc.
Qed.

Lemma std_config_outcomes_witness :
  let d := instr before_A in
  exists d', Utils.std_config quiet_world d = (inr tt, d')
             /\ self d' = self d
             /\ calls (trace d')
                = (calls (trace d)
                   ++ ["VSG_Config"; "VSA_Config"; "VSx_freq"; "VSA_sweep"])%list
             /\ generator_frequencies (trace d')
                = (generator_frequencies (trace d)
                   ++ [NR5G.freq (self d); NR5G.freq (self d)])%list
             /\ analyzer_frequencies (trace d')
                = (analyzer_frequencies (trace d)
                   ++ [NR5G.freq (self d); NR5G.freq (self d)])%list.
Proof.
  intros d.
  destruct (std_config_outcomes quiet_world d) as (_ & _ & H).
  apply H; [intros r n c; eexists; reflexivity|reflexivity..].
Defined.

(** ** Statistics of markers that hold a NaN *)

Lemma is_nan_spec x : Np.is_nan x = true <-> Prim2SF x = S754_nan.
Proof.
  unfold Np.is_nan. rewrite negb_true_iff, FloatAxioms.eqb_spec. unfold SFeqb.
  destruct (Prim2SF x) as [[]|[]| |[] m e]; cbn; try done.
  all: rewrite Z.compare_refl, ?Pos.compare_cont_refl; done.
Qed.

Lemma is_nan_eq x : Np.is_nan x = true -> x = nan.
Proof. intros H%is_nan_spec. apply Prim2SF_inj. by rewrite H. Qed.

Lemma nan_add_l y : (nan + y)%float = nan.
Proof. apply Prim2SF_inj. rewrite add_spec. by destruct (Prim2SF y). Qed.

Lemma nan_add_r x : (x + nan)%float = nan.
Proof. apply Prim2SF_inj. rewrite add_spec. by destruct (Prim2SF x) as [[]|[]| |]. Qed.

Lemma nan_sub_l y : (nan - y)%float = nan.
Proof. apply Prim2SF_inj. rewrite sub_spec. by destruct (Prim2SF y). Qed.

Lemma nan_sub_r x : (x - nan)%float = nan.
Proof. apply Prim2SF_inj. rewrite sub_spec. by destruct (Prim2SF x) as [[]|[]| |]. Qed.

Lemma nan_div_l y : (nan / y)%float = nan.
Proof. apply Prim2SF_inj. rewrite div_spec. by destruct (Prim2SF y). Qed.

Lemma nan_mul : (nan * nan)%float = nan.
Proof. reflexivity. Qed.


Lemma nan_ltb_r x : (x <? nan)%float = false.
Proof. rewrite FloatAxioms.ltb_spec. by destruct (Prim2SF x) as [[]|[]| |]. Qed.

Lemma minimum_nan_l y : Np.minimum nan y = nan.
Proof. unfold Np.minimum. change (Np.is_nan nan) with true. by rewrite orb_true_r. Qed.

Lemma maximum_nan_l y : Np.maximum nan y = nan.
Proof. unfold Np.maximum. change (Np.is_nan nan) with true. by rewrite orb_true_r. Qed.

Lemma minimum_nan_r x : Np.minimum x nan = nan.
Proof.
  unfold Np.minimum. rewrite nan_ltb_r. cbn [orb].
  destruct (Np.is_nan x) eqn:Hx; [by apply is_nan_eq|done].
Qed.

Lemma maximum_nan_r x : Np.maximum x nan = nan.
Proof.
  unfold Np.maximum.
  assert ((nan <? x)%float = false) as ->.
  { rewrite FloatAxioms.ltb_spec. by destruct (Prim2SF x). }
  cbn [orb]. destruct (Np.is_nan x) eqn:Hx; [by apply is_nan_eq|done].
Qed.

(** A reduction that keeps a NaN once met returns NaN for a list that
    holds one. *)
Lemma fold_nan (op : float -> float -> float) x xs :
  (forall y, op nan y = nan) -> (forall y, op y nan = nan) ->
  In nan (x :: xs) -> fold_left op xs x = nan.
Proof.
  intros Hl Hr. revert x.
  assert (forall ys, fold_left op ys nan = nan) as Hnan.
  { induction ys as [|z zs IH]; [done|]. cbn. by rewrite Hl. }
  induction xs as [|y ys IH]; intros x [->|H]; cbn; try done.
  - by rewrite Hl.
  - destruct H as [->|H]; [by rewrite Hr|]. apply IH. by right.
Qed.

(** A NaN among the elements makes the sum NaN, whatever the order of the
    additions. *)
Lemma accumulate_nan n : forall r a,
  length a <= n -> lanes_nan r \/ In nan a ->
  lanes_nan (fst (Np.accumulate r a)) \/ In nan (snd (Np.accumulate r a)).
Proof.
  induction n as [n IH] using lt_wf_ind. intros r a Hn H.
  destruct a as [|a0 [|a1 [|a2 [|a3 [|a4 [|a5 [|a6 [|a7 rest]]]]]]]]; try exact H.
  destruct r as [[[[[[[r0 r1] r2] r3] r4] r5] r6] r7]. cbn [Np.accumulate].
  apply (IH (length rest)); [cbn in Hn; lia|lia|].
  unfold lanes_nan in *. cbn [In] in *.
  destruct H as [H|H].
  - left. repeat (destruct H as [->|H]; [rewrite nan_add_l; tauto|]). done.
  - repeat (destruct H as [->|H]; [left; rewrite nan_add_r; tauto|]). by right.
Qed.

Lemma block_sum_nan a : In nan a -> Np.block_sum a = nan.
Proof.
  intros H. unfold Np.block_sum.
  destruct a as [|a0 [|a1 [|a2 [|a3 [|a4 [|a5 [|a6 [|a7 rest]]]]]]]];
    try (apply fold_nan; [apply nan_add_l|apply nan_add_r|by right]).
  destruct (accumulate_nan (length rest) (a0, a1, a2, a3, a4, a5, a6, a7) rest) as [Hr|Ht].
  { done. }
  { unfold lanes_nan. cbn [In] in *. tauto. }
  - destruct (Np.accumulate _ rest) as [[[[[[[[r0 r1] r2] r3] r4] r5] r6] r7] tail].
    apply fold_nan; [apply nan_add_l|apply nan_add_r|]. left.
    unfold lanes_nan in Hr. cbn [fst In] in Hr.
    repeat (destruct Hr as [->|Hr];
      [by repeat first [rewrite nan_add_l | rewrite nan_add_r]|]). done.
  - destruct (Np.accumulate _ rest) as [[[[[[[[r0 r1] r2] r3] r4] r5] r6] r7] tail].
    apply fold_nan; [apply nan_add_l|apply nan_add_r|]. by right.
Qed.

Lemma pairwise_sum_nan fuel : forall a, In nan a -> Np.pairwise_sum fuel a = nan.
Proof.
  induction fuel as [|f IH]; intros a H; cbn [Np.pairwise_sum]; [by apply block_sum_nan|].
  destruct (128 <? length a)%nat; [|by apply block_sum_nan]. cbv zeta.
  rewrite <- (firstn_skipn (length a / 2 - (length a / 2) mod 8) a) in H.
  apply in_app_or in H as [H|H]; rewrite (IH _ H); [apply nan_add_l|apply nan_add_r].
Qed.

Lemma sum_nan a : In nan a -> Np.sum a = nan.
Proof. intros H. unfold Np.sum. rewrite (pairwise_sum_nan _ _ H). apply nan_add_r. Qed.

(** X17. One NaN among the markers turns every figure of the statistics
    report into [nan], wherever it stands in the array. *)
Theorem nan_marker_spoils_statistics a :
  In nan a ->
  STN.get_Array_stats a = inr "Min:nan Max:nan Avg:nan StdDev:nan Delta:nan".
Proof.
  intros H. destruct a as [|x xs]; [done|]. unfold STN.get_Array_stats.
  unfold Np.min, Np.max.
  rewrite (fold_nan Np.minimum x xs minimum_nan_l minimum_nan_r H).
  rewrite (fold_nan Np.maximum x xs maximum_nan_l maximum_nan_r H).
  unfold Np.std, Np.mean. rewrite (sum_nan _ H), nan_div_l. cbn [map].
  rewrite sum_nan, nan_div_l; [done|]. left. by rewrite nan_sub_r.
Qed.

Lemma nan_marker_spoils_statistics_witness :
  STN.get_Array_stats [(-90.5)%float; nan; (-91)%float]
  = inr "Min:nan Max:nan Avg:nan StdDev:nan Delta:nan".
Proof. apply nan_marker_spoils_statistics. right. left. reflexivity. Defined.

(** ** What a test set of the STN runner sends *)

Lemma STN_VSA_Config_self : preserves (fun d => self d) STN.VSA_Config.
Proof. unfold STN.VSA_Config, STN.STN_Noise_Marker, clear_error. attr_tac. Qed.

Lemma get_VSA_sweep_noise_mkr_self :
  preserves (fun d => self d) STN.get_VSA_sweep_noise_mkr.
Proof. unfold STN.get_VSA_sweep_noise_mkr, queryFloat. attr_tac. Qed.

(** The trace only grows. *)
Lemma get_VSA_sweep_noise_mkr_trace w d :
  exists new, trace (snd (STN.get_VSA_sweep_noise_mkr w d)) = (trace d ++ new)%list.
Proof.
  unfold STN.get_VSA_sweep_noise_mkr. dev_cbv.
  repeat match goal with
         | |- context [socket ?w ?r ?n ?c] =>
             destruct (socket w r n c) as [?e|?t]; dev_cbv
         end.
  all: try match goal with |- context [float_of_str ?x] => destruct (float_of_str x) end.
  all: dev_cbv; rewrite <- ?app_assoc; by eexists.
Qed.

Lemma stn_loop_instr remaining : forall i l w s,
  self (instr (snd (stn_loop remaining i l w s))) = self (instr s)
  /\ exists new,
       trace (instr (snd (stn_loop remaining i l w s))) = (trace (instr s) ++ new)%list.
Proof.
  induction remaining as [|n IH]; intros i l w s.
  { split; [done|]. exists []. by rewrite app_nil_r. }
  cbn [stn_loop]. cbv beta iota zeta delta [mbind M_bind bind mret M_ret ret try_except].
  rewrite (call_unfold STN.get_VSA_sweep_noise_mkr w s).
  pose proof (get_VSA_sweep_noise_mkr_self w (instr s)) as Hs.
  destruct (get_VSA_sweep_noise_mkr_trace w (instr s)) as [new1 Ht].
  destruct (STN.get_VSA_sweep_noise_mkr w (instr s)) as [[e|[marker dt]] d1];
    cbn [fst snd] in *.
  all: match goal with
       | |- context [stn_loop _ ?j ?l1 ?w1 ?s2] =>
           destruct (IH j l1 w1 s2) as (-> & new & ->)
       end.
  all: destruct s; cbn [instr set_instr] in *; rewrite Ht, <- app_assoc; by eauto.
Qed.

(** An event is among those appended to a trace. *)
Ltac sent :=
  repeat first [ apply in_or_app; right; left; reflexivity | apply in_or_app; left ].

(** X18. The frequency and sweep-time arguments of [run_stn_measurement]
    only label the record. Whatever they are, the test set sends the same
    lines and leaves the instruments and the driver in the same state, the
    driver's attributes unchanged; the record holds the arguments. When the
    instruments answer, the analyzer was tuned to the driver's frequency
    attribute and swept with the fixed sweep time 0.005. *)
Theorem stn_arguments_only_label freq ts swp_time iterations w s freq2 ts2 swp_time2 :
  let s' := snd (run_stn_measurement freq ts swp_time iterations w s) in
  let s2 := snd (run_stn_measurement freq2 ts2 swp_time2 iterations w s) in
  instr s' = instr s2
  /\ self (instr s') = self (instr s)
  /\ (exists rec,
        results s' = (results s ++ [StnRecord rec])%list
        /\ stn_center_frequency_hz rec = freq /\ sweep_time rec = swp_time)
  /\ (responsive w ->
      In (Write VSA [Txt ":SENS:FREQ:CENT "; Num (STN.frequency (self (instr s)))])
        (trace (instr s'))
      /\ In (Write VSA [Txt "SENS:SWE:TIME 0.005"]) (trace (instr s'))).
Proof.
  cbv zeta. unfold run_stn_measurement.
  cbv beta iota zeta delta [mbind M_bind bind mret M_ret ret try_except eval results_append modify].
  rewrite (call_unfold STN.VSA_Config w s).
  pose proof (STN_VSA_Config_self w (instr s)) as Hself.
  assert (responsive w ->
          In (Write VSA [Txt ":SENS:FREQ:CENT "; Num (STN.frequency (self (instr s)))])
            (trace (snd (STN.VSA_Config w (instr s))))
          /\ In (Write VSA [Txt "SENS:SWE:TIME 0.005"])
               (trace (snd (STN.VSA_Config w (instr s))))
          /\ exists t, fst (STN.VSA_Config w (instr s)) = inr (tt, t)) as Hsent.
  { intros Hw. unfold STN.VSA_Config, STN.STN_Noise_Marker, clear_error. dev_cbv.
    answer Hw. split; [sent|]. split; [sent|]. by eexists. }
  destruct (STN.VSA_Config w (instr s)) as [[e|[[] t]] d] eqn:E; cbn [fst snd] in *.
  { split; [done|]. split; [by destruct s|]. split; [by eexists|].
    intros Hw. destruct (Hsent Hw) as (_ & _ & t & [=]). }
  match goal with
  | |- context [stn_loop _ ?j ?l1 ?w1 ?s2] =>
      destruct (stn_loop_instr iterations j l1 w1 s2) as (Hs & new & Ht);
      destruct (stn_loop_results iterations j l1 w1 s2) as (l' & s1 & Hl & Hr);
      rewrite Hl in Hs, Ht |- *; cbn [fst snd] in Hs, Ht |- *
  end.
  destruct (valid_markers (loc_meas l')) as [|m1 [|m2 ms]]; cbn [length Nat.leb];
    cbn [STN.get_Array_stats fst snd instr results].
  all: split; [reflexivity|]; split; [by rewrite Hs; destruct s|].
  all: split; [eexists; split; [rewrite Hr; by destruct s|done]|].
  all: intros Hw; destruct (Hsent Hw) as (H1 & H2 & _); rewrite Ht; destruct s;
    cbn [instr set_instr]; rewrite !in_app_iff; tauto.
Qed.

Lemma stn_arguments_only_label_witness :
  let s := fresh_state (STN.init 6e9) in
  let s' := snd (run_stn_measurement 7e9 1 1 5 quiet_world s) in
  In (Write VSA [Txt ":SENS:FREQ:CENT "; Num 6e9]) (trace (instr s'))
  /\ In (Write VSA [Txt "SENS:SWE:TIME 0.005"]) (trace (instr s')).
Proof.
  intros s s'.
  destruct (stn_arguments_only_label 7e9 1 1 5 quiet_world s 7e9 1 1) as (_ & _ & _ & H).
  apply H. intros r n c. eexists. reflexivity.
Defined.
